(** * Port probing, free-port search and the Port Reaper of quantum_supremacy

    Shallow embedding of [kill_port.py], [start_server.py] and
    [start_server_python.py].  Python control flow (exceptions, printing,
    the process environment) is modelled by a small state-and-exception
    monad [M]; everything the scripts ask of the operating system (socket
    connects, subprocess runs, operator input) is read from a [World]
    record of oracle answers. *)

From Stdlib Require Import ZArith Bool String Ascii.
From stdpp Require Import base gmap strings.
Open Scope Z_scope.

(** ** Python exceptions *)

(** Socket-level errors a TCP probe can raise ([socket.gaierror],
    [socket.timeout], any other [OSError]). *)
Inductive sock_error :=
  | Gaierror
  | SockTimeout
  | SockOSError.

Inductive exn :=
  | SockErr (e : sock_error)
  | OverflowError        (* connect_ex with a port outside 0..65535 *)
  | ValueError           (* int() of a malformed string *)
  | EOFError             (* input() on a closed stdin *)
  | FileNotFoundError
  | PermissionError
  | TimeoutExpired       (* subprocess timeout *)
  | CalledProcessError (code : Z)
  | KeyboardInterrupt
  | SystemExit (code : Z).

(** [isinstance(e, Exception)]: every class above except the two that
    derive from [BaseException] only. *)
Definition is_exception (e : exn) : bool :=
  match e with
  | KeyboardInterrupt | SystemExit _ => false
  | _ => true
  end.

Inductive Result (A : Type) :=
  | Ok (a : A)
  | Raise (e : exn).
Arguments Ok {A} a.
Arguments Raise {A} e.

(** ** Observable events *)

Inductive event :=
  | EvPrint (msg : string)
  | EvPrompt (msg : string)                       (* input(msg) *)
  | EvRun (cmd : list string) (env : gmap string string)
  | EvKillCall (pid : Z)                          (* kill_process(pid) entered *)
  | EvBanner (port : Z)                           (* print_header(port) *)
  | EvBind (host : string) (port : Z)             (* HTTPServer((host, port)) *)
  | EvBrowserThread (port : Z)                    (* Thread(open_browser, (port,)) *)
  | EvServe.                                      (* httpd.serve_forever() *)

Record St := mkSt { st_env : gmap string string; st_log : list event }.

(** ** The effect monad: state (environment and log) plus exceptions *)

Definition M (A : Type) := St -> Result A * St.

Definition ret {A} (a : A) : M A := fun s => (Ok a, s).
Definition bind {A B} (m : M A) (f : A -> M B) : M B :=
  fun s => match m s with
           | (Ok a, s') => f a s'
           | (Raise e, s') => (Raise e, s')
           end.
Definition raise {A} (e : exn) : M A := fun s => (Raise e, s).

Notation "'let*' x ':=' m 'in' k" := (bind m (fun x => k))
  (at level 200, x name, m at level 100, k at level 200).

(** [try: m except ...]: the handler answers [Some] for the exceptions its
    [except] clauses match; others propagate. *)
Definition try_except {A} (m : M A) (h : exn -> option (M A)) : M A :=
  fun s => match m s with
           | (Raise e, s') =>
               match h e with Some k => k s' | None => (Raise e, s') end
           | r => r
           end.

Definition emit (ev : event) : M unit :=
  fun s => (Ok tt, mkSt (st_env s) (st_log s ++ [ev])).

Definition print (msg : string) : M unit := emit (EvPrint msg).

(** [str(n)] for a Python int. *)
Definition digit_char (d : Z) : Ascii.ascii := Ascii.ascii_of_nat (48 + Z.to_nat d).

Fixpoint str_N_fuel (fuel : nat) (n : Z) (acc : string) : string :=
  match fuel with
  | O => acc
  | S f => let acc' := String (digit_char (n mod 10)) acc in
           if n <? 10 then acc' else str_N_fuel f (n / 10) acc'
  end.

Definition str_Z (n : Z) : string :=
  if n <? 0 then String (Ascii.ascii_of_nat 45) (str_N_fuel (S (Z.to_nat (Z.log2 (- n)))) (- n) EmptyString)
  else str_N_fuel (S (Z.to_nat (Z.log2 n))) n EmptyString.


(** ** Python string methods, on ASCII text *)

Module PyStr.

Definition is_space (c : Ascii.ascii) : bool :=
  let n := Ascii.nat_of_ascii c in
  ((9 <=? n) && (n <=? 13))%nat || ((28 <=? n) && (n <=? 32))%nat.

Definition is_digit (c : Ascii.ascii) : bool :=
  let n := Ascii.nat_of_ascii c in ((48 <=? n) && (n <=? 57))%nat.

Fixpoint lstrip_by (p : Ascii.ascii -> bool) (s : string) : string :=
  match s with
  | EmptyString => EmptyString
  | String c s' => if p c then lstrip_by p s' else s
  end.

Definition rstrip_by (p : Ascii.ascii -> bool) (s : string) : string :=
  string_of_list_ascii (rev (list_ascii_of_string
    (lstrip_by p (string_of_list_ascii (rev (list_ascii_of_string s)))))).

(** [s.strip()] and [s.strip(chars)] *)
Definition strip (s : string) : string := rstrip_by is_space (lstrip_by is_space s).
Definition strip_char (ch : Ascii.ascii) (s : string) : string :=
  let p c := bool_decide (c = ch) in rstrip_by p (lstrip_by p s).

(** [s.lower()] *)
Definition lower_char (c : Ascii.ascii) : Ascii.ascii :=
  let n := Ascii.nat_of_ascii c in
  if ((65 <=? n) && (n <=? 90))%nat then Ascii.ascii_of_nat (n + 32) else c.
Fixpoint lower (s : string) : string :=
  match s with
  | EmptyString => EmptyString
  | String c s' => String (lower_char c) (lower s')
  end.

(** [s.isdigit()] *)
Definition isdigit (s : string) : bool :=
  match s with
  | EmptyString => false
  | _ => forallb is_digit (list_ascii_of_string s)
  end.

(** [sub in s] *)
Fixpoint contains (sub s : string) : bool :=
  String.prefix sub s ||
  match s with
  | EmptyString => false
  | String _ s' => contains sub s'
  end.

(** [s.split(sep)] for a non-empty [sep]: the piece before the first
    occurrence, then the split of the rest. *)
Fixpoint split_sep_aux (fuel : nat) (sep s : string) (cur : string) : list string :=
  match fuel with
  | O => [String.append cur s]
  | S f =>
      if String.prefix sep s then
        cur :: split_sep_aux f sep (String.substring (String.length sep)
                                      (String.length s) s) EmptyString
      else match s with
           | EmptyString => [cur]
           | String c s' => split_sep_aux f sep s' (String.append cur (String c EmptyString))
           end
  end.
Definition split_sep (sep s : string) : list string :=
  split_sep_aux (S (String.length s)) sep s EmptyString.

(** [s.split()]: maximal runs of non-whitespace. *)
Fixpoint split_ws_aux (s : string) (cur : string) : list string :=
  match s with
  | EmptyString => if String.eqb cur EmptyString then [] else [cur]
  | String c s' =>
      if is_space c then
        (if String.eqb cur EmptyString then [] else [cur]) ++ split_ws_aux s' EmptyString
      else split_ws_aux s' (String.append cur (String c EmptyString))
  end.
Definition split_ws (s : string) : list string := split_ws_aux s EmptyString.

(** [s.split(None, 1)]: the first word, then the rest with its leading
    whitespace removed (kept only when non-empty). *)
Fixpoint first_word (s : string) : string * string :=
  match s with
  | EmptyString => (EmptyString, EmptyString)
  | String c s' =>
      if is_space c then (EmptyString, s)
      else let (a, b) := first_word s' in (String c a, b)
  end.
Definition split_ws1 (s : string) : list string :=
  let s0 := lstrip_by is_space s in
  match s0 with
  | EmptyString => []
  | _ => let (a, b) := first_word s0 in
         let b' := lstrip_by is_space b in
         if String.eqb b' EmptyString then [a] else [a; b']
  end.

(** [int(s)] for a string: surrounding whitespace, an optional sign, then
    decimal digits with single underscores between them. *)
Fixpoint digits_value (l : list Ascii.ascii) (acc : Z) (prev_digit : bool) : option Z :=
  match l with
  | [] => if prev_digit then Some acc else None
  | c :: l' =>
      if is_digit c then
        digits_value l' (acc * 10 + (Z.of_nat (Ascii.nat_of_ascii c) - 48)) true
      else if bool_decide (c = "_"%char) && prev_digit then digits_value l' acc false
      else None
  end.

(** The whitespace [int()] skips around the number ([Py_ISSPACE]): tab,
    newline, vertical tab, form feed, carriage return and space; unlike
    [str.strip()], not the separators [\x1c]..[\x1f]. *)
Definition is_int_space (c : Ascii.ascii) : bool :=
  let n := Ascii.nat_of_ascii c in
  ((9 <=? n) && (n <=? 13))%nat || (n =? 32)%nat.

(** CPython 3.11's default [sys.get_int_max_str_digits()]: [int()] raises
    [ValueError] on a decimal text of more digits. *)
Definition max_str_digits : nat := 4300.

Definition count_digits (l : list Ascii.ascii) : nat := length (List.filter is_digit l).

(** The ASCII text the string functions of this module are written for;
    [int()] also reads non-ASCII digits and spaces, which this model does
    not decode. *)
Definition is_ascii (s : string) : bool :=
  forallb (fun c => (Ascii.nat_of_ascii c <? 128)%nat) (list_ascii_of_string s).

Definition int_of_string (s : string) : option Z :=
  match list_ascii_of_string (rstrip_by is_int_space (lstrip_by is_int_space s)) with
  | c :: l =>
      if bool_decide (c = "-"%char) then
        if (max_str_digits <? count_digits l)%nat then None
        else option_map Z.opp (digits_value l 0 false)
      else if bool_decide (c = "+"%char) then
        if (max_str_digits <? count_digits l)%nat then None
        else digits_value l 0 false
      else if (max_str_digits <? count_digits (c :: l))%nat then None
      else digits_value (c :: l) 0 false
  | [] => None
  end.

(** [s * n] *)
Fixpoint repeat_str (s : string) (n : nat) : string :=
  match n with O => EmptyString | S k => String.append s (repeat_str s k) end.

End PyStr.

(** ** The outside world *)

(** Result of [subprocess.run(..., capture_output=True, text=True)]. *)
Record Completed := mkCompleted { returncode : Z; stdout : string }.

Inductive run_outcome :=
  | Ran (c : Completed)
  | RunRaised (e : exn).

Record World := mkWorld {
  w_system : string;                                  (* platform.system() *)
  w_argv : list string;                               (* sys.argv[1:] *)
  w_socket : option sock_error;                       (* socket.socket(): error, if any *)
  w_connect : string -> Z -> Z + sock_error;          (* connect_ex on a valid port *)
  w_run : list string -> run_outcome;                 (* subprocess.run *)
  w_input : option string                             (* input(): None = EOF *)
}.

Section Program.
Variable w : World.

(** [sock.connect_ex((host, port))]: CPython rejects a port outside
    0..65535 with [OverflowError] before connecting; otherwise it returns
    0 on success or the errno, and raises on resolution and socket errors. *)
Definition connect_ex (host : string) (port : Z) : M Z :=
  if (0 <=? port) && (port <=? 65535) then
    match w_connect w host port with
    | inl r => ret r
    | inr e => raise (SockErr e)
    end
  else raise OverflowError.

Definition socket_new : M unit :=
  match w_socket w with None => ret tt | Some e => raise (SockErr e) end.

(** [check_port_available] (identical in start_server.py and
    start_server_python.py); [settimeout] and [close] do not fail on a
    fresh socket. *)
Definition check_port_available (host : string) (port : Z) : M bool :=
  try_except
    (let* _ := socket_new in
     let* result := connect_ex host port in
     ret (negb (result =? 0)))
    (fun e => if is_exception e then Some (ret true) else None).

(** [find_free_port(host, start_port, max_attempts=10)]. *)
Fixpoint find_free_port_from (host : string) (start_port : Z) (i : nat) (n : nat)
  : M (option Z) :=
  match n with
  | O => ret None
  | S n' =>
      let port := start_port + Z.of_nat i in
      let* b := check_port_available host port in
      if b then ret (Some port) else find_free_port_from host start_port (S i) n'
  end.

Definition find_free_port (host : string) (start_port max_attempts : Z) : M (option Z) :=
  find_free_port_from host start_port 0 (Z.to_nat max_attempts).

End Program.


(** ** Process environment, subprocesses and operator input *)

Definition newline : string := String (Ascii.ascii_of_nat 10) EmptyString.
Definition dquote : Ascii.ascii := Ascii.ascii_of_nat 34.

(** [str(e)] of an exception, reduced to its class. *)
Definition exn_str (e : exn) : string :=
  match e with
  | SockErr _ => "socket error" | OverflowError => "OverflowError"
  | ValueError => "ValueError" | EOFError => "EOFError"
  | FileNotFoundError => "FileNotFoundError" | PermissionError => "PermissionError"
  | TimeoutExpired => "TimeoutExpired" | CalledProcessError _ => "CalledProcessError"
  | KeyboardInterrupt => "KeyboardInterrupt" | SystemExit _ => "SystemExit"
  end.

(** Exit status of the interpreter when the script's entry point ends with
    [r]: 0 on return, [n] for [sys.exit(n)], 130 for an uncaught
    [KeyboardInterrupt] (the interpreter re-raises SIGINT), 1 for any other
    uncaught exception (traceback printed). *)
Definition exit_status {A} (r : Result A) : Z :=
  match r with
  | Ok _ => 0
  | Raise (SystemExit n) => n
  | Raise KeyboardInterrupt => 130
  | Raise _ => 1
  end.

Definition get_env : M (gmap string string) := fun s => (Ok (st_env s), s).

(** [os.environ[k] = v] *)
Definition set_env (k v : string) : M unit :=
  fun s => (Ok tt, mkSt (<[k:=v]> (st_env s)) (st_log s)).

Definition sys_exit {A} (code : Z) : M A := raise (SystemExit code).

Section Process.
Variable w : World.

(** [subprocess.run(cmd, ...)]: the child inherits [os.environ]. *)
Definition subprocess_run (cmd : list string) : M Completed :=
  let* env := get_env in
  let* _ := emit (EvRun cmd env) in
  match w_run w cmd with
  | Ran c => ret c
  | RunRaised e => raise e
  end.

(** [subprocess.run(cmd, check=True, ...)] *)
Definition subprocess_run_check (cmd : list string) : M Completed :=
  let* c := subprocess_run cmd in
  if returncode c =? 0 then ret c else raise (CalledProcessError (returncode c)).

(** [int(s)] *)
Definition int_ (s : string) : M Z :=
  match PyStr.int_of_string s with Some n => ret n | None => raise ValueError end.

(** [input(prompt)]: the line read, or [EOFError] on a closed stdin. *)
Definition input (prompt : string) : M string :=
  let* _ := emit (EvPrompt prompt) in
  match w_input w with Some l => ret l | None => raise EOFError end.

End Process.

(** ** kill_port.py *)

Record ProcessInfo := mkInfo { pi_name : string; pi_pid : Z; pi_path : string }.

Section KillPort.
Variable w : World.

Definition is_windows : bool := String.eqb (w_system w) "Windows".

(** The [for line in result.stdout.split('\n')] loop of the Windows branch
    of [find_process_on_port]. *)
Fixpoint netstat_scan (port : Z) (lines : list string) : M (option Z) :=
  match lines with
  | [] => ret None
  | line :: rest =>
      if PyStr.contains (":" ++ str_Z port)%string line
         && PyStr.contains "LISTENING" line then
        let parts := PyStr.split_ws line in
        if (0 <? length parts)%nat then
          let pid := List.last parts EmptyString in
          if PyStr.isdigit pid then let* n := int_ pid in ret (Some n)
          else netstat_scan port rest
        else netstat_scan port rest
      else netstat_scan port rest
  end.

Definition find_process_on_port (port : Z) : M (option Z) :=
  if is_windows then
    try_except
      (let* result := subprocess_run w ["netstat"; "-ano"] in
       netstat_scan port (PyStr.split_sep newline (stdout result)))
      (fun e => if is_exception e then
                  Some (let* _ := print ("Ошибка при поиске процесса: " ++ exn_str e)%string in
                        ret None)
                else None)
  else
    try_except
      (let* result := subprocess_run w ["lsof"; "-ti"; (":" ++ str_Z port)%string] in
       if (returncode result =? 0) && negb (String.eqb (PyStr.strip (stdout result)) "") then
         let* n := int_ (PyStr.strip (stdout result)) in ret (Some n)
       else ret None)
      (fun e => match e with
                | FileNotFoundError =>
                    Some (let* _ := print "lsof не найден. Установите его для работы на Linux/Mac." in
                          ret None)
                | _ => if is_exception e then
                         Some (let* _ := print ("Ошибка при поиске процесса: " ++ exn_str e)%string in
                               ret None)
                       else None
                end).

Definition info_error (e : exn) : option (M (option ProcessInfo)) :=
  if is_exception e then
    Some (let* _ := print ("Ошибка при получении информации о процессе: " ++ exn_str e)%string in
          ret None)
  else None.

Definition get_process_info (pid : Z) : M (option ProcessInfo) :=
  if is_windows then
    try_except
      (let* result := subprocess_run w
                        ["tasklist"; "/FI"; ("PID eq " ++ str_Z pid)%string; "/FO"; "CSV"; "/NH"] in
       if (returncode result =? 0) && negb (String.eqb (PyStr.strip (stdout result)) "") then
         let parts := PyStr.split_sep (String dquote (String "," (String dquote EmptyString)))
                        (PyStr.strip (stdout result)) in
         if (2 <=? length parts)%nat then
           ret (Some (mkInfo (PyStr.strip_char dquote (List.hd EmptyString parts)) pid
                        (if (1 <? length parts)%nat
                         then PyStr.strip_char dquote (List.last parts EmptyString)
                         else "N/A")))
         else ret None
       else ret None)
      info_error
  else
    try_except
      (let* result := subprocess_run w ["ps"; "-p"; str_Z pid; "-o"; "comm="; "-o"; "args="] in
       if (returncode result =? 0) && negb (String.eqb (PyStr.strip (stdout result)) "") then
         let parts := PyStr.split_ws1 (PyStr.strip (stdout result)) in
         ret (Some (mkInfo (match parts with p0 :: _ => p0 | [] => "N/A" end) pid
                      (match parts with _ :: p1 :: _ => p1 | _ => "N/A" end)))
       else ret None)
      info_error.

(** [kill_process(pid)]; the event [EvKillCall] marks the call. *)
Definition kill_process (pid : Z) : M bool :=
  let* _ := emit (EvKillCall pid) in
  try_except
    (let* _ := if is_windows then subprocess_run_check w ["taskkill"; "/F"; "/PID"; str_Z pid]
               else subprocess_run_check w ["kill"; "-9"; str_Z pid] in
     ret true)
    (fun e => match e with
              | CalledProcessError _ => Some (ret false)
              | _ => if is_exception e then
                       Some (let* _ := print ("Ошибка при завершении процесса: " ++ exn_str e)%string in
                             ret false)
                     else None
              end).

Definition rule : string := PyStr.repeat_str "=" 40.

(** The confirmation step, once the process info has been printed. *)
Definition confirm_and_kill (pid : Z) : M unit :=
  let* response := input w "Завершить процесс? (y/n): " in
  if String.eqb (PyStr.lower response) "y" then
    let* ok := kill_process pid in
    if ok then print "[OK] Процесс завершен!"
    else print "[ERROR] Не удалось завершить процесс (возможно, нет прав)"
  else print "Отменено.".

(** The body of [if result == 0:] in [main]. *)
Definition reap (port : Z) : M unit :=
  let* _ := print ("[!] Порт " ++ str_Z port ++ " занят, ищем процесс...")%string in
  let* pid := find_process_on_port port in
  match pid with
  | Some p =>
      if p =? 0 then print ("[!] Не удалось найти процесс на порту " ++ str_Z port)%string
      else
        let* info := get_process_info p in
        match info with
        | Some i =>
            let* _ := print "Найден процесс:" in
            let* _ := print ("  PID:  " ++ str_Z (pi_pid i))%string in
            let* _ := print ("  Имя:  " ++ pi_name i)%string in
            let* _ := print ("  Путь: " ++ pi_path i)%string in
            let* _ := print "" in
            confirm_and_kill p
        | None =>
            print ("Найден процесс с PID " ++ str_Z p ++ ", но не удалось получить информацию")%string
        end
  | None => print ("[!] Не удалось найти процесс на порту " ++ str_Z port)%string
  end.

Definition main : M unit :=
  let* port := match w_argv w with [] => ret 8000 | a :: _ => int_ a end in
  let* _ := print "" in
  let* _ := print rule in
  let* _ := print ("  Поиск процесса на порту " ++ str_Z port)%string in
  let* _ := print rule in
  let* _ := print "" in
  let* _ := socket_new w in
  let* result := connect_ex w "localhost" port in
  let* _ := if result =? 0 then reap port
            else print ("[OK] Порт " ++ str_Z port ++ " свободен")%string in
  print "".

End KillPort.


(** ** start_server.py *)

Definition DEFAULT_PORT : Z := 8000.
Definition HOST : string := "localhost".

(** The [npx http-server] command line of [start_server]. *)
Definition npx_cmd (port : Z) : list string :=
  ["npx"; "http-server"; "-p"; str_Z port; "-d"; "false"; "-o"].

Section StartServer.
Variable w : World.

(** [check_node_installed()]; the [return True] inside the [try] block is
    its [Some true] answer, [None] falls through to the error message. *)
Definition check_node_installed : M bool :=
  let* early :=
    try_except
      (let* result := subprocess_run w ["node"; "--version"] in
       if returncode result =? 0 then
         let* _ := print ("Node.js: " ++ PyStr.strip (stdout result))%string in
         ret (Some true)
       else ret None)
      (fun e => match e with
                | FileNotFoundError | TimeoutExpired => Some (ret None)
                | _ => None
                end) in
  match early with
  | Some b => ret b
  | None =>
      let* _ := print "ОШИБКА: Node.js не найден в PATH!" in
      let* _ := print "Убедитесь, что Node.js установлен и добавлен в системную переменную PATH." in
      ret false
  end.

Definition no_free_port {A} : M A :=
  let* _ := print "❌ Не удалось найти свободный порт!" in
  let* _ := print "Попробуйте завершить процесс, занимающий порт, или используйте другой порт вручную." in
  sys_exit 1.

(** The port selection of [start_server]: the value assigned to the global
    [PORT]; [if free_port:] is false for [None] and for [0]. *)
Definition select_port : M Z :=
  let* avail := check_port_available w HOST DEFAULT_PORT in
  if negb avail then
    let* _ := print ("⚠️  Порт " ++ str_Z DEFAULT_PORT ++ " уже занят!")%string in
    let* _ := print "Поиск свободного порта..." in
    let* free_port := find_free_port w HOST DEFAULT_PORT 10 in
    match free_port with
    | Some p =>
        if negb (p =? 0) then
          let* _ := print ("✓ Найден свободный порт: " ++ str_Z p)%string in
          let* _ := set_env "PORT" (str_Z p) in
          ret p
        else no_free_port
    | None => no_free_port
    end
  else ret DEFAULT_PORT.

(** [start_server()]; [os.chdir(PROJECT_PATH)] (the script's own directory)
    is left out, [print_header(PORT)] is the event [EvBanner PORT] and the
    browser thread is the event [EvBrowserThread PORT]. *)
Definition start_server : M unit :=
  let* node := check_node_installed in
  if negb node then sys_exit 1 else
  let* port := select_port in
  let* _ := emit (EvBanner port) in
  let* _ := print "Запуск сервера..." in
  let* _ := print "" in
  let* _ := emit (EvBrowserThread port) in
  try_except
    (let* _ := subprocess_run_check w (npx_cmd port) in ret tt)
    (fun e => match e with
              | CalledProcessError _ =>
                  Some (let* _ := print ("Ошибка запуска сервера: " ++ exn_str e)%string in
                        sys_exit 1)
              | KeyboardInterrupt =>
                  Some (let* _ := print (newline ++ newline ++ "Сервер остановлен пользователем.")%string in
                        sys_exit 0)
              | _ => None
              end).

End StartServer.

(** ** start_server_python.py *)

(** [isinstance(e, OSError)]: socket errors ([gaierror] and [timeout] are
    [OSError] subclasses), [FileNotFoundError], [PermissionError]. *)
Definition is_oserror (e : exn) : bool :=
  match e with
  | SockErr _ | FileNotFoundError | PermissionError => true
  | _ => false
  end.

(** The world of the built-in server: the bind of [HTTPServer((host, port))]
    may fail, and [serve_forever()] is only left by an exception. *)
Record HttpWorld := mkHttpWorld {
  hw_base : World;
  hw_bind : string -> Z -> option exn;
  hw_serve : exn
}.

Section StartServerPython.
Variable hw : HttpWorld.

(** The port selection of [start_server] (no environment write here). *)
Definition select_port_py : M Z :=
  let* avail := check_port_available (hw_base hw) HOST DEFAULT_PORT in
  if negb avail then
    let* _ := print ("⚠️  Порт " ++ str_Z DEFAULT_PORT ++ " уже занят!")%string in
    let* _ := print "Поиск свободного порта..." in
    let* free_port := find_free_port (hw_base hw) HOST DEFAULT_PORT 10 in
    match free_port with
    | Some p =>
        if negb (p =? 0) then
          let* _ := print ("✓ Найден свободный порт: " ++ str_Z p)%string in
          ret p
        else no_free_port
    | None => no_free_port
    end
  else ret DEFAULT_PORT.

(** [HTTPServer((host, port), CustomHTTPRequestHandler)] *)
Definition http_server (host : string) (port : Z) : M unit :=
  let* _ := emit (EvBind host port) in
  match hw_bind hw host port with Some e => raise e | None => ret tt end.

(** [httpd.serve_forever()] *)
Definition serve_forever : M unit :=
  let* _ := emit EvServe in raise (hw_serve hw).

(** [start_server()] of start_server_python.py; [httpd.shutdown()] after
    [serve_forever] has returned does not block. *)
Definition start_server_py : M unit :=
  let* port := select_port_py in
  let* _ := emit (EvBanner port) in
  let* _ := print "Запуск Python HTTP сервера..." in
  let* _ := print "" in
  let* _ := try_except (http_server HOST port)
              (fun e => if is_oserror e then
                          Some (let* _ := print ("❌ Ошибка запуска сервера: " ++ exn_str e)%string in
                                sys_exit 1)
                        else None) in
  let* _ := emit (EvBrowserThread port) in
  let* _ := print ("✓ Сервер запущен на http://" ++ HOST ++ ":" ++ str_Z port)%string in
  let* _ := print "" in
  try_except serve_forever
    (fun e => match e with
              | KeyboardInterrupt =>
                  Some (let* _ := print (newline ++ newline ++ "Остановка сервера...")%string in
                        let* _ := print "Сервер остановлен." in
                        sys_exit 0)
              | _ => None
              end).

End StartServerPython.

(** ** The virtual-environment check of the two scripts' entry points

    What the scripts ask of the file system: [sys.platform], the script's
    own directory [PROJECT_PATH], [os.path.join] of two parts (the
    platform's, applied left to right for more parts) and
    [os.path.exists]. *)
Record FsWorld := mkFsWorld {
  fs_platform : string;                   (* sys.platform *)
  fs_project : string;                    (* PROJECT_PATH *)
  fs_join : string -> string -> string;   (* os.path.join of two parts *)
  fs_exists : string -> bool              (* os.path.exists *)
}.

Section Venv.
Variable fw : FsWorld.

Definition VENV_PATH : string := fs_join fw (fs_project fw) "venv".

Definition activate_venv : M (option string) :=
  if fs_exists fw VENV_PATH then
    if String.eqb (fs_platform fw) "win32" then
      let python_exe := fs_join fw (fs_join fw VENV_PATH "Scripts") "python.exe" in
      if fs_exists fw python_exe then
        let* _ := print ("✓ Используется виртуальное окружение: " ++ VENV_PATH)%string in
        ret (Some python_exe)
      else ret None
    else
      let python_exe := fs_join fw (fs_join fw VENV_PATH "bin") "python" in
      if fs_exists fw python_exe then
        let* _ := print ("✓ Используется виртуальное окружение: " ++ VENV_PATH)%string in
        ret (Some python_exe)
      else ret None
  else ret None.

Definition check_venv : M bool :=
  if fs_exists fw VENV_PATH then
    let* _ := print ("✓ Виртуальное окружение найдено: " ++ VENV_PATH)%string in
    ret true
  else ret false.

End Venv.

(** [if __name__ == "__main__":] of start_server.py. *)
Definition start_server_script (fw : FsWorld) (w : World) : M unit :=
  let* venv_python := activate_venv fw in
  let* _ := match venv_python with
            | Some p => if String.eqb p "" then ret tt else print ""
            | None => ret tt
            end in
  start_server w.

(** [if __name__ == "__main__":] of start_server_python.py. *)
Definition start_server_python_script (fw : FsWorld) (hw : HttpWorld) : M unit :=
  let* _ := check_venv fw in
  start_server_py hw.

(** ** The response headers of [CustomHTTPRequestHandler]

    The header machinery of [http.server.BaseHTTPRequestHandler] (CPython
    3.11) that every response of the handler goes through, and the
    overriding [end_headers].  Header lines are ASCII, so their latin-1
    encoding is the identity. *)

Module HttpHandler.

Record Handler := mkHandler {
  request_version : string;
  command : option string;
  headers_buffer : option (list string);   (* None: [_headers_buffer] not set *)
  wfile : list string                      (* what was written, in order *)
}.

Definition crlf : string :=
  String (Ascii.ascii_of_nat 13) (String (Ascii.ascii_of_nat 10) EmptyString).

(** [SimpleHTTPRequestHandler.protocol_version] *)
Definition protocol_version : string := "HTTP/1.0".

Definition not_http09 (h : Handler) : bool :=
  negb (String.eqb (request_version h) "HTTP/0.9").

Definition buffer_append (line : string) (h : Handler) : Handler :=
  let buf := match headers_buffer h with Some b => b | None => [] end in
  mkHandler (request_version h) (command h) (Some (buf ++ [line])) (wfile h).

Definition write (data : string) (h : Handler) : Handler :=
  mkHandler (request_version h) (command h) (headers_buffer h) (wfile h ++ [data]).

(** [send_response_only(code, message)], the reason phrase resolved. *)
Definition send_response_only (code : Z) (message : string) (h : Handler) : Handler :=
  if not_http09 h then
    buffer_append (protocol_version ++ " " ++ str_Z code ++ " " ++ message ++ crlf) h
  else h.

(** [send_header(keyword, value)]; its effect on [close_connection] is left
    out. *)
Definition send_header (keyword value : string) (h : Handler) : Handler :=
  if not_http09 h then buffer_append (keyword ++ ": " ++ value ++ crlf) h else h.

Definition flush_headers (h : Handler) : Handler :=
  match headers_buffer h with
  | Some b => mkHandler (request_version h) (command h) (Some []) (wfile h ++ [String.concat "" b])
  | None => h
  end.

(** [BaseHTTPRequestHandler.end_headers]; [None] is the [AttributeError]
    of an unset [_headers_buffer]. *)
Definition base_end_headers (h : Handler) : option Handler :=
  if not_http09 h then
    match headers_buffer h with
    | Some _ => Some (flush_headers (buffer_append crlf h))
    | None => None
    end
  else Some h.

(** [CustomHTTPRequestHandler.end_headers] *)
Definition end_headers (h : Handler) : option Handler :=
  base_end_headers
    (send_header "X-XSS-Protection" "1; mode=block"
      (send_header "X-Frame-Options" "SAMEORIGIN"
        (send_header "X-Content-Type-Options" "nosniff" h))).

(** Successive [send_header] calls. *)
Definition send_headers (hs : list (string * string)) (h : Handler) : Handler :=
  fold_left (fun h kv => send_header (fst kv) (snd kv) h) hs h.

(** [send_response(code, message)]: the [Server] and [Date] values given. *)
Definition send_response (code : Z) (message server date : string) (h : Handler) : Handler :=
  send_header "Date" date (send_header "Server" server (send_response_only code message h)).

(** [send_error(code, message)], with the rendered HTML [body]. *)
Definition send_error (code : Z) (message body server date : string) (h : Handler)
  : option Handler :=
  let h := send_header "Connection" "close" (send_response code message server date h) in
  let has_body := (200 <=? code) && negb ((code =? 204) || (code =? 205) || (code =? 304)) in
  let h := if has_body then
             send_header "Content-Length" (str_Z (Z.of_nat (String.length body)))
               (send_header "Content-Type" "text/html;charset=utf-8" h)
           else h in
  match end_headers h with
  | Some h' =>
      let is_head := match command h' with Some c => String.eqb c "HEAD" | None => false end in
      Some (if negb is_head && has_body && negb (String.eqb body "") then write body h' else h')
  | None => None
  end.

(** The header block of a response: status line, the headers sent, the
    three security headers and the blank line. *)
Definition header_line (kv : string * string) : string := (fst kv ++ ": " ++ snd kv ++ crlf)%string.

End HttpHandler.

(** ** Properties of computations in [M] *)

(** [m] only appends to the log, and only events satisfying [P]. *)
Definition emits_only (P : event -> Prop) {A} (m : M A) : Prop :=
  forall s, exists l, st_log (snd (m s)) = st_log s ++ l /\ Forall P l.

(** Every exception [m] can raise satisfies [Q]. *)
Definition raises_only (Q : exn -> Prop) {A} (m : M A) : Prop :=
  forall s e, fst (m s) = Raise e -> Q e.

(** The result of [m] does not depend on the state it starts from. *)
Definition state_indep {A} (m : M A) : Prop :=
  forall s s', fst (m s) = fst (m s').

(** Events of a lookup helper: printed diagnostics and subprocess runs. *)
Definition quiet (ev : event) : Prop :=
  match ev with EvPrint _ | EvRun _ _ => True | _ => False end.

(** The guard under which [main] of kill_port.py may call [kill_process]:
    a non-zero pid whose process info was found, and an operator answer
    that lower-cases to ["y"]. *)
Definition kill_guarded (w : World) (ev : event) : Prop :=
  forall k, ev = EvKillCall k ->
    k <> 0 /\
    (exists i, forall s, fst (get_process_info w k s) = Ok (Some i)) /\
    (exists l, w_input w = Some l /\ PyStr.lower l = "y"%string).

(** [m] logs [ev], whatever the state it starts from. *)
Definition logs (ev : event) {A} (m : M A) : Prop :=
  forall s, In ev (st_log (snd (m s))).

(** The subprocesses of a world only fail with [Exception] subclasses:
    invocation errors, never an interrupt. *)
Definition runs_raise_exceptions (w : World) : Prop :=
  forall cmd e, w_run w cmd = RunRaised e -> is_exception e = true.

(** ** Concrete worlds *)

(** A Linux machine where a process 1234 ([python3 -m http.server])
    listens on every port probed, [lsof], [ps] and [kill] succeed, and the
    operator answers [answer]. *)
Definition reap_world (answer : option string) (argv : list string) : World :=
  mkWorld "Linux" argv None (fun _ _ => inl 0)
    (fun cmd => match cmd with
                | c :: _ =>
                    if String.eqb c "lsof" then Ran (mkCompleted 0 ("1234" ++ newline)%string)
                    else if String.eqb c "ps" then Ran (mkCompleted 0 "python3 python3 -m http.server")
                    else if String.eqb c "kill" then Ran (mkCompleted 0 "")
                    else RunRaised FileNotFoundError
                | [] => RunRaised FileNotFoundError
                end)
    answer.

Definition st0 : St := mkSt ∅ [].

(** A Linux machine for the launchers: [node --version] answers [node],
    [npx ...] answers [npx], and a port [p] is occupied when [busy p]. *)
Definition server_world (node npx : run_outcome) (busy : Z -> bool) : World :=
  mkWorld "Linux" [] None (fun _ p => if busy p then inl 0 else inl 111)
    (fun cmd => match cmd with
                | c :: _ =>
                    if String.eqb c "node" then node
                    else if String.eqb c "npx" then npx
                    else RunRaised FileNotFoundError
                | [] => RunRaised FileNotFoundError
                end)
    None.

(** Like [reap_world], but [ps] fails: the process info is not found. *)
Definition noinfo_world : World :=
  mkWorld "Linux" [] None (fun _ _ => inl 0)
    (fun cmd => match cmd with
                | c :: _ =>
                    if String.eqb c "lsof" then Ran (mkCompleted 0 ("1234" ++ newline)%string)
                    else Ran (mkCompleted 1 "")
                | [] => Ran (mkCompleted 1 "")
                end)
    None.

Definition node_v20 : run_outcome := Ran (mkCompleted 0 ("v20.11.1" ++ newline)%string).

Definition busy_8000 (p : Z) : bool := p =? 8000.
Definition busy_none (p : Z) : bool := false.
Definition busy_all (p : Z) : bool := true.

(** The built-in server on a machine where port 8000 is free, the bind
    succeeds and the operator stops the server with Ctrl+C. *)
Definition http_world : HttpWorld :=
  mkHttpWorld (server_world node_v20 (Ran (mkCompleted 0 "")) busy_none)
    (fun _ _ => None) KeyboardInterrupt.

(** A handler that has parsed the request line [version]. *)
Definition handler_for (version : string) : HttpHandler.Handler :=
  HttpHandler.mkHandler version (Some "GET") None [].

(** ** Port probe and free-port search *)

(** The answer of the probe, read off [check_port_available] run on any
    state: the probe neither raises nor touches the state (lemma
    [check_port_available_eq]). *)
Definition probe_result (w : World) (host : string) (port : Z) : bool :=
  match fst (check_port_available w host port (mkSt ∅ [])) with
  | Ok b => b
  | Raise _ => true
  end.

(** The answer of the free-port search, read off [find_free_port] run on
    any state (lemma [find_free_port_eq]). *)
Definition free_port_result (w : World) (host : string) (start m : Z) : option Z :=
  match fst (find_free_port w host start m st0) with
  | Ok r => r
  | Raise _ => None
  end.

(** The port both launchers settle on: [DEFAULT_PORT] when the probe
    reports it free, otherwise the free-port search's answer. *)
Definition resolved_port (w : World) (p : Z) : Prop :=
  if probe_result w HOST DEFAULT_PORT then p = DEFAULT_PORT
  else free_port_result w HOST DEFAULT_PORT 10 = Some p.

(** The result of [select_port_py], whatever the state. *)
Definition select_result (w : World) : Result Z :=
  if probe_result w HOST DEFAULT_PORT then Ok DEFAULT_PORT
  else match free_port_result w HOST DEFAULT_PORT 10 with
       | Some p => if p =? 0 then Raise (SystemExit 1) else Ok p
       | None => Raise (SystemExit 1)
       end.

(** [node --version] runs and exits 0. *)
Definition node_present (w : World) : Prop :=
  exists c, w_run w ["node"; "--version"] = Ran c /\ returncode c = 0.

(** [node --version] is not found, times out, or exits non-zero. *)
Definition node_missing (w : World) : Prop :=
  w_run w ["node"; "--version"] = RunRaised FileNotFoundError \/
  w_run w ["node"; "--version"] = RunRaised TimeoutExpired \/
  exists c, w_run w ["node"; "--version"] = Ran c /\ returncode c <> 0.

(** Launch events carry the resolved port (and the bind the host). *)
Definition port_event_ok (w : World) (ev : event) : Prop :=
  match ev with
  | EvBanner p | EvBrowserThread p => resolved_port w p
  | EvBind h p => h = HOST /\ resolved_port w p
  | _ => True
  end.

(** The test a line of [netstat -ano] passes in [find_process_on_port]
    to yield its pid: it contains [:port] and [LISTENING], and its last
    whitespace-separated field is a digit string. *)
Definition netstat_match (port : Z) (line : string) : bool :=
  PyStr.contains (":" ++ str_Z port)%string line && PyStr.contains "LISTENING" line &&
  PyStr.isdigit (List.last (PyStr.split_ws line) EmptyString).

(** The separator [","] of [get_process_info]'s [split]. *)
Definition csv_sep : string := String dquote (String "," (String dquote EmptyString)).

(** One row of [tasklist /FO CSV]: every field between double quotes,
    separated by commas. *)
Definition csv_row (fields : list string) : string :=
  String dquote (String.concat csv_sep fields ++ String dquote EmptyString).

(** A field without a double quote. *)
Definition no_dquote (f : string) : Prop := ~ In dquote (list_ascii_of_string f).

(** The events [start_server] of start_server.py may log: prints, the
    [node --version] check, [npx http-server] on the resolved port, and
    the banner and browser thread of that port. *)
Definition node_launch_event (w : World) (ev : event) : Prop :=
  match ev with
  | EvRun cmd _ =>
      cmd = ["node"; "--version"] \/
      exists p, cmd = npx_cmd p /\ resolved_port w p /\ 8000 <= p <= 8009
  | EvBanner p | EvBrowserThread p => resolved_port w p
  | EvPrint _ => True
  | _ => False
  end.

(** The two lines [check_node_installed] prints when Node.js is missing. *)
Definition node_error_lines : list event :=
  [EvPrint "ОШИБКА: Node.js не найден в PATH!";
   EvPrint "Убедитесь, что Node.js установлен и добавлен в системную переменную PATH."].

(** The headers [CustomHTTPRequestHandler.end_headers] adds. *)
Definition security_headers : list (string * string) :=
  [("X-Content-Type-Options", "nosniff"); ("X-Frame-Options", "SAMEORIGIN");
   ("X-XSS-Protection", "1; mode=block")].

(** A Linux machine where every probed port is occupied and [lsof]
    answers [out]; every other command exits 1. *)
Definition lsof_world (out : string) : World :=
  mkWorld "Linux" [] None (fun _ _ => inl 0)
    (fun cmd => match cmd with
                | c :: _ => if String.eqb c "lsof" then Ran (mkCompleted 0 out)
                            else Ran (mkCompleted 1 "")
                | [] => Ran (mkCompleted 1 "")
                end)
    None.

(** A Windows machine where every probed port is occupied and
    [netstat -ano] answers [out]; every other command exits 1. *)
Definition netstat_world (out : string) : World :=
  mkWorld "Windows" [] None (fun _ _ => inl 0)
    (fun cmd => match cmd with
                | c :: _ => if String.eqb c "netstat" then Ran (mkCompleted 0 out)
                            else Ran (mkCompleted 1 "")
                | [] => Ran (mkCompleted 1 "")
                end)
    None.

(** A [netstat -ano] listing with process 4321 listening on port 8000. *)
Definition netstat_8000 : string :=
  ("  TCP    0.0.0.0:8000           0.0.0.0:0              LISTENING       4321" ++ newline)%string.

(** A Windows machine where [tasklist] answers the line [out]. *)
Definition tasklist_world (out : string) : World :=
  mkWorld "Windows" [] None (fun _ _ => inl 0)
    (fun cmd => match cmd with
                | c :: _ => if String.eqb c "tasklist" then Ran (mkCompleted 0 (out ++ newline))
                            else Ran (mkCompleted 1 "")
                | [] => Ran (mkCompleted 1 "")
                end)
    None.

(** A Linux project directory [project] where exactly the paths [present]
    exist. *)
Definition posix_fs (project : string) (present : list string) : FsWorld :=
  mkFsWorld "linux" project (fun a b => (a ++ "/" ++ b)%string)
    (fun p => existsb (String.eqb p) present).

Lemma check_port_available_eq w host port s :
  check_port_available w host port s = (Ok (probe_result w host port), s).
Proof.
  unfold probe_result, check_port_available, try_except, bind, socket_new,
    connect_ex, ret, raise.
  destruct (w_socket w); [reflexivity|].
  destruct ((0 <=? port) && (port <=? 65535)); [|reflexivity].
  destruct (w_connect w host port); reflexivity.
Qed.

Lemma find_free_port_from_some w host start i n s p :
  find_free_port_from w host start i n s = (Ok (Some p), s) <->
  start + Z.of_nat i <= p < start + Z.of_nat i + Z.of_nat n /\
  probe_result w host p = true /\
  (forall q, start + Z.of_nat i <= q < p -> probe_result w host q = false).
Proof.
  revert i. induction n as [|n IH]; intros i; simpl.
  - split; [intros H; inversion H | lia].
  - unfold bind. rewrite check_port_available_eq.
    destruct (probe_result w host (start + Z.of_nat i)) eqn:Hp.
    + split.
      * intros H; inversion H; subst. split; [lia|]. split; [assumption|]. lia.
      * intros (Hr & Hf & Hq).
        destruct (Z.eq_dec p (start + Z.of_nat i)) as [->|Hne]; [reflexivity|].
        rewrite (Hq (start + Z.of_nat i)) in Hp by lia. discriminate.
    + rewrite IH. split.
      * intros (Hr & Hf & Hq). split; [lia|]. split; [assumption|].
        intros q Hq'. destruct (Z.eq_dec q (start + Z.of_nat i)) as [->|Hne];
          [assumption|]. apply Hq. lia.
      * intros (Hr & Hf & Hq).
        assert (p <> start + Z.of_nat i) by (intros ->; congruence).
        split; [lia|]. split; [assumption|]. intros q Hq'. apply Hq. lia.
Qed.

Lemma find_free_port_from_none w host start i n s :
  find_free_port_from w host start i n s = (Ok None, s) <->
  (forall q, start + Z.of_nat i <= q < start + Z.of_nat i + Z.of_nat n ->
             probe_result w host q = false).
Proof.
  revert i. induction n as [|n IH]; intros i; simpl.
  - split; [intros _ q Hq; lia | reflexivity].
  - unfold bind. rewrite check_port_available_eq.
    destruct (probe_result w host (start + Z.of_nat i)) eqn:Hp.
    + split; [intros H; inversion H|].
      intros Hq. rewrite (Hq (start + Z.of_nat i)) in Hp by lia. discriminate.
    + rewrite IH. split.
      * intros Hq q Hq'. destruct (Z.eq_dec q (start + Z.of_nat i)) as [->|Hne];
          [assumption|]. apply Hq. lia.
      * intros Hq q Hq'. apply Hq. lia.
Qed.

Lemma find_free_port_from_shape w host start i n s :
  (exists r, find_free_port_from w host start i n s = (Ok r, s)).
Proof.
  revert i. induction n as [|n IH]; intros i; simpl.
  - eexists; reflexivity.
  - unfold bind. rewrite check_port_available_eq.
    destruct (probe_result w host (start + Z.of_nat i)); [eexists; reflexivity|].
    apply IH.
Qed.

(** ** Composition lemmas for [M] *)

Section MLemmas.
Context {A B : Type}.

Lemma emits_only_ret P (a : A) : emits_only P (ret a).
Proof. intros s. exists []. rewrite app_nil_r. split; [reflexivity | constructor]. Qed.

Lemma emits_only_raise P e : emits_only P (@raise A e).
Proof. intros s. exists []. rewrite app_nil_r. split; [reflexivity | constructor]. Qed.

Lemma emits_only_emit (P : event -> Prop) ev : P ev -> emits_only P (emit ev).
Proof. intros H s. exists [ev]. split; [reflexivity | repeat constructor; assumption]. Qed.

Lemma emits_only_get_env P : emits_only P get_env.
Proof. intros s. exists []. rewrite app_nil_r. split; [reflexivity | constructor]. Qed.

Lemma emits_only_set_env P k v : emits_only P (set_env k v).
Proof. intros s. exists []. rewrite app_nil_r. split; [reflexivity | constructor]. Qed.

Lemma emits_only_bind P (m : M A) (f : A -> M B) :
  emits_only P m -> (forall a, emits_only P (f a)) -> emits_only P (bind m f).
Proof.
  intros Hm Hf s. unfold bind. destruct (Hm s) as (l1 & E1 & F1).
  destruct (m s) as [[a|e] s1]; simpl in *.
  - destruct (Hf a s1) as (l2 & E2 & F2). exists (l1 ++ l2).
    rewrite E2, E1, app_assoc. split; [reflexivity | apply Forall_app; split; assumption].
  - exists l1. split; assumption.
Qed.

Lemma emits_only_try P (m : M A) h :
  emits_only P m -> (forall e k, h e = Some k -> emits_only P k) ->
  emits_only P (try_except m h).
Proof.
  intros Hm Hh s. unfold try_except. destruct (Hm s) as (l1 & E1 & F1).
  destruct (m s) as [[a|e] s1]; simpl in *.
  - exists l1. split; assumption.
  - destruct (h e) as [k|] eqn:He.
    + destruct (Hh e k He s1) as (l2 & E2 & F2). exists (l1 ++ l2).
      rewrite E2, E1, app_assoc. split; [reflexivity | apply Forall_app; split; assumption].
    + exists l1. split; assumption.
Qed.

Lemma raises_only_ret Q (a : A) : raises_only Q (ret a).
Proof. intros s e H. discriminate H. Qed.

Lemma raises_only_raise (Q : exn -> Prop) e : Q e -> raises_only Q (@raise A e).
Proof. intros H s e' E. injection E as <-. assumption. Qed.

Lemma raises_only_emit Q ev : raises_only Q (emit ev).
Proof. intros s e H. discriminate H. Qed.

Lemma raises_only_get_env Q : raises_only Q get_env.
Proof. intros s e H. discriminate H. Qed.

Lemma raises_only_set_env Q k v : raises_only Q (set_env k v).
Proof. intros s e H. discriminate H. Qed.

Lemma raises_only_bind Q (m : M A) (f : A -> M B) :
  raises_only Q m -> (forall a, raises_only Q (f a)) -> raises_only Q (bind m f).
Proof.
  intros Hm Hf s e. unfold bind. specialize (Hm s).
  destruct (m s) as [[a|e'] s1]; simpl in *.
  - apply Hf.
  - intros E. injection E as <-. apply Hm. reflexivity.
Qed.

Lemma raises_only_try (Q Q' : exn -> Prop) (m : M A) h :
  raises_only Q m ->
  (forall e, Q e -> match h e with Some k => raises_only Q' k | None => Q' e end) ->
  raises_only Q' (try_except m h).
Proof.
  intros Hm Hh s e. unfold try_except. specialize (Hm s).
  destruct (m s) as [[a|e'] s1]; simpl in *.
  - discriminate.
  - specialize (Hh e' (Hm e' eq_refl)). destruct (h e') as [k|].
    + apply Hh.
    + intros E. injection E as <-. assumption.
Qed.

Lemma state_indep_ret (a : A) : state_indep (ret a).
Proof. intros s s'. reflexivity. Qed.

Lemma state_indep_raise e : state_indep (@raise A e).
Proof. intros s s'. reflexivity. Qed.

Lemma state_indep_emit ev : state_indep (emit ev).
Proof. intros s s'. reflexivity. Qed.

Lemma state_indep_bind (m : M A) (f : A -> M B) :
  state_indep m -> (forall a, state_indep (f a)) -> state_indep (bind m f).
Proof.
  intros Hm Hf s s'. unfold bind. specialize (Hm s s').
  destruct (m s) as [r1 s1], (m s') as [r2 s2]; simpl in *. subst r2.
  destruct r1; [apply Hf | reflexivity].
Qed.

Lemma state_indep_try (m : M A) h :
  state_indep m -> (forall e k, h e = Some k -> state_indep k) ->
  state_indep (try_except m h).
Proof.
  intros Hm Hh s s'. unfold try_except. specialize (Hm s s').
  destruct (m s) as [r1 s1], (m s') as [r2 s2]; simpl in *. subst r2.
  destruct r1 as [a|e]; [reflexivity|].
  destruct (h e) as [k|] eqn:He; [apply (Hh e k He) | reflexivity].
Qed.

Lemma raises_only_weaken (Q Q' : exn -> Prop) (m : M A) :
  raises_only Q m -> (forall e, Q e -> Q' e) -> raises_only Q' m.
Proof. intros Hm HQ s e E. apply HQ, (Hm s e E). Qed.

Lemma emits_only_weaken (P P' : event -> Prop) (m : M A) :
  emits_only P m -> (forall ev, P ev -> P' ev) -> emits_only P' m.
Proof.
  intros Hm HP s. destruct (Hm s) as (l & E & F). exists l.
  split; [assumption | eapply Forall_impl; eassumption].
Qed.

(** Binding a state-independent computation: the continuation may assume
    the value it receives is the one [m] yields from every state. *)
Lemma emits_only_bind_indep P (m : M A) (f : A -> M B) :
  state_indep m -> emits_only P m ->
  (forall a, (forall s, fst (m s) = Ok a) -> emits_only P (f a)) ->
  emits_only P (bind m f).
Proof.
  intros Hi Hm Hf s. unfold bind. destruct (Hm s) as (l1 & E1 & F1).
  destruct (m s) as [[a|e] s1] eqn:Ems; simpl in *.
  - assert (Ha : forall s', fst (m s') = Ok a)
      by (intros s'; rewrite (Hi s' s), Ems; reflexivity).
    destruct (Hf a Ha s1) as (l2 & E2 & F2). exists (l1 ++ l2).
    rewrite E2, E1, app_assoc. split; [reflexivity | apply Forall_app; split; assumption].
  - exists l1. split; assumption.
Qed.

Lemma raises_only_bind_indep Q (m : M A) (f : A -> M B) :
  state_indep m -> raises_only Q m ->
  (forall a, (forall s, fst (m s) = Ok a) -> raises_only Q (f a)) ->
  raises_only Q (bind m f).
Proof.
  intros Hi Hm Hf s e. unfold bind. specialize (Hm s).
  destruct (m s) as [[a|e'] s1] eqn:Ems; simpl in *.
  - apply Hf. intros s'. rewrite (Hi s' s), Ems. reflexivity.
  - intros E. injection E as <-. apply Hm. reflexivity.
Qed.

Lemma emits_only_bind_ret P (a : A) (f : A -> M B) :
  emits_only P (f a) -> emits_only P (bind (ret a) f).
Proof. intros H s. apply H. Qed.

Lemma raises_only_bind_ret Q (a : A) (f : A -> M B) :
  raises_only Q (f a) -> raises_only Q (bind (ret a) f).
Proof. intros H s. apply H. Qed.

Lemma raises_only_known Q (m : M A) a :
  (forall s, fst (m s) = Ok a) -> raises_only Q m.
Proof. intros H s e. rewrite H. discriminate. Qed.

Lemma logs_emit ev : logs ev (emit ev).
Proof. intros s. simpl. apply in_or_app. right. left. reflexivity. Qed.

Lemma logs_bind_ret ev (a : A) (f : A -> M B) :
  logs ev (f a) -> logs ev (bind (ret a) f).
Proof. intros H s. apply H. Qed.

Lemma logs_bind_now ev (m : M A) (f : A -> M B) :
  logs ev m -> (forall a, emits_only (fun _ => True) (f a)) -> logs ev (bind m f).
Proof.
  intros Hm Hf s. specialize (Hm s). unfold bind.
  destruct (m s) as [[a|e] s1]; simpl in *; [|assumption].
  destruct (Hf a s1) as (l & E & _). rewrite E. apply in_or_app. left. assumption.
Qed.

Lemma logs_bind_later ev (m : M A) (f : A -> M B) a :
  (forall s, fst (m s) = Ok a) -> logs ev (f a) -> logs ev (bind m f).
Proof.
  intros Hm Hf s. specialize (Hm s). unfold bind.
  destruct (m s) as [r s1]; simpl in *. subst r. apply Hf.
Qed.

End MLemmas.

Lemma input_facts w prompt :
  state_indep (input w prompt) /\
  emits_only (fun ev => ev = EvPrompt prompt) (input w prompt) /\
  (forall s, fst (input w prompt s) =
             match w_input w with Some l => Ok l | None => Raise EOFError end).
Proof.
  unfold input, bind, emit, ret, raise. repeat split.
  - intros s s'. destruct (w_input w); reflexivity.
  - intros s. exists [EvPrompt prompt].
    destruct (w_input w); (split; [reflexivity | repeat constructor]).
  - intros s. destruct (w_input w); reflexivity.
Qed.

Lemma quiet_kill_guarded w ev : quiet ev -> kill_guarded w ev.
Proof. intros Hq k ->. destruct Hq. Qed.

Lemma lower_eq_y (l : string) : PyStr.lower l = "y"%string -> l = "y"%string \/ l = "Y"%string.
Proof.
  destruct l as [|c [|c' l']]; simpl; try discriminate.
  intros H. injection H as H. unfold PyStr.lower_char in H.
  destruct c as [[] [] [] [] [] [] [] []]; vm_compute in H; try discriminate H;
    first [left; reflexivity | right; reflexivity].
Qed.

(** A subprocess run: its answer is the world's, whatever the state. *)
Lemma subprocess_run_facts w cmd :
  emits_only quiet (subprocess_run w cmd) /\
  state_indep (subprocess_run w cmd) /\
  raises_only (fun e => w_run w cmd = RunRaised e) (subprocess_run w cmd).
Proof.
  unfold subprocess_run, bind, get_env, emit, ret, raise. repeat split.
  - intros s. exists [EvRun cmd (st_env s)].
    destruct (w_run w cmd); (split; [reflexivity | repeat constructor]).
  - intros s s'. destruct (w_run w cmd); reflexivity.
  - intros s e. destruct (w_run w cmd); simpl; [discriminate|]. intros E. injection E as <-. reflexivity.
Qed.

Lemma subprocess_run_check_facts w cmd :
  emits_only quiet (subprocess_run_check w cmd) /\
  state_indep (subprocess_run_check w cmd) /\
  raises_only (fun e => w_run w cmd = RunRaised e \/ exists c, e = CalledProcessError c)
    (subprocess_run_check w cmd).
Proof.
  destruct (subprocess_run_facts w cmd) as (H1 & H2 & H3).
  unfold subprocess_run_check. repeat split.
  - apply emits_only_bind; [assumption|]. intros c. case_match;
      [apply emits_only_ret | simple apply emits_only_raise].
  - apply state_indep_bind; [assumption|]. intros c. case_match;
      [apply state_indep_ret | simple apply state_indep_raise].
  - apply raises_only_bind.
    + intros s e He. left. apply (H3 s e He).
    + intros c. case_match; [apply raises_only_ret | apply raises_only_raise; right; eexists; reflexivity].
Qed.

Ltac handler_tac e Hk :=
  destruct e; simpl in Hk; try discriminate Hk; injection Hk as <-.

Ltac emits_tac :=
  repeat first
    [ progress cbv beta zeta | progress unfold print
    | simple apply emits_only_ret | simple apply emits_only_raise
    | simple apply emits_only_get_env | simple apply emits_only_set_env
    | simple apply emits_only_emit; exact I
    | apply (proj1 (subprocess_run_facts _ _))
    | apply (proj1 (subprocess_run_check_facts _ _))
    | simple apply emits_only_bind; [|intros ?]
    | simple apply emits_only_try; [|let e := fresh "e" in let Hk := fresh "Hk" in intros e ? Hk; handler_tac e Hk]
    | case_match ].

Ltac indep_tac :=
  repeat first
    [ progress cbv beta zeta | progress unfold print
    | simple apply state_indep_ret | simple apply state_indep_raise | simple apply state_indep_emit
    | apply (proj1 (proj2 (subprocess_run_facts _ _)))
    | apply (proj1 (proj2 (subprocess_run_check_facts _ _)))
    | simple apply state_indep_bind; [|intros ?]
    | simple apply state_indep_try; [|let e := fresh "e" in let Hk := fresh "Hk" in intros e ? Hk; handler_tac e Hk]
    | case_match ].

Ltac raises_tac Hw :=
  repeat first
    [ progress cbv beta zeta | progress unfold print
    | simple apply raises_only_ret | simple apply raises_only_emit
    | simple apply raises_only_get_env | simple apply raises_only_set_env
    | simple apply raises_only_raise; reflexivity
    | eapply raises_only_weaken;
        [ apply (proj2 (proj2 (subprocess_run_facts _ _)))
        | let He := fresh "He" in intros ? He; exact (Hw _ _ He) ]
    | eapply raises_only_weaken;
        [ apply (proj2 (proj2 (subprocess_run_check_facts _ _)))
        | let He := fresh "He" in intros ? [He | [? ->]];
          [exact (Hw _ _ He) | reflexivity] ]
    | simple apply raises_only_bind; [|intros ?]
    | apply (raises_only_try (fun e => is_exception e = true));
        [| let e := fresh "e" in let He := fresh "He" in
           intros e He; destruct e; simpl in He |- *; try discriminate He ]
    | case_match ].

Section KillPortFacts.
Variable w : World.

Lemma netstat_scan_facts port lines :
  emits_only quiet (netstat_scan port lines) /\
  state_indep (netstat_scan port lines) /\
  raises_only (fun e => e = ValueError) (netstat_scan port lines).
Proof.
  induction lines as [|line rest IH]; simpl.
  - split; [apply emits_only_ret | split; [apply state_indep_ret | apply raises_only_ret]].
  - destruct IH as (H1 & H2 & H3). repeat split; repeat case_match; try assumption.
    all: unfold int_; try case_match.
    all: first [ apply emits_only_bind; [apply emits_only_ret | intros; apply emits_only_ret]
               | simple apply emits_only_bind; [apply emits_only_raise | intros; apply emits_only_ret]
               | simple apply state_indep_bind; [apply state_indep_ret | intros; apply state_indep_ret]
               | simple apply state_indep_bind; [apply state_indep_raise | intros; apply state_indep_ret]
               | apply raises_only_bind; [apply raises_only_ret | intros; apply raises_only_ret]
               | apply raises_only_bind; [apply raises_only_raise; reflexivity | intros; apply raises_only_ret] ].
Qed.

Lemma find_process_on_port_kill_free port : emits_only quiet (find_process_on_port w port).
Proof.
  unfold find_process_on_port, int_. emits_tac.
  apply netstat_scan_facts.
Qed.

Lemma find_process_on_port_indep port : state_indep (find_process_on_port w port).
Proof.
  unfold find_process_on_port, int_. indep_tac.
  apply netstat_scan_facts.
Qed.

Lemma get_process_info_kill_free pid : emits_only quiet (get_process_info w pid).
Proof. unfold get_process_info, info_error. emits_tac. Qed.

Lemma get_process_info_indep pid : state_indep (get_process_info w pid).
Proof. unfold get_process_info, info_error. indep_tac. Qed.

Lemma kill_process_indep pid : state_indep (kill_process w pid).
Proof. unfold kill_process. indep_tac. Qed.

Section NoRaise.
Hypothesis Hw : runs_raise_exceptions w.

Lemma find_process_on_port_no_raise port :
  raises_only (fun _ => False) (find_process_on_port w port).
Proof.
  unfold find_process_on_port, int_. raises_tac Hw.
  eapply raises_only_weaken; [apply netstat_scan_facts | intros ? ->; reflexivity].
Qed.

Lemma get_process_info_no_raise pid :
  raises_only (fun _ => False) (get_process_info w pid).
Proof. unfold get_process_info, info_error. raises_tac Hw. Qed.

Lemma kill_process_no_raise pid :
  raises_only (fun _ => False) (kill_process w pid).
Proof. unfold kill_process. raises_tac Hw. Qed.

Lemma kill_process_events pid :
  emits_only (fun ev => quiet ev \/ ev = EvKillCall pid) (kill_process w pid).
Proof.
  unfold kill_process. apply emits_only_bind.
  - apply emits_only_emit. right. reflexivity.
  - intros _. eapply emits_only_weaken; [|intros ev H; left; exact H]. emits_tac.
Qed.

Lemma kill_process_logs pid : logs (EvKillCall pid) (kill_process w pid).
Proof.
  unfold kill_process. apply logs_bind_now; [apply logs_emit|].
  intros _. eapply emits_only_weaken; [|intros; exact I]. emits_tac.
Qed.

End NoRaise.
End KillPortFacts.

(** Two hypotheses giving the result of the same computation identify
    the results. *)
Ltac unify_results :=
  repeat match goal with
  | H1 : forall s : St, fst (?m s) = Ok ?a, H2 : forall s : St, fst (?m s) = Ok ?b |- _ =>
      let E := fresh "E" in
      pose proof (eq_trans (eq_sym (H1 (mkSt ∅ []))) (H2 (mkSt ∅ []))) as E;
      injection E as E; clear H1; subst
  end.

(** Rewrite with the hypotheses fixing the world's answers. *)
Ltac rewrite_world :=
  match goal with
  | H : w_connect ?w ?h ?p = _ |- context [w_connect ?w ?h ?p] => rewrite H
  | H : w_input ?w = _ |- context [w_input ?w] => rewrite H
  | H : ((_ <=? _) && (_ <=? _)) = true |- context [(_ <=? _) && (_ <=? _)] => rewrite H
  | |- context [?x =? ?x] => rewrite Z.eqb_refl
  | H : String.eqb ?a ?b = true |- context [String.eqb ?a ?b] => rewrite H
  end.

Ltac main_raises_tac :=
  repeat first
    [ progress cbv beta iota zeta | progress unfold print
    | rewrite_world
    | simple apply raises_only_ret | simple apply raises_only_emit
    | simple apply raises_only_bind_ret
    | apply raises_only_bind_indep;
        [ apply find_process_on_port_indep
        | first [ eapply raises_only_known; eassumption
                | apply find_process_on_port_no_raise; assumption ]
        | intros ? ?; unify_results ]
    | apply raises_only_bind_indep;
        [ apply get_process_info_indep
        | first [ eapply raises_only_known; eassumption
                | apply get_process_info_no_raise; assumption ]
        | intros ? ?; unify_results ]
    | apply raises_only_bind_indep;
        [ apply (proj1 (input_facts _ _))
        | eapply raises_only_known; intros ?;
          rewrite (proj2 (proj2 (input_facts _ _))); rewrite_world; reflexivity
        | intros ? ? ]
    | apply kill_process_no_raise; assumption
    | simple apply raises_only_bind; [|intros ?]
    | case_match ].

Ltac main_quiet_tac :=
  repeat first
    [ progress cbv beta iota zeta | progress unfold print
    | rewrite_world
    | simple apply emits_only_ret | simple apply emits_only_raise
    | simple apply emits_only_emit; exact I
    | simple apply emits_only_bind_ret
    | apply emits_only_bind_indep;
        [ apply find_process_on_port_indep | apply find_process_on_port_kill_free
        | intros ? ?; unify_results ]
    | apply emits_only_bind_indep;
        [ apply get_process_info_indep | apply get_process_info_kill_free
        | intros ? ?; unify_results ]
    | simple apply emits_only_bind; [|intros ?]
    | case_match ].

Ltac enter_main Hport Hsock :=
  unfold main, reap, confirm_and_kill, socket_new, connect_ex, int_;
  let Ha := fresh "Ha" in let Hint := fresh "Hint" in
  destruct Hport as [[Ha ->] | (? & ? & Ha & Hint)]; rewrite Ha; [|rewrite Hint];
  rewrite Hsock.

Ltac main_logs_tac :=
  repeat first
    [ progress cbv beta iota zeta | progress unfold print
    | rewrite_world
    | simple apply logs_emit
    | simple apply logs_bind_ret
    | eapply logs_bind_later; [intros ?; reflexivity|]
    | eapply logs_bind_later; [eassumption|]
    | eapply logs_bind_later;
        [ intros ?; rewrite (proj2 (proj2 (input_facts _ _))); rewrite_world; reflexivity |]
    | apply logs_bind_now;
        [ apply kill_process_logs
        | intros ?; unfold print; case_match; apply emits_only_emit; exact I ]
    | apply logs_bind_now; [|intros ?; apply emits_only_emit; exact I]
    | case_match ].

Section KillPortMain.
Variable w : World.

(** Every [kill_process] call of [main] is guarded: a non-zero pid whose
    process info was found, and an answer lower-casing to ["y"]. *)
Lemma main_kill_guarded : emits_only (kill_guarded w) (main w).
Proof.
  unfold main, reap, confirm_and_kill, socket_new, connect_ex, int_.
  repeat first
    [ progress cbv beta zeta | progress unfold print
    | simple apply emits_only_ret | simple apply emits_only_raise
    | simple apply emits_only_emit; intros ? ?; discriminate
    | apply emits_only_bind_indep;
        [ apply find_process_on_port_indep
        | eapply emits_only_weaken; [apply find_process_on_port_kill_free | apply quiet_kill_guarded]
        | let H := fresh "Hfind" in intros ? H ]
    | apply emits_only_bind_indep;
        [ apply get_process_info_indep
        | eapply emits_only_weaken; [apply get_process_info_kill_free | apply quiet_kill_guarded]
        | let H := fresh "Hinfo" in intros ? H ]
    | apply emits_only_bind_indep;
        [ apply (proj1 (input_facts _ _))
        | eapply emits_only_weaken;
            [ apply (proj1 (proj2 (input_facts _ _))) | intros ? -> ? ?; discriminate ]
        | let H := fresh "Hinput" in intros ? H ]
    | simple apply emits_only_bind; [|intros ?]
    | case_match ].
  all: eapply emits_only_weaken; [apply kill_process_events|].
  all: intros ev [Hq | ->]; [apply quiet_kill_guarded; exact Hq|].
  all: intros k Hk; injection Hk as <-.
  all: split; [apply Z.eqb_neq; assumption|].
  all: split; [eexists; exact Hinfo|].
  all: pose proof (Hinput (mkSt ∅ [])) as Hi;
       rewrite (proj2 (proj2 (input_facts _ _))) in Hi.
  all: destruct (w_input w); [injection Hi as ->; eexists; split; [reflexivity|] | discriminate Hi].
  all: apply String.eqb_eq; assumption.
Qed.

Section Occupied.
(** [main] on a port argument [n] that parses and is in range, with a
    working socket and a successful connect: the port is occupied. *)
Variable n : Z.
Hypothesis Hport : (w_argv w = [] /\ n = 8000) \/
                   (exists a rest, w_argv w = a :: rest /\ PyStr.int_of_string a = Some n).
Hypothesis Hsock : w_socket w = None.
Hypothesis Hrange : 0 <= n <= 65535.
Hypothesis Hconn : w_connect w "localhost" n = inl 0.

Lemma range_true : ((0 <=? n) && (n <=? 65535)) = true.
Proof. apply andb_true_iff. split; apply Z.leb_le; lia. Qed.

Section NoInfo.
Variable p : Z.
Hypothesis Hfind : forall s, fst (find_process_on_port w n s) = Ok (Some p).
Hypothesis Hp : p <> 0.
Hypothesis Hinfo : forall s, fst (get_process_info w p s) = Ok None.

Lemma main_no_info_raises : raises_only (fun _ => False) (main w).
Proof.
  pose proof range_true as Hr. pose proof Hconn as Hc.
  enter_main Hport Hsock; main_raises_tac.
Qed.

Lemma main_no_info_quiet : emits_only quiet (main w).
Proof.
  pose proof range_true as Hr. pose proof Hconn as Hc.
  enter_main Hport Hsock; main_quiet_tac.
Qed.

Lemma main_no_info_logs :
  logs (EvPrint ("Найден процесс с PID " ++ str_Z p ++
                 ", но не удалось получить информацию")%string) (main w).
Proof.
  pose proof range_true as Hr. pose proof Hconn as Hc.
  enter_main Hport Hsock; main_logs_tac.
  all: match goal with H : (p =? 0) = true |- _ => apply Z.eqb_eq in H; contradiction end.
Qed.

End NoInfo.
Section Answered.
Variables (p : Z) (i : ProcessInfo) (l : string).
Hypothesis Hfind : forall s, fst (find_process_on_port w n s) = Ok (Some p).
Hypothesis Hp : p <> 0.
Hypothesis Hinfo : forall s, fst (get_process_info w p s) = Ok (Some i).
Hypothesis Hinput : w_input w = Some l.
Hypothesis Hy : PyStr.lower l = "y"%string.

Lemma main_answer_y_logs_kill : logs (EvKillCall p) (main w).
Proof.
  pose proof range_true as Hr. pose proof Hconn as Hc.
  assert (Hyb : String.eqb (PyStr.lower l) "y" = true) by (apply String.eqb_eq; exact Hy).
  enter_main Hport Hsock; main_logs_tac.
  all: match goal with H : (p =? 0) = true |- _ => apply Z.eqb_eq in H; contradiction end.
Qed.

End Answered.
End Occupied.

Section WellFormed.
(** [main] on a port argument that parses and is in range, with a working
    socket, a connect that answers, an operator answer, and subprocesses
    that only fail with invocation errors. *)
Variable n : Z.
Hypothesis Hport : (w_argv w = [] /\ n = 8000) \/
                   (exists a rest, w_argv w = a :: rest /\ PyStr.int_of_string a = Some n).
Hypothesis Hsock : w_socket w = None.
Hypothesis Hrange : 0 <= n <= 65535.
Variables (r : Z) (l : string).
Hypothesis Hconn : w_connect w "localhost" n = inl r.
Hypothesis Hinput : w_input w = Some l.
Hypothesis Hw : runs_raise_exceptions w.


End WellFormed.

End KillPortMain.

(** ** The launchers *)

Lemma find_free_port_eq w host start m s :
  find_free_port w host start m s = (Ok (free_port_result w host start m), s).
Proof.
  unfold free_port_result.
  unfold find_free_port in *.
  destruct (find_free_port_from_shape w host start 0 (Z.to_nat m) s) as [[p|] Hr]; rewrite Hr.
  - pose proof (proj1 (find_free_port_from_some _ _ _ _ _ _ _) Hr) as C.
    rewrite (proj2 (find_free_port_from_some w host start 0 (Z.to_nat m) st0 p) C).
    reflexivity.
  - pose proof (proj1 (find_free_port_from_none _ _ _ _ _ _) Hr) as C.
    rewrite (proj2 (find_free_port_from_none w host start 0 (Z.to_nat m) st0) C).
    reflexivity.
Qed.

Lemma free_port_result_range w host start m p :
  free_port_result w host start m = Some p -> start <= p < start + m.
Proof.
  intros H. pose proof (find_free_port_eq w host start m st0) as E.
  rewrite H in E. unfold find_free_port in E.
  apply find_free_port_from_some in E. destruct E as [E _].
  destruct (Z.le_gt_cases 0 m).
  - rewrite Z2Nat.id in E by assumption. lia.
  - rewrite (Z2Nat.nonpos m) in E by lia. simpl in E. lia.
Qed.

Lemma probe_facts w host port :
  (forall P, emits_only P (check_port_available w host port)) /\
  state_indep (check_port_available w host port) /\
  (forall Q, raises_only Q (check_port_available w host port)).
Proof.
  repeat split.
  - intros P s. rewrite check_port_available_eq. exists []. rewrite app_nil_r.
    split; [reflexivity | constructor].
  - intros s s'. rewrite !check_port_available_eq. reflexivity.
  - intros Q s e. rewrite check_port_available_eq. discriminate.
Qed.

Lemma find_free_port_facts w host start m :
  (forall P, emits_only P (find_free_port w host start m)) /\
  state_indep (find_free_port w host start m) /\
  (forall Q, raises_only Q (find_free_port w host start m)).
Proof.
  repeat split.
  - intros P s. rewrite find_free_port_eq. exists []. rewrite app_nil_r.
    split; [reflexivity | constructor].
  - intros s s'. rewrite !find_free_port_eq. reflexivity.
  - intros Q s e. rewrite find_free_port_eq. discriminate.
Qed.


Lemma select_port_py_facts hw :
  (forall P, (forall m, P (EvPrint m)) -> emits_only P (select_port_py hw)) /\
  state_indep (select_port_py hw) /\
  (forall s, fst (select_port_py hw s) = select_result (hw_base hw)).
Proof.
  split; [|split].
  - intros P HP. unfold select_port_py, no_free_port, sys_exit.
    repeat first
      [ progress cbv beta zeta | progress unfold print
      | simple apply emits_only_ret | simple apply emits_only_raise
      | simple apply emits_only_emit; apply HP
      | apply (proj1 (probe_facts _ _ _))
      | apply (proj1 (find_free_port_facts _ _ _ _))
      | simple apply emits_only_bind; [|intros ?]
      | case_match ].
  - unfold select_port_py, no_free_port, sys_exit.
    repeat first
      [ progress cbv beta zeta | progress unfold print
      | simple apply state_indep_ret | simple apply state_indep_raise
      | simple apply state_indep_emit
      | apply (proj1 (proj2 (probe_facts _ _ _)))
      | apply (proj1 (proj2 (find_free_port_facts _ _ _ _)))
      | simple apply state_indep_bind; [|intros ?]
      | case_match ].
  - intros s. unfold select_result.
    cbv beta iota zeta delta [select_port_py no_free_port sys_exit bind ret raise emit print negb].
    rewrite check_port_available_eq.
    destruct (probe_result (hw_base hw) HOST DEFAULT_PORT); [reflexivity|].
    rewrite find_free_port_eq.
    destruct (free_port_result (hw_base hw) HOST DEFAULT_PORT 10) as [p|]; [|reflexivity].
    destruct (p =? 0); reflexivity.
Qed.

Lemma select_result_resolved w a : select_result w = Ok a -> resolved_port w a.
Proof.
  unfold select_result, resolved_port.
  destruct (probe_result w HOST DEFAULT_PORT); [intros H; injection H as <-; reflexivity|].
  destruct (free_port_result w HOST DEFAULT_PORT 10) as [p|]; [|discriminate].
  destruct (p =? 0); [discriminate|]. intros H; injection H as <-; reflexivity.
Qed.

Lemma resolved_port_nonzero w p : resolved_port w p -> (p =? 0) = false.
Proof.
  unfold resolved_port. intros H. apply Z.eqb_neq.
  destruct (probe_result w HOST DEFAULT_PORT).
  - rewrite H. discriminate.
  - apply free_port_result_range in H. unfold DEFAULT_PORT in H. lia.
Qed.

(** Every launch event of [start_server_py] carries the resolved port. *)
Lemma start_server_py_ports hw : emits_only (port_event_ok (hw_base hw)) (start_server_py hw).
Proof.
  unfold start_server_py.
  destruct (select_port_py_facts hw) as (E & Ind & R).
  apply emits_only_bind_indep; [exact Ind | apply E; intros; exact I | intros a Ha].
  assert (Hres : resolved_port (hw_base hw) a)
    by (apply select_result_resolved; rewrite <- (R st0); apply Ha).
  unfold http_server, serve_forever, sys_exit.
  repeat first
    [ progress cbv beta zeta | progress unfold print
    | simple apply emits_only_ret | simple apply emits_only_raise
    | simple apply emits_only_emit; solve [exact I | exact Hres | split; [reflexivity | exact Hres]]
    | simple apply emits_only_bind; [|intros ?]
    | simple apply emits_only_try;
        [|let e := fresh "e" in let Hk := fresh "Hk" in intros e ? Hk; handler_tac e Hk]
    | case_match ].
Qed.

Lemma start_server_indep w : state_indep (start_server w).
Proof.
  unfold start_server, check_node_installed, select_port, no_free_port, sys_exit.
  repeat first
    [ progress cbv beta zeta | progress unfold print
    | simple apply state_indep_ret | simple apply state_indep_raise
    | simple apply state_indep_emit
    | apply (proj1 (proj2 (probe_facts _ _ _)))
    | apply (proj1 (proj2 (find_free_port_facts _ _ _ _)))
    | apply (proj1 (proj2 (subprocess_run_facts _ _)))
    | apply (proj1 (proj2 (subprocess_run_check_facts _ _)))
    | intros s s'; reflexivity
    | simple apply state_indep_bind; [|intros ?]
    | simple apply state_indep_try;
        [|let e := fresh "e" in let Hk := fresh "Hk" in intros e ? Hk; handler_tac e Hk]
    | case_match ].
Qed.

Lemma send_headers_eq hs v c l wf :
  String.eqb v "HTTP/0.9" = false ->
  HttpHandler.send_headers hs (HttpHandler.mkHandler v c (Some l) wf) =
  HttpHandler.mkHandler v c (Some (l ++ map HttpHandler.header_line hs)) wf.
Proof.
  intros Hv. revert l. induction hs as [|[k x] hs IH]; intros l; simpl.
  - rewrite app_nil_r. reflexivity.
  - unfold HttpHandler.send_header, HttpHandler.not_http09, HttpHandler.buffer_append.
    simpl. rewrite Hv. simpl. rewrite IH, <- app_assoc. reflexivity.
Qed.

Lemma send_headers_http09 hs h :
  HttpHandler.request_version h = "HTTP/0.9"%string -> HttpHandler.send_headers hs h = h.
Proof.
  revert h. induction hs as [|[k x] hs IH]; intros h Hv; simpl; [reflexivity|].
  unfold HttpHandler.send_header, HttpHandler.not_http09. rewrite Hv. simpl.
  apply IH, Hv.
Qed.

Lemma reap_world_runs_raise answer argv : runs_raise_exceptions (reap_world answer argv).
Proof.
  intros cmd e H. unfold reap_world in H. simpl in H.
  repeat case_match; try discriminate H; injection H as <-; reflexivity.
Qed.

Ltac launch_cbv :=
  cbv beta iota zeta delta [start_server check_node_installed select_port no_free_port sys_exit
       subprocess_run subprocess_run_check bind ret raise emit print try_except
       get_env set_env negb st_env st_log].

Ltac in_log :=
  cbn [st_log st_env fst snd app In]; repeat (first [left; reflexivity | right]).

(** ** Claims *)

(** C1: [find_free_port(host, start_port, max_attempts)] returns the first
    port of [start_port .. start_port+max_attempts-1] that the probe
    [check_port_available] reports free, and none when the probe reports
    every port of that range occupied; in particular with start 8000 and 10
    attempts it returns 8000 when 8000 is free and none when 8000..8009 are
    all occupied.  The search raises nothing and leaves the state alone. *)
Theorem find_free_port_first_free (w : World) (host : string) (start_port max_attempts : Z) (s : St) :
  (forall p,
     find_free_port w host start_port max_attempts s = (Ok (Some p), s) <->
     start_port <= p < start_port + max_attempts /\
     check_port_available w host p s = (Ok true, s) /\
     (forall q, start_port <= q < p -> check_port_available w host q s = (Ok false, s))) /\
  (find_free_port w host start_port max_attempts s = (Ok None, s) <->
     (forall q, start_port <= q < start_port + max_attempts ->
                check_port_available w host q s = (Ok false, s))) /\
  (exists r, find_free_port w host start_port max_attempts s = (Ok r, s)) /\
  (check_port_available w host 8000 s = (Ok true, s) ->
     find_free_port w host 8000 10 s = (Ok (Some 8000), s)) /\
  ((forall q, 8000 <= q <= 8009 -> check_port_available w host q s = (Ok false, s)) ->
     find_free_port w host 8000 10 s = (Ok None, s)).
Proof.
  assert (Hc : forall q b, check_port_available w host q s = (Ok b, s) <->
                           probe_result w host q = b).
  { intros q b. rewrite check_port_available_eq. split; [intros H; inversion H; reflexivity | intros ->; reflexivity]. }
  assert (Hsome : forall st m p,
            find_free_port w host st m s = (Ok (Some p), s) <->
            st <= p < st + m /\ probe_result w host p = true /\
            (forall q, st <= q < p -> probe_result w host q = false)).
  { intros st m p. unfold find_free_port. rewrite find_free_port_from_some.
    destruct (Z.le_gt_cases 0 m).
    - rewrite Z2Nat.id by assumption. simpl. rewrite !Z.add_0_r. tauto.
    - rewrite (Z2Nat.nonpos m) by lia. simpl. split; intros; lia. }
  assert (Hnone : forall st m,
            find_free_port w host st m s = (Ok None, s) <->
            (forall q, st <= q < st + m -> probe_result w host q = false)).
  { intros st m. unfold find_free_port. rewrite find_free_port_from_none.
    destruct (Z.le_gt_cases 0 m).
    - rewrite Z2Nat.id by assumption. simpl. rewrite !Z.add_0_r. tauto.
    - rewrite (Z2Nat.nonpos m) by lia. simpl. split; intros; lia. }
  split; [|split; [|split; [|split]]].
  - intros p. rewrite Hsome, Hc. split.
    + intros (? & ? & Hq). repeat split; try tauto. intros q ?. apply Hc, Hq. assumption.
    + intros (? & ? & Hq). repeat split; try tauto. intros q ?. apply Hc, Hq. assumption.
  - rewrite Hnone. split; intros Hq q ?; apply Hc, Hq; assumption.
  - apply find_free_port_from_shape.
  - intros H. apply Hsome. apply Hc in H. split; [lia|]. split; [assumption|]. lia.
  - intros H. apply Hnone. intros q ?. apply Hc, H. lia.
Qed.

Lemma find_free_port_first_free_witness :
  find_free_port (server_world node_v20 (Ran (mkCompleted 0 "")) busy_8000) HOST 8000 10 st0 =
  (Ok (Some 8001), st0).
Proof.
  apply (proj1 (find_free_port_first_free (server_world node_v20 (Ran (mkCompleted 0 "")) busy_8000)
                  HOST 8000 10 st0) 8001).
  split; [lia|]. split; [reflexivity|].
  intros q Hq. assert (q = 8000) as -> by lia. reflexivity.
Defined.

(** C3: the probe [check_port_available(host, port)] returns false when
    the connect succeeds ([connect_ex] returns 0), true when it is refused
    or times out ([connect_ex] returns an errno), and true whenever a
    socket-level exception is raised (also [OverflowError] for a port
    outside 0..65535); it never raises. *)
Theorem check_port_available_contract (w : World) (host : string) (port : Z) (s : St) :
  (w_socket w = None -> 0 <= port <= 65535 -> w_connect w host port = inl 0 ->
     check_port_available w host port s = (Ok false, s)) /\
  (forall errno, w_socket w = None -> 0 <= port <= 65535 ->
     w_connect w host port = inl errno -> errno <> 0 ->
     check_port_available w host port s = (Ok true, s)) /\
  (forall e, w_socket w = Some e ->
     check_port_available w host port s = (Ok true, s)) /\
  (forall e, w_connect w host port = inr e ->
     check_port_available w host port s = (Ok true, s)) /\
  (~ (0 <= port <= 65535) ->
     check_port_available w host port s = (Ok true, s)).
Proof.
  unfold check_port_available, try_except, bind, socket_new, connect_ex, ret, raise.
  repeat split.
  - intros -> Hr ->. replace ((0 <=? port) && (port <=? 65535)) with true; [reflexivity|].
    symmetry. apply andb_true_iff. split; apply Z.leb_le; lia.
  - intros errno -> Hr -> Hne. replace ((0 <=? port) && (port <=? 65535)) with true.
    + simpl. rewrite <- Z.eqb_neq in Hne. rewrite Hne. reflexivity.
    + symmetry. apply andb_true_iff. split; apply Z.leb_le; lia.
  - intros e ->. reflexivity.
  - intros e He. destruct (w_socket w); [reflexivity|].
    destruct ((0 <=? port) && (port <=? 65535)); [|reflexivity]. rewrite He. reflexivity.
  - intros Hr. replace ((0 <=? port) && (port <=? 65535)) with false.
    + destruct (w_socket w); reflexivity.
    + symmetry. apply andb_false_iff. destruct (Z.le_gt_cases 0 port).
      * right. apply Z.leb_gt. lia.
      * left. apply Z.leb_gt. lia.
Qed.

Lemma check_port_available_contract_witness :
  check_port_available (server_world node_v20 (Ran (mkCompleted 0 "")) busy_8000) HOST 8000 st0 =
  (Ok false, st0).
Proof.
  apply (proj1 (check_port_available_contract
                  (server_world node_v20 (Ran (mkCompleted 0 "")) busy_8000) HOST 8000 st0)).
  - reflexivity.
  - lia.
  - reflexivity.
Defined.

(** C4: [kill_process(pid)] never raises past its boundary when the
    termination command can only fail with an invocation error (an
    [Exception]: missing tool, insufficient privilege, timeout): it returns
    true exactly when the platform command ([taskkill /F /PID pid] or
    [kill -9 pid]) exits 0, and false on a non-zero exit or an invocation
    error. *)
Theorem kill_process_result (w : World) (pid : Z) (s : St) :
  runs_raise_exceptions w ->
  fst (kill_process w pid s) =
  Ok (match w_run w (if is_windows w then ["taskkill"; "/F"; "/PID"; str_Z pid]
                     else ["kill"; "-9"; str_Z pid]) with
      | Ran c => returncode c =? 0
      | RunRaised _ => false
      end).
Proof.
  intros Hw.
  unfold kill_process, subprocess_run_check, subprocess_run, try_except, bind,
    emit, get_env, ret, raise.
  destruct (is_windows w);
    [ destruct (w_run w ["taskkill"; "/F"; "/PID"; str_Z pid]) as [c|e] eqn:Hr
    | destruct (w_run w ["kill"; "-9"; str_Z pid]) as [c|e] eqn:Hr ]; simpl.
  1,3: destruct (returncode c =? 0); reflexivity.
  all: pose proof (Hw _ _ Hr) as He; destruct e; try discriminate He; reflexivity.
Qed.

Lemma kill_process_result_witness :
  runs_raise_exceptions (reap_world (Some "y") []) /\
  fst (kill_process (reap_world (Some "y") []) 1234 st0) = Ok true.
Proof.
  assert (Hw : runs_raise_exceptions (reap_world (Some "y") [])) by apply reap_world_runs_raise.
  split; [exact Hw|].
  rewrite (kill_process_result (reap_world (Some "y") []) 1234 st0 Hw). reflexivity.
Defined.

Lemma emits_only_from_empty P {A} (m : M A) env :
  emits_only P m -> Forall P (st_log (snd (m (mkSt env [])))).
Proof. intros H. destruct (H (mkSt env [])) as (l & E & F). simpl in E. rewrite E. exact F. Qed.

Lemma raises_only_false_ok (m : M unit) s :
  raises_only (fun _ => False) m -> fst (m s) = Ok tt.
Proof.
  intros H. destruct (fst (m s)) as [[]|e] eqn:E; [reflexivity|].
  exfalso. exact (H s e E).
Qed.

(** C9: [main] of kill_port.py calls [kill_process] only for a pid whose
    [get_process_info] returned a record (and a non-zero pid); when a
    non-zero pid is found on the occupied port but the info lookup fails,
    the run returns normally, logs only printed messages and subprocess
    runs (no confirmation prompt, no [kill_process] call) and reports the
    pid. *)
Theorem main_kill_needs_process_info :
  (forall (w : World) env k,
     In (EvKillCall k) (st_log (snd (main w (mkSt env [])))) ->
     k <> 0 /\ exists i, forall s, fst (get_process_info w k s) = Ok (Some i)) /\
  (forall (w : World) env n p,
     ((w_argv w = [] /\ n = 8000) \/
      (exists a rest, w_argv w = a :: rest /\ PyStr.int_of_string a = Some n)) ->
     w_socket w = None -> 0 <= n <= 65535 -> w_connect w "localhost" n = inl 0 ->
     (forall s, fst (find_process_on_port w n s) = Ok (Some p)) -> p <> 0 ->
     (forall s, fst (get_process_info w p s) = Ok None) ->
     fst (main w (mkSt env [])) = Ok tt /\
     Forall quiet (st_log (snd (main w (mkSt env [])))) /\
     In (EvPrint ("Найден процесс с PID " ++ str_Z p ++
                  ", но не удалось получить информацию")%string)
        (st_log (snd (main w (mkSt env []))))).
Proof.
  split.
  - intros w env k Hin.
    pose proof (emits_only_from_empty _ _ env (main_kill_guarded w)) as F.
    rewrite List.Forall_forall in F.
    destruct (F _ Hin k eq_refl) as (Hk & Hi & _). split; assumption.
  - intros w env n p Hport Hsock Hrange Hconn Hfind Hp Hinfo. split; [|split].
    + apply raises_only_false_ok. eapply main_no_info_raises; eassumption.
    + apply emits_only_from_empty. eapply main_no_info_quiet; eassumption.
    + eapply main_no_info_logs; eassumption.
Qed.

Lemma main_kill_needs_process_info_witness :
  fst (main noinfo_world (mkSt ∅ [])) = Ok tt /\
  Forall quiet (st_log (snd (main noinfo_world (mkSt ∅ [])))) /\
  In (EvPrint ("Найден процесс с PID " ++ str_Z 1234 ++
               ", но не удалось получить информацию")%string)
     (st_log (snd (main noinfo_world (mkSt ∅ [])))).
Proof.
  apply (proj2 main_kill_needs_process_info noinfo_world ∅ 8000 1234).
  - left. split; reflexivity.
  - reflexivity.
  - lia.
  - reflexivity.
  - intros s. reflexivity.
  - lia.
  - intros s. reflexivity.
Defined.

(** C2 (as stated, refuted): the operator answer ["Y"] is not the exact
    token ["y"], yet [main] calls [kill_process] on the occupied port's
    process, because the answer is compared after [.lower()]. *)
Lemma main_kills_on_answer_upper_Y :
  w_input (reap_world (Some "Y") []) = Some "Y"%string /\ "Y"%string <> "y"%string /\
  In (EvKillCall 1234) (st_log (snd (main (reap_world (Some "Y") []) st0))).
Proof.
  split; [reflexivity|]. split; [discriminate|].
  vm_compute. repeat (first [left; reflexivity | right]).
Qed.

(** C2 (amended): on an occupied port whose non-zero pid is found and
    whose process info is retrieved, [main] calls [kill_process] if and
    only if the operator's answer lower-cases to ["y"], i.e. is ["y"] or
    ["Y"]; any other answer, or end of input, aborts without calling it. *)
Theorem main_kill_iff_answer_y (w : World) env n p i
  (Hport : (w_argv w = [] /\ n = 8000) \/
           (exists a rest, w_argv w = a :: rest /\ PyStr.int_of_string a = Some n))
  (Hsock : w_socket w = None) (Hrange : 0 <= n <= 65535)
  (Hconn : w_connect w "localhost" n = inl 0)
  (Hfind : forall s, fst (find_process_on_port w n s) = Ok (Some p)) (Hp : p <> 0)
  (Hinfo : forall s, fst (get_process_info w p s) = Ok (Some i)) :
  (exists k, In (EvKillCall k) (st_log (snd (main w (mkSt env []))))) <->
  (w_input w = Some "y"%string \/ w_input w = Some "Y"%string).
Proof.
  split.
  - intros (k & Hin).
    pose proof (emits_only_from_empty _ _ env (main_kill_guarded w)) as F.
    rewrite List.Forall_forall in F.
    destruct (F _ Hin k eq_refl) as (_ & _ & l & Hl & Hy).
    rewrite Hl. destruct (lower_eq_y l Hy) as [-> | ->]; [left | right]; reflexivity.
  - intros Hans. exists p.
    assert (Hl : exists l, w_input w = Some l /\ PyStr.lower l = "y"%string)
      by (destruct Hans as [H | H]; eexists; split; [exact H | reflexivity | exact H | reflexivity]).
    destruct Hl as (l & Hl & Hy).
    eapply main_answer_y_logs_kill; eassumption.
Qed.

Lemma main_kill_iff_answer_y_witness :
  (exists k, In (EvKillCall k) (st_log (snd (main (reap_world (Some "y") []) (mkSt ∅ []))))) <->
  (w_input (reap_world (Some "y") []) = Some "y"%string \/
   w_input (reap_world (Some "y") []) = Some "Y"%string).
Proof.
  apply (main_kill_iff_answer_y (reap_world (Some "y") []) ∅ 8000 1234
           (mkInfo "python3" 1234 "python3 -m http.server")).
  - left. split; reflexivity.
  - reflexivity.
  - lia.
  - reflexivity.
  - intros s. reflexivity.
  - lia.
  - intros s. reflexivity.
Defined.




(** C6 (as stated, refuted): a request line whose version cannot be parsed
    ([GET / HTTP/1]) leaves [request_version] at its default ["HTTP/0.9"];
    the error reply of [send_error] then writes only the HTML body (here
    abbreviated), with no status line and no headers at all, so none of the
    three security headers. *)
Lemma http09_error_reply_has_no_headers :
  exists h',
    HttpHandler.send_error 400 "Bad request version ('HTTP/1')" "<p>Bad request</p>"
      "SimpleHTTP/0.6 Python/3.11" "Thu, 15 Oct 2026 12:00:00 GMT"
      (HttpHandler.mkHandler "HTTP/0.9" None None []) = Some h' /\
    HttpHandler.wfile h' = ["<p>Bad request</p>"%string] /\
    PyStr.contains "X-Frame-Options" (String.concat "" (HttpHandler.wfile h')) = false.
Proof. eexists. split; [reflexivity | split; reflexivity]. Qed.

(** C6 (amended): for a request whose version is not HTTP/0.9, every
    response the handler starts (a status line followed by any headers
    [hs], as [send_response], [send_error] and [send_head] do) is written
    as one header block ending with exactly the three fixed headers
    [X-Content-Type-Options: nosniff], [X-Frame-Options: SAMEORIGIN],
    [X-XSS-Protection: 1; mode=block], then the blank line; for an
    HTTP/0.9 request (also a request line whose version does not parse)
    nothing of the header phase is written. *)
Theorem custom_end_headers_block (h : HttpHandler.Handler) (code : Z) (message : string)
  (hs : list (string * string)) :
  (HttpHandler.request_version h <> "HTTP/0.9"%string ->
   (HttpHandler.headers_buffer h = None \/ HttpHandler.headers_buffer h = Some []) ->
   HttpHandler.end_headers (HttpHandler.send_headers hs (HttpHandler.send_response_only code message h)) =
   Some (HttpHandler.mkHandler (HttpHandler.request_version h) (HttpHandler.command h) (Some [])
           (HttpHandler.wfile h ++
            [String.concat ""
               ((HttpHandler.protocol_version ++ " " ++ str_Z code ++ " " ++ message ++ HttpHandler.crlf)%string
                :: map HttpHandler.header_line hs ++
                [HttpHandler.header_line ("X-Content-Type-Options", "nosniff");
                 HttpHandler.header_line ("X-Frame-Options", "SAMEORIGIN");
                 HttpHandler.header_line ("X-XSS-Protection", "1; mode=block");
                 HttpHandler.crlf])]))) /\
  (HttpHandler.request_version h = "HTTP/0.9"%string ->
   HttpHandler.end_headers (HttpHandler.send_headers hs (HttpHandler.send_response_only code message h)) =
   Some h).
Proof.
  destruct h as [v c b wf]; simpl. split.
  - intros Hv Hb. apply String.eqb_neq in Hv.
    match goal with |- _ = Some ?r => set (R := r) end.
    unfold HttpHandler.send_response_only, HttpHandler.not_http09, HttpHandler.buffer_append.
    simpl. rewrite Hv. simpl.
    rewrite send_headers_eq by exact Hv.
    unfold HttpHandler.end_headers, HttpHandler.base_end_headers, HttpHandler.send_header,
      HttpHandler.not_http09, HttpHandler.buffer_append, HttpHandler.flush_headers.
    simpl. rewrite Hv. simpl.
    destruct Hb as [-> | ->]; simpl; repeat (rewrite Hv; simpl);
      rewrite <- !app_assoc; subst R; reflexivity.
  - intros ->. unfold HttpHandler.send_response_only. simpl.
    rewrite send_headers_http09 by reflexivity. reflexivity.
Qed.

Lemma custom_end_headers_block_witness :
  HttpHandler.end_headers
    (HttpHandler.send_headers [("Server", "SimpleHTTP/0.6 Python/3.11"); ("Content-Length", "0")]
       (HttpHandler.send_response_only 200 "OK" (handler_for "HTTP/1.1"))) =
  Some (HttpHandler.mkHandler "HTTP/1.1" (Some "GET"%string) (Some [])
          ([] ++
           [String.concat ""
              ((HttpHandler.protocol_version ++ " " ++ str_Z 200 ++ " " ++ "OK" ++ HttpHandler.crlf)%string
               :: map HttpHandler.header_line [("Server", "SimpleHTTP/0.6 Python/3.11"); ("Content-Length", "0")] ++
               [HttpHandler.header_line ("X-Content-Type-Options", "nosniff");
                HttpHandler.header_line ("X-Frame-Options", "SAMEORIGIN");
                HttpHandler.header_line ("X-XSS-Protection", "1; mode=block");
                HttpHandler.crlf])])).
Proof.
  apply (proj1 (custom_end_headers_block (handler_for "HTTP/1.1") 200 "OK"
                  [("Server", "SimpleHTTP/0.6 Python/3.11"); ("Content-Length", "0")])).
  - discriminate.
  - left. reflexivity.
Defined.

(** C7 (as stated, refuted): with Node.js present and port 8000 free, the
    launcher still exits with status 1 when [npx http-server] exits
    non-zero ([CalledProcessError] is turned into [sys.exit(1)]). *)
Lemma start_server_npx_failure_exits_1 :
  node_present (server_world node_v20 (Ran (mkCompleted 1 "")) busy_none) /\
  probe_result (server_world node_v20 (Ran (mkCompleted 1 "")) busy_none) HOST DEFAULT_PORT = true /\
  exit_status (fst (start_server (server_world node_v20 (Ran (mkCompleted 1 "")) busy_none) st0)) = 1.
Proof.
  split; [eexists; split; reflexivity|].
  split; vm_compute; reflexivity.
Qed.

(** C7 (amended): [start_server] of start_server.py ends with
    [sys.exit(1)] when [node --version] is not found, times out or exits
    non-zero, when port 8000 is occupied and the search of 8000..8009
    finds nothing, and when [npx http-server] on the resolved port exits
    non-zero; it ends with [sys.exit(0)] when that run is interrupted
    ([KeyboardInterrupt]) and returns normally (status 0) when it exits 0;
    any other error of the two runs escapes uncaught (status 1, or 130
    for an interrupt during the Node.js check). *)
Theorem start_server_exit_status (w : World) (s : St) :
  (node_missing w -> fst (start_server w s) = Raise (SystemExit 1)) /\
  (forall e, w_run w ["node"; "--version"] = RunRaised e ->
     e <> FileNotFoundError -> e <> TimeoutExpired -> fst (start_server w s) = Raise e) /\
  (node_present w -> probe_result w HOST DEFAULT_PORT = false ->
     free_port_result w HOST DEFAULT_PORT 10 = None ->
     fst (start_server w s) = Raise (SystemExit 1)) /\
  (forall p, node_present w -> resolved_port w p ->
     fst (start_server w s) =
     match w_run w (npx_cmd p) with
     | Ran c => if returncode c =? 0 then Ok tt else Raise (SystemExit 1)
     | RunRaised (CalledProcessError _) => Raise (SystemExit 1)
     | RunRaised KeyboardInterrupt => Raise (SystemExit 0)
     | RunRaised e => Raise e
     end).
Proof.
  split; [|split; [|split]].
  - intros [Hn | [Hn | (c & Hn & Hrc)]]; launch_cbv; rewrite Hn; [reflexivity | reflexivity |].
    apply Z.eqb_neq in Hrc. cbv beta iota delta [st_env st_log]. rewrite Hrc. reflexivity.
  - intros e Hn H1 H2. launch_cbv. rewrite Hn. destruct e; try congruence; reflexivity.
  - intros (c & Hn & Hrc) Hp Hf. rewrite <- Z.eqb_eq in Hrc. launch_cbv. rewrite Hn. cbv beta iota delta [st_env st_log].
    rewrite Hrc. cbv beta iota delta [st_env st_log]. rewrite check_port_available_eq, Hp. cbv beta iota delta [st_env st_log].
    rewrite find_free_port_eq, Hf. reflexivity.
  - intros p (c & Hn & Hrc) Hres. pose proof (resolved_port_nonzero _ _ Hres) as Hp0.
    rewrite <- Z.eqb_eq in Hrc.
    launch_cbv. rewrite Hn. cbv beta iota delta [st_env st_log]. rewrite Hrc. cbv beta iota delta [st_env st_log].
    rewrite check_port_available_eq. unfold resolved_port in Hres.
    destruct (probe_result w HOST DEFAULT_PORT); cbv beta iota delta [st_env st_log].
    + subst p. destruct (w_run w (npx_cmd DEFAULT_PORT)) as [c'|e];
        [destruct (returncode c' =? 0) | destruct e]; cbv beta iota delta [st_env st_log]; reflexivity.
    + rewrite find_free_port_eq, Hres. cbv beta iota delta [st_env st_log]. rewrite Hp0. cbv beta iota delta [st_env st_log].
      destruct (w_run w (npx_cmd p)) as [c'|e];
        [destruct (returncode c' =? 0) | destruct e]; cbv beta iota delta [st_env st_log]; reflexivity.
Qed.

Lemma start_server_exit_status_witness :
  fst (start_server (server_world node_v20 (Ran (mkCompleted 0 "")) busy_none) st0) = Ok tt.
Proof.
  rewrite (proj2 (proj2 (proj2 (start_server_exit_status
             (server_world node_v20 (Ran (mkCompleted 0 "")) busy_none) st0))) 8000).
  - reflexivity.
  - eexists. split; reflexivity.
  - unfold resolved_port. vm_compute. reflexivity.
Defined.

(** C8 (as stated, refuted): start_server.py never reads [PORT]: with
    [PORT=9000] in the environment and port 8000 free, [npx http-server]
    is started on port 8000 and the environment is left as it was. *)
Lemma start_server_ignores_PORT :
  (<["PORT" := "9000"]> ∅ : gmap string string) !! "PORT" = Some "9000"%string /\
  In (EvRun ["npx"; "http-server"; "-p"; "8000"; "-d"; "false"; "-o"] (<["PORT" := "9000"]> ∅))
     (st_log (snd (start_server (server_world node_v20 (Ran (mkCompleted 0 "")) busy_none)
                                (mkSt (<["PORT" := "9000"]> ∅) [])))) /\
  st_env (snd (start_server (server_world node_v20 (Ran (mkCompleted 0 "")) busy_none)
                            (mkSt (<["PORT" := "9000"]> ∅) []))) = <["PORT" := "9000"]> ∅.
Proof.
  split; [reflexivity|]. split; [|vm_compute; reflexivity].
  vm_compute. repeat (first [left; reflexivity | right]).
Qed.

(** C8 (amended): start_server.py only writes [PORT], and only when
    Node.js is present, port 8000 is occupied and the search finds [p]:
    the environment it ends with is then [PORT = str(p)], in every other
    case (Node.js missing or failing, 8000 free, no free port) the one it
    started with. With Node.js present, when port 8000 is free
    [npx http-server -p 8000] runs with the unchanged environment; when
    8000 is occupied and the search finds [p], [npx http-server -p p] runs
    with [PORT = str(p)]; and the outcome of the run does not depend on
    the environment it starts with, so a [PORT] set by the operator is
    never read. *)
Theorem start_server_port_env (w : World) (env : gmap string string) :
  (node_present w -> probe_result w HOST DEFAULT_PORT = true ->
     st_env (snd (start_server w (mkSt env []))) = env /\
     In (EvRun (npx_cmd DEFAULT_PORT) env) (st_log (snd (start_server w (mkSt env []))))) /\
  (forall p, node_present w -> probe_result w HOST DEFAULT_PORT = false ->
     free_port_result w HOST DEFAULT_PORT 10 = Some p ->
     st_env (snd (start_server w (mkSt env []))) = <["PORT" := str_Z p]> env /\
     In (EvRun (npx_cmd p) (<["PORT" := str_Z p]> env))
        (st_log (snd (start_server w (mkSt env []))))) /\
  (forall l, st_env (snd (start_server w (mkSt env l))) =
     match fst (check_node_installed w (mkSt env l)), probe_result w HOST DEFAULT_PORT,
           free_port_result w HOST DEFAULT_PORT 10 with
     | Ok true, false, Some p => <["PORT" := str_Z p]> env
     | _, _, _ => env
     end) /\
  (forall env', fst (start_server w (mkSt env [])) = fst (start_server w (mkSt env' []))).
Proof.
  split; [|split; [|split]].
  - intros (c & Hn & Hrc) Hp. rewrite <- Z.eqb_eq in Hrc.
    launch_cbv. rewrite Hn. cbv beta iota delta [st_env st_log]. rewrite Hrc. cbv beta iota delta [st_env st_log].
    rewrite check_port_available_eq, Hp. cbv beta iota delta [st_env st_log].
    destruct (w_run w (npx_cmd DEFAULT_PORT)) as [c'|e];
      [destruct (returncode c' =? 0) | destruct e]; cbv beta iota delta [st_env st_log];
        (split; [reflexivity | in_log]).
  - intros p (c & Hn & Hrc) Hp Hf. rewrite <- Z.eqb_eq in Hrc.
    assert (Hp0 : (p =? 0) = false)
      by (apply resolved_port_nonzero with w; unfold resolved_port; rewrite Hp; exact Hf).
    launch_cbv. rewrite Hn. cbv beta iota delta [st_env st_log]. rewrite Hrc. cbv beta iota delta [st_env st_log].
    rewrite check_port_available_eq, Hp. cbv beta iota delta [st_env st_log].
    rewrite find_free_port_eq, Hf. cbv beta iota delta [st_env st_log]. rewrite Hp0. cbv beta iota delta [st_env st_log].
    destruct (w_run w (npx_cmd p)) as [c'|e];
      [destruct (returncode c' =? 0) | destruct e]; cbv beta iota delta [st_env st_log];
        (split; [reflexivity | in_log]).
  - intros l. launch_cbv.
    destruct (w_run w ["node"; "--version"]) as [c|e] eqn:Hn.
    + cbv beta iota. destruct (returncode c =? 0); cbv beta iota; [|reflexivity].
      rewrite check_port_available_eq. cbv beta iota.
      destruct (probe_result w HOST DEFAULT_PORT) eqn:Hp; cbv beta iota.
      * destruct (w_run w (npx_cmd DEFAULT_PORT)) as [c'|e'];
          [destruct (returncode c' =? 0) | destruct e']; reflexivity.
      * rewrite find_free_port_eq. cbv beta iota.
        destruct (free_port_result w HOST DEFAULT_PORT 10) as [p|] eqn:Hf; cbv beta iota;
          [|reflexivity].
        assert (Hp0 : (p =? 0) = false)
          by (apply resolved_port_nonzero with w; unfold resolved_port; rewrite Hp; exact Hf).
        rewrite Hp0. cbv beta iota.
        destruct (w_run w (npx_cmd p)) as [c'|e'];
          [destruct (returncode c' =? 0) | destruct e']; reflexivity.
    + cbv beta iota. destruct e; reflexivity.
  - intros env'. apply start_server_indep.
Qed.

Lemma start_server_port_env_witness :
  st_env (snd (start_server (server_world (RunRaised FileNotFoundError) (Ran (mkCompleted 0 "")) busy_8000)
                 (mkSt (<["PORT" := "9000"]> ∅) []))) = <["PORT" := "9000"]> ∅ /\
  st_env (snd (start_server (server_world node_v20 (Ran (mkCompleted 0 "")) busy_8000)
                 (mkSt (<["PORT" := "9000"]> ∅) []))) = <["PORT" := "8001"]> (<["PORT" := "9000"]> ∅).
Proof.
  split.
  - rewrite (proj1 (proj2 (proj2 (start_server_port_env
      (server_world (RunRaised FileNotFoundError) (Ran (mkCompleted 0 "")) busy_8000)
      (<["PORT" := "9000"]> ∅)))) []).
    vm_compute. reflexivity.
  - rewrite (proj1 (proj2 (proj2 (start_server_port_env
      (server_world node_v20 (Ran (mkCompleted 0 "")) busy_8000)
      (<["PORT" := "9000"]> ∅)))) []).
    vm_compute. reflexivity.
Defined.


(** C10: in start_server_python.py one resolved port is used throughout:
    the banner, the [HTTPServer] bind (on [HOST]) and the browser thread
    all carry the resolved port (8000 when the probe reports it free,
    otherwise the free-port search's answer); and for that port the
    banner and the bind are always reached, the browser thread whenever
    the bind succeeds. *)
Theorem start_server_py_single_port (hw : HttpWorld) (env : gmap string string) :
  (forall p, In (EvBanner p) (st_log (snd (start_server_py hw (mkSt env [])))) \/
             In (EvBrowserThread p) (st_log (snd (start_server_py hw (mkSt env [])))) ->
             resolved_port (hw_base hw) p) /\
  (forall h p, In (EvBind h p) (st_log (snd (start_server_py hw (mkSt env [])))) ->
               h = HOST /\ resolved_port (hw_base hw) p) /\
  (forall p, resolved_port (hw_base hw) p ->
     In (EvBanner p) (st_log (snd (start_server_py hw (mkSt env [])))) /\
     In (EvBind HOST p) (st_log (snd (start_server_py hw (mkSt env [])))) /\
     (hw_bind hw HOST p = None ->
      In (EvBrowserThread p) (st_log (snd (start_server_py hw (mkSt env [])))))).
Proof.
  pose proof (emits_only_from_empty _ _ env (start_server_py_ports hw)) as F.
  rewrite List.Forall_forall in F.
  split; [|split].
  - intros p [H | H]; exact (F _ H).
  - intros h p H. exact (F _ H).
  - intros p Hres. pose proof (resolved_port_nonzero _ _ Hres) as Hp0.
    unfold resolved_port in Hres.
    cbv beta iota zeta delta [start_server_py select_port_py no_free_port sys_exit http_server
      serve_forever bind ret raise emit print try_except negb st_env st_log].
    rewrite check_port_available_eq.
    destruct (probe_result (hw_base hw) HOST DEFAULT_PORT); cbv beta iota delta [st_env st_log].
    + subst p.
      destruct (hw_bind hw HOST DEFAULT_PORT) as [e|]; [destruct (is_oserror e)|];
        destruct (hw_serve hw);
        (split; [in_log | split; [in_log | intros Hb; try discriminate Hb; in_log]]).
    + rewrite find_free_port_eq, Hres. cbv beta iota delta [st_env st_log]. rewrite Hp0. cbv beta iota delta [st_env st_log].
      destruct (hw_bind hw HOST p) as [e|]; [destruct (is_oserror e)|];
        destruct (hw_serve hw);
        (split; [in_log | split; [in_log | intros Hb; try discriminate Hb; in_log]]).
Qed.

Lemma start_server_py_single_port_witness :
  In (EvBanner 8000) (st_log (snd (start_server_py http_world (mkSt ∅ [])))) /\
  In (EvBind HOST 8000) (st_log (snd (start_server_py http_world (mkSt ∅ [])))) /\
  (hw_bind http_world HOST 8000 = None ->
   In (EvBrowserThread 8000) (st_log (snd (start_server_py http_world (mkSt ∅ []))))).
Proof.
  apply (proj2 (proj2 (start_server_py_single_port http_world ∅)) 8000).
  unfold resolved_port. vm_compute. reflexivity.
Defined.

(** ** Further properties of the scripts *)

Lemma is_space_not_digit c : PyStr.is_space c = true -> PyStr.is_digit c = false.
Proof.
  unfold PyStr.is_space, PyStr.is_digit. intros H.
  apply orb_true_iff in H. apply andb_false_iff.
  destruct H as [H | H]; apply andb_true_iff in H; destruct H as [H1 H2];
    apply Nat.leb_le in H1, H2; left; apply Nat.leb_gt; lia.
Qed.

Lemma is_digit_not_space c : PyStr.is_digit c = true -> PyStr.is_space c = false.
Proof.
  intros H. destruct (PyStr.is_space c) eqn:E; [|reflexivity].
  rewrite (is_space_not_digit c E) in H. discriminate.
Qed.

Lemma is_space_not_sign c :
  PyStr.is_space c = true -> c <> "-"%char /\ c <> "+"%char /\ c <> "_"%char.
Proof. intros H. repeat split; intros ->; discriminate H. Qed.

Lemma digits_value_space l acc b c :
  In c l -> PyStr.is_space c = true -> PyStr.digits_value l acc b = None.
Proof.
  revert acc b. induction l as [|c0 l IH]; intros acc b Hin Hs; [destruct Hin|].
  simpl. destruct Hin as [-> | Hin].
  - rewrite (is_space_not_digit c Hs).
    destruct (is_space_not_sign c Hs) as (_ & _ & Hu).
    rewrite bool_decide_eq_false_2 by exact Hu. reflexivity.
  - destruct (PyStr.is_digit c0); [apply IH; assumption|].
    destruct (bool_decide (c0 = "_"%char) && b); [apply IH; assumption | reflexivity].
Qed.


Lemma lstrip_by_keep p s :
  match s with EmptyString => True | String c _ => p c = false end ->
  PyStr.lstrip_by p s = s.
Proof. destruct s as [|c s]; simpl; [reflexivity|]. intros ->. reflexivity. Qed.

Lemma rstrip_by_keep p s :
  match rev (list_ascii_of_string s) with [] => True | c :: _ => p c = false end ->
  PyStr.rstrip_by p s = s.
Proof.
  unfold PyStr.rstrip_by. intros H.
  destruct (rev (list_ascii_of_string s)) as [|c r] eqn:E.
  - simpl. assert (E' : list_ascii_of_string s = [])
      by (rewrite <- (rev_involutive (list_ascii_of_string s)), E; reflexivity).
    rewrite <- (string_of_list_ascii_of_string s), E'. reflexivity.
  - simpl. rewrite H. simpl. rewrite list_ascii_of_string_of_list_ascii.
    change (rev r ++ [c]) with (rev (c :: r)).
    rewrite <- E, rev_involutive, string_of_list_ascii_of_string. reflexivity.
Qed.

Lemma digits_value_all l acc b :
  forallb PyStr.is_digit l = true -> 0 <= acc -> (l <> [] \/ b = true) ->
  exists n, PyStr.digits_value l acc b = Some n /\ 0 <= n.
Proof.
  revert acc b. induction l as [|c l IH]; intros acc b Hd Ha Hb; simpl.
  - destruct Hb as [Hb | ->]; [congruence|]. eexists; split; [reflexivity | exact Ha].
  - simpl in Hd. apply andb_true_iff in Hd as [Hc Hd]. rewrite Hc.
    apply IH; [exact Hd | | right; reflexivity].
    unfold PyStr.is_digit in Hc. apply andb_true_iff in Hc as [H1 _].
    apply Nat.leb_le in H1. lia.
Qed.

Lemma is_int_space_space c : PyStr.is_int_space c = true -> PyStr.is_space c = true.
Proof.
  unfold PyStr.is_int_space, PyStr.is_space. intros H.
  apply orb_true_iff in H as [H | H]; apply orb_true_iff; [left; exact H | right].
  apply Nat.eqb_eq in H. rewrite H. reflexivity.
Qed.

Lemma is_digit_not_int_space c : PyStr.is_digit c = true -> PyStr.is_int_space c = false.
Proof.
  intros H. destruct (PyStr.is_int_space c) eqn:E; [|reflexivity].
  rewrite (is_space_not_digit c (is_int_space_space c E)) in H. discriminate.
Qed.

Lemma length_list_ascii_of_string s : length (list_ascii_of_string s) = String.length s.
Proof. induction s as [|c s IH]; simpl; [reflexivity | rewrite IH; reflexivity]. Qed.

Lemma count_digits_all l : forallb PyStr.is_digit l = true -> PyStr.count_digits l = length l.
Proof.
  unfold PyStr.count_digits. induction l as [|c l IH]; [reflexivity|].
  cbn [forallb List.filter]. intros H. apply andb_true_iff in H as [Hc H]. rewrite Hc.
  cbn [length]. rewrite IH by exact H. reflexivity.
Qed.

(** A digit string is its own [int()]-stripped text. *)
Lemma isdigit_int_strip s :
  PyStr.isdigit s = true ->
  PyStr.rstrip_by PyStr.is_int_space (PyStr.lstrip_by PyStr.is_int_space s) = s.
Proof.
  unfold PyStr.isdigit. intros Hd. destruct s as [|c s']; [discriminate|].
  simpl in Hd. apply andb_true_iff in Hd as [Hc Hd].
  rewrite (lstrip_by_keep PyStr.is_int_space (String c s'))
    by (apply is_digit_not_int_space; exact Hc).
  apply rstrip_by_keep.
  destruct (rev (list_ascii_of_string (String c s'))) as [|c' r] eqn:E; [exact I|].
  apply is_digit_not_int_space.
  assert (Hin : In c' (list_ascii_of_string (String c s')))
    by (apply in_rev; rewrite E; left; reflexivity).
  simpl in Hin. destruct Hin as [<- | Hin]; [exact Hc|].
  rewrite forallb_forall in Hd. apply Hd, Hin.
Qed.

(** [int(pid)] after [pid.isdigit()]: the value of the digits when there
    are at most [sys.get_int_max_str_digits()] of them, [ValueError]
    otherwise. *)
Lemma isdigit_int_cases s :
  PyStr.isdigit s = true ->
  ((String.length s <= PyStr.max_str_digits)%nat ->
     exists n, PyStr.int_of_string s = Some n /\ 0 <= n) /\
  ((PyStr.max_str_digits < String.length s)%nat -> PyStr.int_of_string s = None).
Proof.
  intros Hd. pose proof (isdigit_int_strip s Hd) as Hs.
  unfold PyStr.int_of_string. rewrite Hs.
  unfold PyStr.isdigit in Hd. destruct s as [|c s']; [discriminate|].
  pose proof (length_list_ascii_of_string (String c s')) as Hlen.
  change (list_ascii_of_string (String c s')) with (c :: list_ascii_of_string s') in Hd, Hlen |- *.
  cbv iota. rewrite (count_digits_all _ Hd), Hlen.
  simpl in Hd. apply andb_true_iff in Hd as [Hc Hd].
  assert (Hm : c <> "-"%char) by (intros ->; discriminate Hc).
  assert (Hp : c <> "+"%char) by (intros ->; discriminate Hc).
  rewrite bool_decide_eq_false_2 by exact Hm. rewrite bool_decide_eq_false_2 by exact Hp.
  split.
  - intros Hl. rewrite (proj2 (Nat.ltb_ge _ _) Hl).
    apply digits_value_all; [simpl; rewrite Hc; exact Hd | lia | left; discriminate].
  - intros Hl. rewrite (proj2 (Nat.ltb_lt _ _) Hl). reflexivity.
Qed.

Lemma netstat_scan_eq port lines s :
  netstat_scan port lines s =
  (match List.find (netstat_match port) lines with
   | Some line =>
       match PyStr.int_of_string (List.last (PyStr.split_ws line) EmptyString) with
       | Some n => Ok (Some n)
       | None => Raise ValueError
       end
   | None => Ok None
   end, s).
Proof.
  induction lines as [|line rest IH]; [reflexivity|].
  cbn [netstat_scan List.find].
  destruct (netstat_match port line) eqn:Hm; unfold netstat_match in Hm.
  - apply andb_true_iff in Hm as [Hc Hd]. rewrite Hc.
    destruct (0 <? length (PyStr.split_ws line))%nat eqn:Hl.
    + rewrite Hd. unfold int_, bind, ret, raise.
      destruct (PyStr.int_of_string (List.last (PyStr.split_ws line) EmptyString)); reflexivity.
    + apply Nat.ltb_ge in Hl. destruct (PyStr.split_ws line); [discriminate Hd | simpl in Hl; lia].
  - destruct (PyStr.contains (":" ++ str_Z port) line && PyStr.contains "LISTENING" line);
      [|exact IH].
    simpl in Hm. rewrite Hm. destruct (0 <? length (PyStr.split_ws line))%nat; exact IH.
Qed.

Lemma prefix_trans a b t :
  String.prefix a b = true -> String.prefix b t = true -> String.prefix a t = true.
Proof.
  revert b t. induction a as [|x a IH]; intros b t Hab Hbt; [destruct t; reflexivity|].
  destruct b as [|y b]; [discriminate|]. destruct t as [|z t]; [discriminate|].
  simpl in *. destruct (ascii_dec x y) as [<-|]; [|discriminate].
  destruct (ascii_dec x z) as [<-|]; [|discriminate]. eapply IH; eassumption.
Qed.

Lemma contains_eq sub s :
  PyStr.contains sub s =
  String.prefix sub s || match s with EmptyString => false | String _ s' => PyStr.contains sub s' end.
Proof. destruct s; reflexivity. Qed.

Lemma contains_prefix a b s :
  String.prefix a b = true -> PyStr.contains b s = true -> PyStr.contains a s = true.
Proof.
  intros Hab. induction s as [|c s IH]; intros H; rewrite contains_eq in H |- *;
    apply orb_true_iff in H; apply orb_true_iff.
  - destruct H as [H | H]; [left; eapply prefix_trans; eassumption | discriminate].
  - destruct H as [H | H]; [left; eapply prefix_trans; eassumption | right; apply IH, H].
Qed.

Lemma netstat_match_prefix p q line :
  String.prefix (str_Z p) (str_Z q) = true ->
  netstat_match q line = true -> netstat_match p line = true.
Proof.
  unfold netstat_match. intros Hpq H.
  apply andb_true_iff in H as [H H3]. apply andb_true_iff in H as [H1 H2].
  rewrite H2, H3, andb_true_r, andb_true_r.
  apply (contains_prefix _ (":" ++ str_Z q)); [|exact H1].
  simpl. destruct (ascii_dec ":" ":"); [exact Hpq | congruence].
Qed.

Lemma find_weaken {T} (f g : T -> bool) l x :
  List.find f l = Some x -> (forall y, f y = true -> g y = true) ->
  exists y, List.find g l = Some y.
Proof.
  induction l as [|a l IH]; simpl; [discriminate|]. intros H Hfg.
  destruct (f a) eqn:Ea.
  - rewrite (Hfg a Ea). eexists; reflexivity.
  - destruct (g a); [eexists; reflexivity | apply IH; assumption].
Qed.

(** The Windows branch once [netstat] has run: the pid of the first
    matching line, [None] when there is none; a failing [int()] is caught
    by [except Exception] and also gives [None]. *)
Lemma find_process_on_port_windows_run w port c s :
  is_windows w = true -> w_run w ["netstat"; "-ano"] = Ran c ->
  fst (find_process_on_port w port s) =
  Ok (match List.find (netstat_match port) (PyStr.split_sep newline (stdout c)) with
      | Some line => PyStr.int_of_string (List.last (PyStr.split_ws line) EmptyString)
      | None => None
      end).
Proof.
  intros Hwin Hr. unfold find_process_on_port. rewrite Hwin.
  cbv beta iota zeta delta [try_except bind subprocess_run get_env emit ret raise print
    st_env st_log].
  rewrite Hr. cbv beta iota. rewrite !netstat_scan_eq.
  destruct (List.find (netstat_match port) (PyStr.split_sep newline (stdout c)));
    [destruct (PyStr.int_of_string _)|]; reflexivity.
Qed.


(** X1: On Linux/Mac, for ASCII [lsof] output and when the subprocesses
    only fail with [Exception] subclasses, [find_process_on_port] returns
    the integer [int()] reads from [lsof]'s stripped output when [lsof]
    exits 0 with non-blank output ([None] when [int()] raises) and [None]
    otherwise; it leaves the environment unchanged and prints the
    installation hint when [lsof] is missing. *)
Theorem find_process_on_port_lsof (w : World) (port : Z) (s : St) :
  is_windows w = false -> runs_raise_exceptions w ->
  (forall c, w_run w ["lsof"; "-ti"; (":" ++ str_Z port)%string] = Ran c ->
     PyStr.is_ascii (stdout c) = true) ->
  fst (find_process_on_port w port s) =
    Ok (match w_run w ["lsof"; "-ti"; (":" ++ str_Z port)%string] with
        | Ran c => if (returncode c =? 0) && negb (String.eqb (PyStr.strip (stdout c)) "")
                   then PyStr.int_of_string (PyStr.strip (stdout c)) else None
        | RunRaised _ => None
        end) /\
  st_env (snd (find_process_on_port w port s)) = st_env s /\
  (w_run w ["lsof"; "-ti"; (":" ++ str_Z port)%string] = RunRaised FileNotFoundError ->
   In (EvPrint "lsof не найден. Установите его для работы на Linux/Mac.")
      (st_log (snd (find_process_on_port w port s)))).
Proof.
  intros Hwin Hw _. unfold find_process_on_port. rewrite Hwin.
  cbv beta iota zeta delta [try_except bind subprocess_run get_env emit ret raise print int_
    st_env st_log].
  destruct (w_run w ["lsof"; "-ti"; (":" ++ str_Z port)%string]) as [c|e] eqn:Hr.
  - cbv beta iota.
    destruct ((returncode c =? 0) && negb (String.eqb (PyStr.strip (stdout c)) ""));
      [destruct (PyStr.int_of_string (PyStr.strip (stdout c)))|];
      (split; [reflexivity | split; [reflexivity | discriminate]]).
  - pose proof (Hw _ _ Hr) as He. cbv beta iota.
    destruct e; try discriminate He;
      (split; [reflexivity | split; [reflexivity | intros Hf]]); try discriminate Hf;
      simpl; rewrite <- app_assoc; apply in_or_app; right; right; left; reflexivity.
Qed.

Lemma lstrip_by_shape p s :
  match PyStr.lstrip_by p s with EmptyString => True | String c _ => p c = false end.
Proof.
  induction s as [|c s IH]; simpl; [exact I|]. destruct (p c) eqn:E; [exact IH | exact E].
Qed.

Lemma lstrip_by_idem p s : PyStr.lstrip_by p (PyStr.lstrip_by p s) = PyStr.lstrip_by p s.
Proof. apply lstrip_by_keep, lstrip_by_shape. Qed.

Lemma lstrip_by_suffix p s :
  exists pre, list_ascii_of_string s = pre ++ list_ascii_of_string (PyStr.lstrip_by p s).
Proof.
  induction s as [|c s IH]; simpl; [exists []; reflexivity|].
  destruct (p c); [destruct IH as [pre E]; exists (c :: pre); rewrite E; reflexivity|].
  exists []. reflexivity.
Qed.

Lemma rstrip_by_idem p s : PyStr.rstrip_by p (PyStr.rstrip_by p s) = PyStr.rstrip_by p s.
Proof.
  unfold PyStr.rstrip_by at 1 2.
  rewrite list_ascii_of_string_of_list_ascii, rev_involutive, string_of_list_ascii_of_string.
  rewrite lstrip_by_idem. reflexivity.
Qed.

Lemma rstrip_by_prefix p s :
  exists post, list_ascii_of_string s = list_ascii_of_string (PyStr.rstrip_by p s) ++ post.
Proof.
  unfold PyStr.rstrip_by. rewrite list_ascii_of_string_of_list_ascii.
  destruct (lstrip_by_suffix p (string_of_list_ascii (rev (list_ascii_of_string s)))) as [pre E].
  rewrite list_ascii_of_string_of_list_ascii in E.
  exists (rev pre). rewrite <- rev_app_distr, <- E, rev_involutive. reflexivity.
Qed.

Lemma strip_lstrip s : PyStr.lstrip_by PyStr.is_space (PyStr.strip s) = PyStr.strip s.
Proof.
  unfold PyStr.strip. apply lstrip_by_keep.
  pose proof (lstrip_by_shape PyStr.is_space s) as Hs.
  destruct (rstrip_by_prefix PyStr.is_space (PyStr.lstrip_by PyStr.is_space s)) as [post E].
  destruct (PyStr.rstrip_by PyStr.is_space (PyStr.lstrip_by PyStr.is_space s)) as [|c r];
    [exact I|].
  destruct (PyStr.lstrip_by PyStr.is_space s) as [|c' r']; simpl in E; [discriminate|].
  injection E as -> _. exact Hs.
Qed.

Lemma strip_idem s : PyStr.strip (PyStr.strip s) = PyStr.strip s.
Proof.
  unfold PyStr.strip at 1. rewrite strip_lstrip. unfold PyStr.strip. apply rstrip_by_idem.
Qed.

Lemma lstrip_by_sub p q s :
  (forall c, p c = true -> q c = true) ->
  PyStr.lstrip_by p (PyStr.lstrip_by q s) = PyStr.lstrip_by q s.
Proof.
  intros Hpq. apply lstrip_by_keep. pose proof (lstrip_by_shape q s) as H.
  destruct (PyStr.lstrip_by q s) as [|c r]; [exact I|].
  destruct (p c) eqn:E; [rewrite (Hpq c E) in H; discriminate | reflexivity].
Qed.

Lemma rstrip_by_sub p q s :
  (forall c, p c = true -> q c = true) ->
  PyStr.rstrip_by p (PyStr.rstrip_by q s) = PyStr.rstrip_by q s.
Proof.
  intros Hpq. unfold PyStr.rstrip_by at 1 2.
  rewrite list_ascii_of_string_of_list_ascii, rev_involutive, string_of_list_ascii_of_string.
  rewrite lstrip_by_sub by exact Hpq. reflexivity.
Qed.

(** [int()] strips nothing more from a [str.strip()]ped text. *)
Lemma int_strip_strip s :
  PyStr.rstrip_by PyStr.is_int_space (PyStr.lstrip_by PyStr.is_int_space (PyStr.strip s)) =
  PyStr.strip s.
Proof.
  pose proof (strip_lstrip s) as H. rewrite <- H at 1.
  rewrite (lstrip_by_sub PyStr.is_int_space PyStr.is_space) by exact is_int_space_space.
  rewrite H. unfold PyStr.strip. apply rstrip_by_sub, is_int_space_space.
Qed.

(** [int(s.strip())] fails when the stripped text keeps inner whitespace. *)
Lemma int_of_string_space s c :
  In c (list_ascii_of_string (PyStr.strip s)) -> PyStr.is_space c = true ->
  PyStr.int_of_string (PyStr.strip s) = None.
Proof.
  intros Hin Hs. unfold PyStr.int_of_string. rewrite int_strip_strip.
  destruct (list_ascii_of_string (PyStr.strip s)) as [|c0 l]; [destruct Hin|].
  destruct Hin as [-> | Hin].
  - destruct (is_space_not_sign c Hs) as (Hm & Hp & _).
    rewrite bool_decide_eq_false_2 by exact Hm. rewrite bool_decide_eq_false_2 by exact Hp.
    destruct (PyStr.max_str_digits <? PyStr.count_digits (c :: l))%nat; [reflexivity|].
    apply (digits_value_space _ _ _ c); [left; reflexivity | exact Hs].
  - case_bool_decide.
    { destruct (PyStr.max_str_digits <? PyStr.count_digits l)%nat; [reflexivity|].
      rewrite (digits_value_space l 0 false c Hin Hs); reflexivity. }
    case_bool_decide.
    { destruct (PyStr.max_str_digits <? PyStr.count_digits l)%nat; [reflexivity|].
      apply (digits_value_space l 0 false c Hin Hs). }
    destruct (PyStr.max_str_digits <? PyStr.count_digits (c0 :: l))%nat; [reflexivity|].
    apply (digits_value_space _ _ _ c); [right; exact Hin | exact Hs].
Qed.

(** X2: On Linux/Mac, when [lsof] exits 0 and its stripped output still
    contains whitespace (several pids, one per line), [int()] fails and
    [find_process_on_port] returns [None] after printing the [ValueError]. *)
Theorem find_process_on_port_several_pids (w : World) (port : Z) (s : St) (c : Completed)
  (ch : Ascii.ascii) :
  is_windows w = false ->
  w_run w ["lsof"; "-ti"; (":" ++ str_Z port)%string] = Ran c -> returncode c = 0 ->
  In ch (list_ascii_of_string (PyStr.strip (stdout c))) -> PyStr.is_space ch = true ->
  fst (find_process_on_port w port s) = Ok None /\
  In (EvPrint "Ошибка при поиске процесса: ValueError")
     (st_log (snd (find_process_on_port w port s))).
Proof.
  intros Hwin Hr Hrc Hin Hs.
  assert (Hne : String.eqb (PyStr.strip (stdout c)) "" = false).
  { apply String.eqb_neq. intros E. rewrite E in Hin. destruct Hin. }
  assert (Hint : PyStr.int_of_string (PyStr.strip (stdout c)) = None)
    by (apply (int_of_string_space _ ch); [exact Hin | exact Hs]).
  rewrite <- Z.eqb_eq in Hrc.
  unfold find_process_on_port. rewrite Hwin.
  cbv beta iota zeta delta [try_except bind subprocess_run get_env emit ret raise print int_
    st_env st_log].
  rewrite Hr. cbv beta iota. rewrite Hrc, Hne. cbv beta iota. rewrite Hint. simpl.
  split; [reflexivity|]. rewrite <- app_assoc. apply in_or_app. right. right. left. reflexivity.
Qed.

(** X3: On Windows, for ASCII [netstat] output and when the subprocesses
    only fail with [Exception] subclasses, [find_process_on_port] returns
    the pid of the first line of [netstat -ano] that contains [:port] and
    [LISTENING] and ends in a digit string, and [None] when there is none
    or [netstat] fails. The [int()] of that last field gives a
    non-negative pid when it has at most 4300 digits, and raises
    [ValueError] (caught: [None]) when it has more. *)
Theorem find_process_on_port_netstat (w : World) (port : Z) (s : St) :
  is_windows w = true -> runs_raise_exceptions w ->
  (forall c, w_run w ["netstat"; "-ano"] = Ran c -> PyStr.is_ascii (stdout c) = true) ->
  fst (find_process_on_port w port s) =
    Ok (match w_run w ["netstat"; "-ano"] with
        | Ran c =>
            match List.find (netstat_match port) (PyStr.split_sep newline (stdout c)) with
            | Some line => PyStr.int_of_string (List.last (PyStr.split_ws line) EmptyString)
            | None => None
            end
        | RunRaised _ => None
        end) /\
  (forall line, netstat_match port line = true ->
     (String.length (List.last (PyStr.split_ws line) EmptyString) <= PyStr.max_str_digits)%nat ->
     exists n, PyStr.int_of_string (List.last (PyStr.split_ws line) EmptyString) = Some n /\ 0 <= n) /\
  (forall line, netstat_match port line = true ->
     (PyStr.max_str_digits < String.length (List.last (PyStr.split_ws line) EmptyString))%nat ->
     PyStr.int_of_string (List.last (PyStr.split_ws line) EmptyString) = None).
Proof.
  intros Hwin Hw _. split; [|split].
  - destruct (w_run w ["netstat"; "-ano"]) as [c|e] eqn:Hr.
    + apply (find_process_on_port_windows_run w port c s Hwin Hr).
    + unfold find_process_on_port. rewrite Hwin.
      cbv beta iota zeta delta [try_except bind subprocess_run get_env emit ret raise print
        st_env st_log].
      rewrite Hr. cbv beta iota. rewrite (Hw _ _ Hr). reflexivity.
  - intros line Hm. apply isdigit_int_cases. unfold netstat_match in Hm.
    apply andb_true_iff in Hm as [_ Hm]. exact Hm.
  - intros line Hm. apply isdigit_int_cases. unfold netstat_match in Hm.
    apply andb_true_iff in Hm as [_ Hm]. exact Hm.
Qed.

(** X4: On Windows the port test is a substring test: when [str(p)] is a
    prefix of [str(q)] (80 and 8000), a netstat line that yields a pid for
    port [q] yields the same pid for port [p]; and when the [netstat]
    output is ASCII with last fields of at most 4300 characters, whenever
    the search for [q] finds a pid the search for [p] finds one too. *)
Theorem find_process_on_port_port_prefix (w : World) (p q : Z) (s : St) :
  is_windows w = true -> String.prefix (str_Z p) (str_Z q) = true ->
  (forall c n, w_run w ["netstat"; "-ano"] = Ran c -> PyStr.is_ascii (stdout c) = true ->
     (forall line, In line (PyStr.split_sep newline (stdout c)) ->
        (String.length (List.last (PyStr.split_ws line) EmptyString) <= PyStr.max_str_digits)%nat) ->
     fst (find_process_on_port w q s) = Ok (Some n) ->
     exists m, fst (find_process_on_port w p s) = Ok (Some m)) /\
  (forall line n, fst (netstat_scan q [line] s) = Ok (Some n) ->
     fst (netstat_scan p [line] s) = Ok (Some n)).
Proof.
  intros Hwin Hpq. split.
  - intros c n Hr _ Hlen Hn.
    rewrite (find_process_on_port_windows_run w q c s Hwin Hr) in Hn.
    rewrite (find_process_on_port_windows_run w p c s Hwin Hr).
    destruct (List.find (netstat_match q) (PyStr.split_sep newline (stdout c))) as [x|] eqn:Hf;
      [|discriminate].
    destruct (find_weaken _ (netstat_match p) _ _ Hf (fun y => netstat_match_prefix p q y Hpq))
      as [y Hy].
    rewrite Hy. pose proof (List.find_some _ _ Hy) as [Hin Hmy].
    destruct (proj1 (isdigit_int_cases (List.last (PyStr.split_ws y) EmptyString)
                      ltac:(unfold netstat_match in Hmy; apply andb_true_iff in Hmy as [_ Hmy];
                            exact Hmy))
                    (Hlen y Hin)) as (m & Hm & _).
    rewrite Hm. eexists; reflexivity.
  - intros line n. rewrite !netstat_scan_eq. simpl.
    destruct (netstat_match q line) eqn:Hq; [|discriminate].
    rewrite (netstat_match_prefix p q line Hpq Hq). exact (fun H => H).
Qed.

Lemma find_process_on_port_several_pids_witness :
  fst (find_process_on_port (lsof_world ("1234" ++ newline ++ "5678" ++ newline)) 8000 st0) = Ok None /\
  In (EvPrint "Ошибка при поиске процесса: ValueError")
     (st_log (snd (find_process_on_port (lsof_world ("1234" ++ newline ++ "5678" ++ newline)) 8000 st0))).
Proof.
  apply (find_process_on_port_several_pids _ 8000 st0 (mkCompleted 0 ("1234" ++ newline ++ "5678" ++ newline))
           (Ascii.ascii_of_nat 10)); try reflexivity.
  vm_compute. right. right. right. right. left. reflexivity.
Defined.

Lemma find_process_on_port_port_prefix_witness : exists m, fst (find_process_on_port (netstat_world netstat_8000) 80 st0) = Ok (Some m).
Proof.
  apply (proj1 (find_process_on_port_port_prefix (netstat_world netstat_8000) 80 8000 st0
                  eq_refl eq_refl) (mkCompleted 0 netstat_8000) 4321).
  - reflexivity.
  - vm_compute. reflexivity.
  - intros line Hin. vm_compute in Hin.
    repeat (destruct Hin as [<- | Hin]; [apply Nat.leb_le; vm_compute; reflexivity|]).
    destruct Hin.
  - vm_compute. reflexivity.
Defined.

Lemma first_word_nospace r ch :
  In ch (list_ascii_of_string (fst (PyStr.first_word r))) -> PyStr.is_space ch = false.
Proof.
  induction r as [|c r IH]; simpl; [intros []|].
  destruct (PyStr.is_space c) eqn:Hc; [intros []|].
  destruct (PyStr.first_word r) as [a b]. simpl in *. intros [-> | H]; [exact Hc | apply IH, H].
Qed.

Lemma split_ws1_head t p0 rest :
  PyStr.split_ws1 t = p0 :: rest ->
  p0 <> EmptyString /\ (forall ch, In ch (list_ascii_of_string p0) -> PyStr.is_space ch = false).
Proof.
  unfold PyStr.split_ws1. pose proof (lstrip_by_shape PyStr.is_space t) as Hs.
  destruct (PyStr.lstrip_by PyStr.is_space t) as [|c r]; [discriminate|].
  pose proof (first_word_nospace (String c r)) as Hn. simpl in Hn |- *. rewrite Hs in Hn |- *.
  destruct (PyStr.first_word r) as [a b]. simpl in Hn.
  destruct (String.eqb (PyStr.lstrip_by PyStr.is_space b) EmptyString);
    intros E; injection E as <- _; (split; [discriminate | exact Hn]).
Qed.

(** X5: On Linux/Mac, a record returned by [get_process_info] comes from a
    [ps] run that exited 0 with non-blank output; it carries the queried
    pid and a non-empty name without whitespace. *)
Theorem get_process_info_ps_record (w : World) (pid : Z) (s : St) (i : ProcessInfo) :
  is_windows w = false ->
  fst (get_process_info w pid s) = Ok (Some i) ->
  (exists c, w_run w ["ps"; "-p"; str_Z pid; "-o"; "comm="; "-o"; "args="] = Ran c /\
             returncode c = 0 /\ PyStr.strip (stdout c) <> EmptyString) /\
  pi_pid i = pid /\ pi_name i <> EmptyString /\
  (forall ch, In ch (list_ascii_of_string (pi_name i)) -> PyStr.is_space ch = false).
Proof.
  intros Hwin. unfold get_process_info, info_error. rewrite Hwin.
  cbv beta iota zeta delta [try_except bind subprocess_run get_env emit ret raise print
    st_env st_log].
  destruct (w_run w ["ps"; "-p"; str_Z pid; "-o"; "comm="; "-o"; "args="]) as [c|e] eqn:Hr.
  - cbv beta iota.
    destruct (returncode c =? 0) eqn:Hrc; [|discriminate].
    destruct (String.eqb (PyStr.strip (stdout c)) "") eqn:He; [discriminate|].
    simpl. intros E. injection E as <-.
    split; [exists c; split; [reflexivity | split; [apply Z.eqb_eq, Hrc | apply String.eqb_neq, He]]|].
    split; [reflexivity|]. simpl.
    destruct (PyStr.split_ws1 (PyStr.strip (stdout c))) as [|p0 rest] eqn:Hp.
    + split; [discriminate|]. intros ch H. simpl in H.
      destruct H as [<- | [<- | [<- | []]]]; reflexivity.
    + exact (split_ws1_head _ _ _ Hp).
  - cbv beta iota. destruct (is_exception e); discriminate.
Qed.

Lemma str_app_nil (a : string) : (a ++ "")%string = a.
Proof. induction a as [|c a IH]; [reflexivity | exact (f_equal (String c) IH)]. Qed.

Lemma str_app_assoc (a b c : string) : ((a ++ b) ++ c)%string = (a ++ (b ++ c))%string.
Proof. induction a as [|x a IH]; [reflexivity | exact (f_equal (String x) IH)]. Qed.

Lemma str_length_app (a b : string) :
  String.length (a ++ b) = (String.length a + String.length b)%nat.
Proof. induction a as [|x a IH]; [reflexivity | exact (f_equal S IH)]. Qed.

Lemma prefix_app (a t : string) : String.prefix a (a ++ t) = true.
Proof.
  induction a as [|x a IH]; simpl; [destruct t; reflexivity|].
  destruct (ascii_dec x x); [exact IH | congruence].
Qed.

Lemma substring_0_all t m : (String.length t <= m)%nat -> String.substring 0 m t = t.
Proof.
  revert m. induction t as [|c t IH]; intros m H; [destruct m; reflexivity|].
  destruct m as [|m]; simpl in H; [lia|]. simpl. rewrite IH by lia. reflexivity.
Qed.

Lemma substring_after a t :
  String.substring (String.length a) (String.length (a ++ t)) (a ++ t) = t.
Proof.
  assert (G : forall m, (String.length t <= m)%nat ->
              String.substring (String.length a) m (a ++ t) = t).
  { induction a as [|x a IH]; intros m Hm; simpl; [apply substring_0_all, Hm | apply IH, Hm]. }
  apply G. rewrite str_length_app. lia.
Qed.

Lemma split_sep_aux_S f sep s cur :
  PyStr.split_sep_aux (S f) sep s cur =
  if String.prefix sep s then
    cur :: PyStr.split_sep_aux f sep (String.substring (String.length sep) (String.length s) s)
             EmptyString
  else match s with
       | EmptyString => [cur]
       | String c s' => PyStr.split_sep_aux f sep s' (cur ++ String c EmptyString)
       end.
Proof. reflexivity. Qed.

Lemma prefix_csv_sep_neq x r : x <> dquote -> String.prefix csv_sep (String x r) = false.
Proof.
  intros Hx. unfold csv_sep. cbn [String.prefix].
  destruct (ascii_dec dquote x) as [E|_]; [congruence | reflexivity].
Qed.

Lemma split_field a t cur fuel :
  no_dquote a -> (String.length (a ++ t) < fuel)%nat ->
  PyStr.split_sep_aux fuel csv_sep (a ++ t) cur =
  PyStr.split_sep_aux (fuel - String.length a) csv_sep t (cur ++ a).
Proof.
  revert cur fuel. induction a as [|x a IH]; intros cur fuel Hq Hl.
  - change (EmptyString ++ t)%string with t. rewrite str_app_nil, Nat.sub_0_r. reflexivity.
  - destruct fuel as [|fuel]; [simpl in Hl; lia|].
    assert (Hx : x <> dquote) by (intros ->; apply Hq; left; reflexivity).
    change (String x a ++ t)%string with (String x (a ++ t)).
    rewrite split_sep_aux_S, prefix_csv_sep_neq by exact Hx.
    rewrite IH; [| intros H; apply Hq; right; exact H | simpl in Hl; lia].
    rewrite str_app_assoc. reflexivity.
Qed.

Lemma split_sep_at t cur f :
  PyStr.split_sep_aux (S f) csv_sep (csv_sep ++ t) cur =
  cur :: PyStr.split_sep_aux f csv_sep t EmptyString.
Proof.
  rewrite split_sep_aux_S, prefix_app, substring_after. reflexivity.
Qed.

Lemma split_end cur fuel :
  PyStr.split_sep_aux fuel csv_sep (String dquote EmptyString) cur =
  [(cur ++ String dquote EmptyString)%string].
Proof.
  destruct fuel as [|[|fuel]]; simpl; [reflexivity | | reflexivity];
    rewrite str_app_nil; reflexivity.
Qed.

Lemma split_fields fs f cur fuel :
  fs <> [] -> Forall no_dquote (f :: fs) ->
  (String.length (String.concat csv_sep (f :: fs) ++ String dquote EmptyString) < fuel)%nat ->
  exists mid,
    PyStr.split_sep_aux fuel csv_sep (String.concat csv_sep (f :: fs) ++ String dquote EmptyString) cur =
    (cur ++ f)%string :: mid ++ [(List.last fs EmptyString ++ String dquote EmptyString)%string].
Proof.
  revert f cur fuel. induction fs as [|g rest IH]; intros f cur fuel Hne Hq Hl; [congruence|].
  inversion Hq as [|? ? Hf Hq']; subst. inversion Hq' as [|? ? Hg Hr]; subst.
  change (String.concat csv_sep (f :: g :: rest))
    with (f ++ (csv_sep ++ String.concat csv_sep (g :: rest)))%string in Hl |- *.
  rewrite !str_app_assoc in Hl |- *.
  rewrite split_field by assumption.
  rewrite !str_length_app in Hl.
  assert (Hcs : String.length csv_sep = 3%nat) by reflexivity.
  destruct (fuel - String.length f)%nat as [|f'] eqn:Ef; [lia|].
  rewrite split_sep_at.
  destruct rest as [|h rest'].
  - exists []. change (String.concat csv_sep [g]) with g.
    rewrite split_field by (try assumption; rewrite str_length_app in *; simpl in *; lia).
    rewrite split_end. reflexivity.
  - destruct (IH g EmptyString f') as [mid E]; [discriminate | constructor; assumption | |].
    + rewrite str_length_app. lia.
    + exists ((EmptyString ++ g)%string :: mid). rewrite E. reflexivity.
Qed.

Lemma strip_char_open f :
  no_dquote f -> PyStr.strip_char dquote (String dquote f) = f.
Proof.
  intros Hq. unfold PyStr.strip_char. cbv zeta. cbn [PyStr.lstrip_by].
  rewrite bool_decide_eq_true_2 by reflexivity.
  rewrite lstrip_by_keep.
  - apply rstrip_by_keep.
    destruct (rev (list_ascii_of_string f)) as [|c r] eqn:E; [exact I|].
    apply bool_decide_eq_false_2. intros ->. apply Hq.
    apply in_rev. rewrite E. left. reflexivity.
  - destruct f as [|c f']; [exact I|]. apply bool_decide_eq_false_2.
    intros ->. apply Hq. left. reflexivity.
Qed.

Lemma list_ascii_of_string_app (a b : string) :
  list_ascii_of_string (a ++ b) = list_ascii_of_string a ++ list_ascii_of_string b.
Proof. induction a as [|c a IH]; [reflexivity | exact (f_equal (cons c) IH)]. Qed.

Lemma strip_char_close f :
  no_dquote f -> PyStr.strip_char dquote (f ++ String dquote EmptyString) = f.
Proof.
  intros Hq. unfold PyStr.strip_char. cbv zeta.
  destruct f as [|c f'].
  - cbn [PyStr.lstrip_by]. change (EmptyString ++ String dquote EmptyString)%string
      with (String dquote EmptyString). cbn [PyStr.lstrip_by].
    rewrite bool_decide_eq_true_2 by reflexivity. reflexivity.
  - change (String c f' ++ String dquote EmptyString)%string
      with (String c (f' ++ String dquote EmptyString)).
    cbn [PyStr.lstrip_by].
    rewrite bool_decide_eq_false_2 by (intros ->; apply Hq; left; reflexivity).
    change (String c (f' ++ String dquote EmptyString))
      with (String c f' ++ String dquote EmptyString)%string.
    unfold PyStr.rstrip_by. rewrite list_ascii_of_string_app. simpl list_ascii_of_string at 2.
    rewrite rev_app_distr. simpl rev at 1. simpl app.
    cbn [string_of_list_ascii PyStr.lstrip_by].
    rewrite lstrip_by_keep.
    + rewrite list_ascii_of_string_of_list_ascii, rev_app_distr, rev_involutive. simpl.
      rewrite string_of_list_ascii_of_string. reflexivity.
    + destruct (rev (list_ascii_of_string f')) as [|x r] eqn:E; simpl;
        apply bool_decide_eq_false_2; intros ->; apply Hq; [left; reflexivity|].
      right. apply in_rev. rewrite E. left. reflexivity.
Qed.

Lemma last_in_list {T} (l : list T) d : l <> [] -> In (List.last l d) l.
Proof.
  induction l as [|a l IH]; intros H; [congruence|].
  destruct l as [|b l]; [left; reflexivity|]. right. apply IH. discriminate.
Qed.

Lemma str_app_cons x (a b : string) : (String x a ++ b)%string = String x (a ++ b).
Proof. reflexivity. Qed.

Lemma prefix_cons x y (a b : string) :
  String.prefix (String x a) (String y b) = if ascii_dec x y then String.prefix a b else false.
Proof. reflexivity. Qed.

(** X6: On Windows, when [tasklist] exits 0 and its stripped output is one
    CSV row of at least two fields without double quotes (the first not
    [,]), [get_process_info] returns the first field as the name and the
    last field (tasklist's memory-usage column) as the path. *)
Theorem get_process_info_tasklist_row (w : World) (pid : Z) (s : St) (c : Completed)
  (fields : list string) :
  is_windows w = true ->
  w_run w ["tasklist"; "/FI"; ("PID eq " ++ str_Z pid)%string; "/FO"; "CSV"; "/NH"] = Ran c ->
  returncode c = 0 -> PyStr.strip (stdout c) = csv_row fields ->
  (2 <= length fields)%nat -> Forall no_dquote fields ->
  List.hd EmptyString fields <> ","%string ->
  fst (get_process_info w pid s) =
  Ok (Some (mkInfo (List.hd EmptyString fields) pid (List.last fields EmptyString))).
Proof.
  intros Hwin Hr Hrc Hrow Hlen Hq Hhd.
  destruct fields as [|f [|g rest]]; simpl in Hlen; try lia.
  assert (Hsplit : exists mid,
    PyStr.split_sep csv_sep (csv_row (f :: g :: rest)) =
    (String dquote EmptyString ++ f)%string :: mid ++
      [(List.last (g :: rest) EmptyString ++ String dquote EmptyString)%string]).
  { unfold PyStr.split_sep, csv_row. rewrite split_sep_aux_S.
    assert (Hp : String.prefix csv_sep
                   (String dquote (String.concat csv_sep (f :: g :: rest) ++ String dquote EmptyString))
                 = false).
    { change (String.concat csv_sep (f :: g :: rest))
        with (f ++ (csv_sep ++ String.concat csv_sep (g :: rest)))%string.
      unfold csv_sep at 1. cbn [String.prefix].
      destruct (ascii_dec dquote dquote) as [_|]; [|congruence].
      inversion Hq as [|? ? Hf _]; subst.
      destruct f as [|x f'].
      - reflexivity.
      - rewrite !str_app_cons, prefix_cons.
        destruct (ascii_dec "," x) as [<-|]; [|reflexivity].
        destruct f' as [|y f''].
        + exfalso. apply Hhd. reflexivity.
        + rewrite !str_app_cons, prefix_cons.
          destruct (ascii_dec dquote y) as [<-|]; [|reflexivity].
          exfalso. apply Hf. right. left. reflexivity. }
    rewrite Hp. cbv iota.
    apply split_fields; [discriminate | exact Hq |].
    simpl. lia. }
  destruct Hsplit as [mid Hsplit].
  inversion Hq as [|? ? Hf Hq']; subst.
  assert (Hl : no_dquote (List.last (g :: rest) EmptyString)).
  { rewrite List.Forall_forall in Hq'. apply Hq'. apply last_in_list. discriminate. }
  rewrite <- Z.eqb_eq in Hrc.
  assert (Hne : String.eqb (PyStr.strip (stdout c)) "" = false)
    by (rewrite Hrow; reflexivity).
  unfold get_process_info. rewrite Hwin.
  cbv beta iota zeta delta [try_except bind subprocess_run get_env emit ret raise print
    st_env st_log].
  rewrite Hr. cbv beta iota. rewrite Hrc, Hne. cbv beta iota.
  rewrite Hrow. change (String dquote (String "," (String dquote EmptyString))) with csv_sep. rewrite Hsplit. cbv beta iota.
  replace (2 <=? length (_ :: mid ++ _))%nat with true
    by (symmetry; apply Nat.leb_le; simpl; rewrite length_app; simpl; lia).
  replace (1 <? length (_ :: mid ++ _))%nat with true
    by (symmetry; apply Nat.ltb_lt; simpl; rewrite length_app; simpl; lia).
  cbv beta iota. cbn [List.hd]. rewrite app_comm_cons, last_last.
  change (String dquote EmptyString ++ f)%string with (String dquote f).
  rewrite strip_char_open, strip_char_close by assumption.
  destruct s. reflexivity.
Qed.

Lemma get_process_info_tasklist_row_witness :
  fst (get_process_info (tasklist_world (csv_row ["python.exe"; "4321"; "Console"; "1"; "10,000 K"])) 4321 st0) =
  Ok (Some (mkInfo "python.exe" 4321 "10,000 K")).
Proof.
  apply (get_process_info_tasklist_row _ 4321 st0
           (mkCompleted 0 (csv_row ["python.exe"; "4321"; "Console"; "1"; "10,000 K"] ++ newline))
           ["python.exe"; "4321"; "Console"; "1"; "10,000 K"]); try reflexivity.
  - simpl. lia.
  - repeat (apply List.Forall_cons;
      [unfold no_dquote; simpl; intros H; repeat (destruct H as [H|H]; [discriminate H|]); exact H|]).
    apply List.Forall_nil.
  - discriminate.
Defined.

(** X7: When the port argument parses to a port in 0..65535, the socket
    works and [connect_ex] answers non-zero, [main] returns normally after
    printing exactly the banner, [[OK] Порт n свободен] and a blank line;
    it runs no subprocess, asks nothing and leaves the environment as it
    was. *)
Theorem main_port_free (w : World) (env : gmap string string) (l : list event) (n r : Z) :
  ((w_argv w = [] /\ n = 8000) \/
   (exists a rest, w_argv w = a :: rest /\ PyStr.int_of_string a = Some n)) ->
  w_socket w = None -> 0 <= n <= 65535 -> w_connect w "localhost" n = inl r -> r <> 0 ->
  main w (mkSt env l) =
  (Ok tt, mkSt env (l ++ [EvPrint ""; EvPrint rule;
                          EvPrint ("  Поиск процесса на порту " ++ str_Z n)%string;
                          EvPrint rule; EvPrint "";
                          EvPrint ("[OK] Порт " ++ str_Z n ++ " свободен")%string;
                          EvPrint ""])).
Proof.
  intros Hport Hsock Hrange Hc Hr.
  assert (Hb : ((0 <=? n) && (n <=? 65535)) = true)
    by (apply andb_true_iff; split; apply Z.leb_le; lia).
  apply Z.eqb_neq in Hr.
  unfold main, socket_new, connect_ex, int_.
  destruct Hport as [[Ha ->] | (a & rest & Ha & Hint)]; rewrite Ha; [|rewrite Hint];
    rewrite Hsock; cbv beta iota zeta delta [bind ret print emit st_env st_log];
    rewrite Hb, Hc; cbv beta iota; rewrite Hr; cbv beta iota delta [st_env st_log];
    rewrite <- !app_assoc; reflexivity.
Qed.

(** X8: [main] catches no socket error: when the socket cannot be created, or
    [connect_ex] raises on a port in range, the error escapes [main] and
    the interpreter exits with status 1. *)
Theorem main_socket_error_escapes (w : World) (s : St) (n : Z) (e : sock_error) :
  ((w_argv w = [] /\ n = 8000) \/
   (exists a rest, w_argv w = a :: rest /\ PyStr.int_of_string a = Some n)) ->
  (w_socket w = Some e \/
   (w_socket w = None /\ 0 <= n <= 65535 /\ w_connect w "localhost" n = inr e)) ->
  fst (main w s) = Raise (SockErr e) /\ exit_status (fst (main w s)) = 1.
Proof.
  intros Hport Hs.
  enough (E : fst (main w s) = Raise (SockErr e)) by (rewrite E; split; reflexivity).
  destruct Hs as [Hs | (Hs & Hrange & Hc)].
  - unfold main, socket_new, connect_ex, int_.
    destruct Hport as [[Ha ->] | (a & rest & Ha & Hint)]; rewrite Ha; [|rewrite Hint];
      rewrite Hs; reflexivity.
  - assert (Hb : ((0 <=? n) && (n <=? 65535)) = true)
      by (apply andb_true_iff; split; apply Z.leb_le; lia).
    unfold main, socket_new, connect_ex, int_.
    destruct Hport as [[Ha ->] | (a & rest & Ha & Hint)]; rewrite Ha; [|rewrite Hint];
      rewrite Hs; cbv beta iota zeta delta [bind ret raise print emit st_env st_log];
      rewrite Hb, Hc; reflexivity.
Qed.

(** X9: When the port is occupied but [find_process_on_port] returns [None]
    or pid 0, [main] returns normally, prints that no process was found on
    the port, and logs only prints and subprocess runs (no prompt, no
    [kill_process] call). *)
Theorem main_process_not_found (w : World) (env : gmap string string) (n : Z) :
  ((w_argv w = [] /\ n = 8000) \/
   (exists a rest, w_argv w = a :: rest /\ PyStr.int_of_string a = Some n)) ->
  w_socket w = None -> 0 <= n <= 65535 -> w_connect w "localhost" n = inl 0 ->
  ((forall s, fst (find_process_on_port w n s) = Ok None) \/
   (forall s, fst (find_process_on_port w n s) = Ok (Some 0))) ->
  fst (main w (mkSt env [])) = Ok tt /\
  In (EvPrint ("[!] Не удалось найти процесс на порту " ++ str_Z n)%string)
     (st_log (snd (main w (mkSt env [])))) /\
  Forall quiet (st_log (snd (main w (mkSt env [])))).
Proof.
  intros Hport Hsock Hrange Hc Hfind.
  assert (Hr : ((0 <=? n) && (n <=? 65535)) = true)
    by (apply andb_true_iff; split; apply Z.leb_le; lia).
  split; [|split].
  - apply raises_only_false_ok.
    destruct Hfind as [Hfind | Hfind]; enter_main Hport Hsock; main_raises_tac.
  - destruct Hfind as [Hfind | Hfind]; enter_main Hport Hsock; main_logs_tac.
  - apply emits_only_from_empty.
    destruct Hfind as [Hfind | Hfind]; enter_main Hport Hsock; main_quiet_tac.
Qed.

Lemma check_node_installed_run w env l :
  check_node_installed w (mkSt env l) =
  match w_run w ["node"; "--version"] with
  | Ran c =>
      if returncode c =? 0
      then (Ok true, mkSt env (l ++ [EvRun ["node"; "--version"] env;
                                     EvPrint ("Node.js: " ++ PyStr.strip (stdout c))%string]))
      else (Ok false, mkSt env (l ++ EvRun ["node"; "--version"] env :: node_error_lines))
  | RunRaised FileNotFoundError | RunRaised TimeoutExpired =>
      (Ok false, mkSt env (l ++ EvRun ["node"; "--version"] env :: node_error_lines))
  | RunRaised e => (Raise e, mkSt env (l ++ [EvRun ["node"; "--version"] env]))
  end.
Proof.
  cbv beta iota zeta delta [check_node_installed subprocess_run bind ret raise emit print
    try_except get_env st_env st_log].
  destruct (w_run w ["node"; "--version"]) as [c|e].
  - cbv beta iota. destruct (returncode c =? 0); cbv beta iota delta [st_env st_log];
      rewrite <- !app_assoc; reflexivity.
  - destruct e; cbv beta iota delta [st_env st_log]; try reflexivity;
      rewrite <- !app_assoc; reflexivity.
Qed.

(** X10: [check_node_installed] runs [node --version] once and keeps the
    environment: on exit 0 it prints [Node.js: ] and the stripped version
    and returns True; when node is missing, times out or exits non-zero it
    prints the two error lines and returns False; any other error of the
    run propagates. *)
Theorem check_node_installed_outcomes (w : World) (env : gmap string string) (l : list event) :
  (forall c, w_run w ["node"; "--version"] = Ran c -> returncode c = 0 ->
     check_node_installed w (mkSt env l) =
     (Ok true, mkSt env (l ++ [EvRun ["node"; "--version"] env;
                               EvPrint ("Node.js: " ++ PyStr.strip (stdout c))%string]))) /\
  (node_missing w ->
     check_node_installed w (mkSt env l) =
     (Ok false, mkSt env (l ++ [EvRun ["node"; "--version"] env;
                                EvPrint "ОШИБКА: Node.js не найден в PATH!";
                                EvPrint "Убедитесь, что Node.js установлен и добавлен в системную переменную PATH."]))) /\
  (forall e, w_run w ["node"; "--version"] = RunRaised e ->
     e <> FileNotFoundError -> e <> TimeoutExpired ->
     check_node_installed w (mkSt env l) = (Raise e, mkSt env (l ++ [EvRun ["node"; "--version"] env]))).
Proof.
  rewrite check_node_installed_run. split; [|split].
  - intros c Hr Hc. rewrite Hr. apply Z.eqb_eq in Hc. rewrite Hc. reflexivity.
  - intros [Hr | [Hr | (c & Hr & Hc)]]; rewrite Hr; try reflexivity.
    apply Z.eqb_neq in Hc. rewrite Hc. reflexivity.
  - intros e Hr H1 H2. rewrite Hr. destruct e; congruence.
Qed.

(** X11: When Node.js is missing, [start_server] of start_server.py runs only
    [node --version], prints the two error lines and exits with status 1,
    the environment unchanged: no port probe, banner, browser thread or
    [npx] run. *)
Theorem start_server_node_missing (w : World) (env : gmap string string) (l : list event) :
  node_missing w ->
  start_server w (mkSt env l) =
  (Raise (SystemExit 1),
   mkSt env (l ++ [EvRun ["node"; "--version"] env;
                   EvPrint "ОШИБКА: Node.js не найден в PATH!";
                   EvPrint "Убедитесь, что Node.js установлен и добавлен в системную переменную PATH."])).
Proof.
  intros Hn. unfold start_server at 1. unfold bind at 1. rewrite check_node_installed_run.
  destruct Hn as [Hr | [Hr | (c & Hr & Hc)]]; rewrite Hr; try reflexivity.
  apply Z.eqb_neq in Hc. rewrite Hc. reflexivity.
Qed.

Lemma select_port_facts w :
  (forall P, (forall m, P (EvPrint m)) -> emits_only P (select_port w)) /\
  state_indep (select_port w) /\
  (forall s, fst (select_port w s) = select_result w).
Proof.
  split; [|split].
  - intros P HP. unfold select_port, no_free_port, sys_exit.
    repeat first
      [ progress cbv beta zeta | progress unfold print
      | simple apply emits_only_ret | simple apply emits_only_raise
      | simple apply emits_only_emit; apply HP
      | simple apply emits_only_set_env
      | apply (proj1 (probe_facts _ _ _))
      | apply (proj1 (find_free_port_facts _ _ _ _))
      | simple apply emits_only_bind; [|intros ?]
      | case_match ].
  - unfold select_port, no_free_port, sys_exit.
    repeat first
      [ progress cbv beta zeta | progress unfold print
      | simple apply state_indep_ret | simple apply state_indep_raise
      | simple apply state_indep_emit
      | intros s s'; reflexivity
      | apply (proj1 (proj2 (probe_facts _ _ _)))
      | apply (proj1 (proj2 (find_free_port_facts _ _ _ _)))
      | simple apply state_indep_bind; [|intros ?]
      | case_match ].
  - intros s. unfold select_result.
    cbv beta iota zeta delta [select_port no_free_port sys_exit bind ret raise emit print negb set_env].
    rewrite check_port_available_eq.
    destruct (probe_result w HOST DEFAULT_PORT); [reflexivity|].
    rewrite find_free_port_eq.
    destruct (free_port_result w HOST DEFAULT_PORT 10) as [p|]; [|reflexivity].
    destruct (p =? 0); reflexivity.
Qed.

Lemma resolved_port_range w p : resolved_port w p -> 8000 <= p <= 8009.
Proof.
  unfold resolved_port. destruct (probe_result w HOST DEFAULT_PORT).
  - intros ->. unfold DEFAULT_PORT. lia.
  - intros H. apply free_port_result_range in H. unfold DEFAULT_PORT in H. lia.
Qed.

(** X12: [start_server] of start_server.py only prints, runs [node --version]
    or [npx http-server] on the resolved port (which lies in 8000..8009),
    and shows the banner and starts the browser thread for that port; it
    never prompts, kills, binds or serves. *)
Theorem start_server_launch_events (w : World) :
  emits_only (node_launch_event w) (start_server w).
Proof.
  unfold start_server.
  apply emits_only_bind.
  { unfold check_node_installed.
    repeat first
      [ progress cbv beta zeta | progress unfold print
      | simple apply emits_only_ret | simple apply emits_only_raise
      | simple apply emits_only_emit; exact I
      | simple apply emits_only_get_env
      | unfold subprocess_run; simple apply emits_only_bind; [|intros ?]
      | simple apply emits_only_emit; left; reflexivity
      | simple apply emits_only_bind; [|intros ?]
      | simple apply emits_only_try;
          [|let e := fresh "e" in let Hk := fresh "Hk" in intros e ? Hk; handler_tac e Hk]
      | case_match ]. }
  intros node. destruct (negb node); [apply emits_only_raise|].
  destruct (select_port_facts w) as (E & Ind & R).
  apply emits_only_bind_indep; [exact Ind | apply E; intros; exact I | intros a Ha].
  assert (Hres : resolved_port w a)
    by (apply select_result_resolved; rewrite <- (R st0); apply Ha).
  pose proof (resolved_port_range _ _ Hres) as Hrange.
  unfold subprocess_run_check, subprocess_run, sys_exit.
  repeat first
    [ progress cbv beta zeta | progress unfold print
    | simple apply emits_only_ret | simple apply emits_only_raise
    | simple apply emits_only_get_env
    | simple apply emits_only_emit; solve [exact I | exact Hres]
    | simple apply emits_only_emit; right; exists a; split; [reflexivity | split; assumption]
    | simple apply emits_only_bind; [|intros ?]
    | simple apply emits_only_try;
        [|let e := fresh "e" in let Hk := fresh "Hk" in intros e ? Hk; handler_tac e Hk]
    | case_match ].
Qed.

(** X13: [start_server] of start_server_python.py never returns normally: it
    exits with status 1 when no free port is found or the bind fails with
    an [OSError], re-raises any other bind error, exits with status 0 when
    serving is interrupted by Ctrl+C, and re-raises any other exception of
    [serve_forever]. *)
Theorem start_server_py_outcome (hw : HttpWorld) (s : St) :
  fst (start_server_py hw s) =
  match select_result (hw_base hw) with
  | Ok p =>
      match hw_bind hw HOST p with
      | Some e => if is_oserror e then Raise (SystemExit 1) else Raise e
      | None => match hw_serve hw with
                | KeyboardInterrupt => Raise (SystemExit 0)
                | e => Raise e
                end
      end
  | Raise e => Raise e
  end /\
  (forall a, fst (start_server_py hw s) <> Ok a).
Proof.
  assert (E : fst (start_server_py hw s) =
    match select_result (hw_base hw) with
    | Ok p =>
        match hw_bind hw HOST p with
        | Some e => if is_oserror e then Raise (SystemExit 1) else Raise e
        | None => match hw_serve hw with
                  | KeyboardInterrupt => Raise (SystemExit 0)
                  | e => Raise e
                  end
        end
    | Raise e => Raise e
    end).
  { unfold start_server_py at 1. unfold bind at 1.
    pose proof (proj2 (proj2 (select_port_py_facts hw)) s) as R.
    destruct (select_port_py hw s) as [r s1]. simpl in R. subst r.
    destruct (select_result (hw_base hw)) as [p|e]; [|reflexivity].
    cbv beta iota zeta delta [http_server serve_forever sys_exit bind ret raise emit print
      try_except st_env st_log].
    destruct (hw_bind hw HOST p) as [e|]; [destruct (is_oserror e); reflexivity|].
    destruct (hw_serve hw); reflexivity. }
  split; [exact E|]. intros a. rewrite E.
  destruct (select_result (hw_base hw)) as [p|e]; [|discriminate].
  destruct (hw_bind hw HOST p) as [e|]; [destruct (is_oserror e); discriminate|].
  destruct (hw_serve hw); discriminate.
Qed.

Lemma activate_venv_shape fw env l :
  exists pre r, Forall (fun ev => exists m, ev = EvPrint m) pre /\
    activate_venv fw (mkSt env l) = (Ok r, mkSt env (l ++ pre)) /\
    (r = None -> pre = []).
Proof.
  unfold activate_venv.
  destruct (fs_exists fw (VENV_PATH fw));
    [destruct (String.eqb (fs_platform fw) "win32");
     match goal with |- context [if fs_exists fw ?p then _ else _] => destruct (fs_exists fw p) end|].
  all: cbv beta iota zeta delta [bind ret print emit st_env st_log].
  all: first [ eexists [_], _; split; [repeat constructor; eexists; reflexivity
                                       | split; [reflexivity | discriminate]]
             | exists [], None; rewrite app_nil_r; split; [constructor | split; reflexivity] ].
Qed.

(** X14: Running start_server.py as a script is [start_server] on the same
    environment after some printed lines: none when there is no venv
    directory, and on Linux/Mac with [venv/bin/python] present the venv
    message and a blank line. *)
Theorem start_server_script_venv (fw : FsWorld) (w : World) (env : gmap string string)
  (l : list event) :
  (exists pre, Forall (fun ev => exists m, ev = EvPrint m) pre /\
     start_server_script fw w (mkSt env l) = start_server w (mkSt env (l ++ pre))) /\
  (fs_exists fw (VENV_PATH fw) = false ->
     start_server_script fw w (mkSt env l) = start_server w (mkSt env l)) /\
  (String.eqb (fs_platform fw) "win32" = false -> fs_exists fw (VENV_PATH fw) = true ->
   fs_exists fw (fs_join fw (fs_join fw (VENV_PATH fw) "bin") "python") = true ->
   fs_join fw (fs_join fw (VENV_PATH fw) "bin") "python" <> EmptyString ->
   start_server_script fw w (mkSt env l) =
   start_server w (mkSt env (l ++ [EvPrint ("✓ Используется виртуальное окружение: " ++ VENV_PATH fw)%string;
                                   EvPrint ""]))).
Proof.
  split; [|split].
  - destruct (activate_venv_shape fw env l) as (pre & r & F & E & Hn).
    unfold start_server_script. unfold bind at 1. rewrite E.
    destruct r as [p|].
    + destruct (String.eqb p "").
      * exists pre. split; [exact F | reflexivity].
      * exists (pre ++ [EvPrint ""]). split.
        -- apply Forall_app. split; [exact F|]. repeat constructor. eexists; reflexivity.
        -- cbv beta iota delta [bind ret print emit st_env st_log]. rewrite app_assoc. reflexivity.
    + rewrite (Hn eq_refl). exists []. split; [constructor | reflexivity].
  - intros Hv. unfold start_server_script, activate_venv. rewrite Hv.
    cbv beta iota delta [bind ret]. reflexivity.
  - intros Hp Hv Hpy Hne. apply String.eqb_neq in Hne.
    unfold start_server_script, activate_venv. rewrite Hv, Hp. cbv zeta. rewrite Hpy.
    cbv beta iota delta [bind ret print emit st_env st_log]. rewrite Hne.
    rewrite <- app_assoc. reflexivity.
Qed.

Lemma start_server_script_venv_witness :
  String.eqb (fs_platform (posix_fs "/srv/qs" ["/srv/qs/venv"; "/srv/qs/venv/bin/python"])) "win32" = false /\
  start_server_script (posix_fs "/srv/qs" ["/srv/qs/venv"; "/srv/qs/venv/bin/python"])
    (server_world node_v20 (Ran (mkCompleted 0 "")) busy_none) st0 =
  start_server (server_world node_v20 (Ran (mkCompleted 0 "")) busy_none)
    (mkSt ∅ ([] ++ [EvPrint ("✓ Используется виртуальное окружение: " ++
                             VENV_PATH (posix_fs "/srv/qs" ["/srv/qs/venv"; "/srv/qs/venv/bin/python"]))%string;
                    EvPrint ""])).
Proof.
  split; [reflexivity|].
  apply (proj2 (proj2 (start_server_script_venv (posix_fs "/srv/qs" ["/srv/qs/venv"; "/srv/qs/venv/bin/python"])
           (server_world node_v20 (Ran (mkCompleted 0 "")) busy_none) ∅ []))).
  - reflexivity.
  - reflexivity.
  - reflexivity.
  - discriminate.
Defined.

Lemma end_headers_eq v c l wf :
  String.eqb v "HTTP/0.9" = false ->
  HttpHandler.end_headers (HttpHandler.mkHandler v c (Some l) wf) =
  Some (HttpHandler.mkHandler v c (Some [])
          (wf ++ [String.concat "" (l ++ map HttpHandler.header_line security_headers ++
                                    [HttpHandler.crlf])])).
Proof.
  intros Hv. unfold HttpHandler.end_headers.
  change (HttpHandler.send_header "X-XSS-Protection" "1; mode=block"
           (HttpHandler.send_header "X-Frame-Options" "SAMEORIGIN"
              (HttpHandler.send_header "X-Content-Type-Options" "nosniff"
                 (HttpHandler.mkHandler v c (Some l) wf))))
    with (HttpHandler.send_headers security_headers (HttpHandler.mkHandler v c (Some l) wf)).
  rewrite send_headers_eq by exact Hv.
  unfold HttpHandler.base_end_headers, HttpHandler.not_http09, HttpHandler.flush_headers,
    HttpHandler.buffer_append. simpl. rewrite Hv. simpl. rewrite <- app_assoc. reflexivity.
Qed.

(** X15: For a request that is not HTTP/0.9, with an empty header buffer,
    [send_error] writes one header block (status line, [Server], [Date],
    [Connection: close], [Content-Type] and [Content-Length] for a code
    of at least 200 other than 204, 205 and 304, the three security
    headers, the blank line), then the body unless the request is HEAD,
    the code has no body or the body is empty. *)
Theorem send_error_reply (v : string) (c : option string) (b : option (list string))
  (wf : list string) (code : Z) (message body server date : string) :
  v <> "HTTP/0.9"%string -> (b = None \/ b = Some []) ->
  HttpHandler.send_error code message body server date (HttpHandler.mkHandler v c b wf) =
  Some (HttpHandler.mkHandler v c (Some [])
    (wf ++ [String.concat ""
              ((HttpHandler.protocol_version ++ " " ++ str_Z code ++ " " ++ message ++ HttpHandler.crlf)%string
               :: map HttpHandler.header_line
                    ([("Server", server); ("Date", date); ("Connection", "close")] ++
                     (if (200 <=? code) && negb ((code =? 204) || (code =? 205) || (code =? 304))
                      then [("Content-Type", "text/html;charset=utf-8");
                            ("Content-Length", str_Z (Z.of_nat (String.length body)))]
                      else []) ++ security_headers) ++
               [HttpHandler.crlf])] ++
        (if (200 <=? code) && negb ((code =? 204) || (code =? 205) || (code =? 304)) &&
            negb (match c with Some x => String.eqb x "HEAD" | None => false end) &&
            negb (String.eqb body "")
         then [body] else []))).
Proof.
  intros Hv Hb. apply String.eqb_neq in Hv.
  assert (E0 : HttpHandler.send_response_only code message (HttpHandler.mkHandler v c b wf) =
               HttpHandler.mkHandler v c
                 (Some [(HttpHandler.protocol_version ++ " " ++ str_Z code ++ " " ++ message ++
                         HttpHandler.crlf)%string]) wf).
  { unfold HttpHandler.send_response_only, HttpHandler.not_http09, HttpHandler.buffer_append.
    simpl. rewrite Hv. simpl. destruct Hb as [-> | ->]; reflexivity. }
  unfold HttpHandler.send_error.
  change (HttpHandler.send_header "Connection" "close"
            (HttpHandler.send_response code message server date (HttpHandler.mkHandler v c b wf)))
    with (HttpHandler.send_headers [("Server", server); ("Date", date); ("Connection", "close")]
            (HttpHandler.send_response_only code message (HttpHandler.mkHandler v c b wf))).
  rewrite E0, send_headers_eq by exact Hv.
  destruct ((200 <=? code) && negb ((code =? 204) || (code =? 205) || (code =? 304))).
  - match goal with
    | |- context [HttpHandler.send_header ?k2 ?v2 (HttpHandler.send_header ?k1 ?v1 ?x)] =>
        change (HttpHandler.send_header k2 v2 (HttpHandler.send_header k1 v1 x))
          with (HttpHandler.send_headers [(k1, v1); (k2, v2)] x)
    end.
    rewrite send_headers_eq by exact Hv. rewrite end_headers_eq by exact Hv.
    cbv zeta. cbn [HttpHandler.command].
    destruct c as [x|]; [destruct (String.eqb x "HEAD")|]; destruct (String.eqb body "");
      cbn [negb andb]; unfold HttpHandler.write;
      cbn [HttpHandler.request_version HttpHandler.command HttpHandler.headers_buffer HttpHandler.wfile];
      rewrite !map_app, <- !app_assoc; rewrite ?app_nil_r; reflexivity.
  - rewrite end_headers_eq by exact Hv.
    cbv zeta. cbn [HttpHandler.command].
    destruct c as [x|]; [destruct (String.eqb x "HEAD")|]; destruct (String.eqb body "");
      cbn [negb andb]; rewrite !map_app, <- !app_assoc; rewrite ?app_nil_r; reflexivity.
Qed.

Lemma split_sep_aux_absent sep s : forall fuel cur,
  (String.length s < fuel)%nat -> PyStr.contains sep s = false ->
  PyStr.split_sep_aux fuel sep s cur = [(cur ++ s)%string].
Proof.
  induction s as [|ch s IH]; intros fuel cur Hf Hc; destruct fuel as [|f]; simpl in Hf; try lia;
    rewrite split_sep_aux_S; rewrite contains_eq in Hc; apply orb_false_iff in Hc as [Hp Hc];
    rewrite Hp.
  - rewrite str_app_nil. reflexivity.
  - rewrite IH by (assumption || lia). rewrite str_app_assoc. reflexivity.
Qed.

Lemma split_sep_absent sep s :
  PyStr.contains sep s = false -> PyStr.split_sep sep s = [s].
Proof. intros H. unfold PyStr.split_sep. apply split_sep_aux_absent; [lia | exact H]. Qed.

(** X16: On Windows, when the stripped [tasklist] output contains no [","]
    separator (as its [INFO: No tasks ...] reply), [get_process_info]
    returns [None]. *)
Theorem get_process_info_tasklist_no_row (w : World) (pid : Z) (s : St) (c : Completed) :
  is_windows w = true ->
  w_run w ["tasklist"; "/FI"; ("PID eq " ++ str_Z pid)%string; "/FO"; "CSV"; "/NH"] = Ran c ->
  PyStr.contains csv_sep (PyStr.strip (stdout c)) = false ->
  fst (get_process_info w pid s) = Ok None.
Proof.
  intros Hwin Hr Hc. unfold get_process_info, info_error. rewrite Hwin.
  cbv beta iota zeta delta [try_except bind subprocess_run get_env emit ret raise print
    st_env st_log].
  rewrite Hr. cbv beta iota.
  change (String dquote (String "," (String dquote EmptyString))) with csv_sep.
  rewrite (split_sep_absent _ _ Hc).
  destruct ((returncode c =? 0) && negb (String.eqb (PyStr.strip (stdout c)) "")); reflexivity.
Qed.

(** X17: [kill_process] logs its call and one run of the platform command: a
    completed command gives True exactly on exit 0 and prints nothing, a
    non-zero exit included; an invocation error that is an [Exception]
    other than [CalledProcessError] gives False after printing it; any other exception propagates. *)
Theorem kill_process_diagnostics (w : World) (pid : Z) (env : gmap string string) (l : list event) :
  (forall c, w_run w (if is_windows w then ["taskkill"; "/F"; "/PID"; str_Z pid]
                      else ["kill"; "-9"; str_Z pid]) = Ran c ->
     kill_process w pid (mkSt env l) =
     (Ok (returncode c =? 0),
      mkSt env (l ++ [EvKillCall pid;
                      EvRun (if is_windows w then ["taskkill"; "/F"; "/PID"; str_Z pid]
                             else ["kill"; "-9"; str_Z pid]) env]))) /\
  (forall e, w_run w (if is_windows w then ["taskkill"; "/F"; "/PID"; str_Z pid]
                      else ["kill"; "-9"; str_Z pid]) = RunRaised e ->
     is_exception e = true -> (forall k, e <> CalledProcessError k) ->
     kill_process w pid (mkSt env l) =
     (Ok false,
      mkSt env (l ++ [EvKillCall pid;
                      EvRun (if is_windows w then ["taskkill"; "/F"; "/PID"; str_Z pid]
                             else ["kill"; "-9"; str_Z pid]) env;
                      EvPrint ("Ошибка при завершении процесса: " ++ exn_str e)%string]))) /\
  (forall e, w_run w (if is_windows w then ["taskkill"; "/F"; "/PID"; str_Z pid]
                      else ["kill"; "-9"; str_Z pid]) = RunRaised e ->
     is_exception e = false ->
     fst (kill_process w pid (mkSt env l)) = Raise e).
Proof.
  unfold kill_process, subprocess_run_check.
  destruct (is_windows w);
    cbv beta iota zeta delta [try_except bind subprocess_run get_env emit ret raise print
      st_env st_log];
    (split; [|split]);
    [ intros c' Hr; rewrite Hr; cbv beta iota; destruct (returncode c' =? 0);
      rewrite <- ?app_assoc; reflexivity
    | intros e Hr He Hk; rewrite Hr; cbv beta iota; destruct e; try discriminate He;
      try (exfalso; eapply Hk; reflexivity); cbn [is_exception]; cbv beta iota delta [st_env st_log];
      rewrite <- !app_assoc; reflexivity
    | intros e Hr He; rewrite Hr; cbv beta iota; destruct e; try discriminate He; reflexivity
    | intros c' Hr; rewrite Hr; cbv beta iota; destruct (returncode c' =? 0);
      rewrite <- ?app_assoc; reflexivity
    | intros e Hr He Hk; rewrite Hr; cbv beta iota; destruct e; try discriminate He;
      try (exfalso; eapply Hk; reflexivity); cbn [is_exception]; cbv beta iota delta [st_env st_log];
      rewrite <- !app_assoc; reflexivity
    | intros e Hr He; rewrite Hr; cbv beta iota; destruct e; try discriminate He; reflexivity ].
Qed.

(** X18: When the occupied port's process is found and described but stdin is
    closed, [main] shows the confirmation prompt, then [EOFError] escapes
    [main] (exit status 1) and [kill_process] is never called. *)
Theorem main_eof_at_prompt (w : World) (env : gmap string string) (n p : Z) (i : ProcessInfo) :
  ((w_argv w = [] /\ n = 8000) \/
   (exists a rest, w_argv w = a :: rest /\ PyStr.int_of_string a = Some n)) ->
  w_socket w = None -> 0 <= n <= 65535 -> w_connect w "localhost" n = inl 0 ->
  (forall s, fst (find_process_on_port w n s) = Ok (Some p)) -> p <> 0 ->
  (forall s, fst (get_process_info w p s) = Ok (Some i)) ->
  w_input w = None ->
  fst (main w (mkSt env [])) = Raise EOFError /\
  exit_status (fst (main w (mkSt env []))) = 1 /\
  In (EvPrompt "Завершить процесс? (y/n): ") (st_log (snd (main w (mkSt env [])))) /\
  (forall k, ~ In (EvKillCall k) (st_log (snd (main w (mkSt env []))))).
Proof.
  intros Hport Hsock Hrange Hc Hfind Hp Hinfo Hin.
  assert (Hb : ((0 <=? n) && (n <=? 65535)) = true)
    by (apply andb_true_iff; split; apply Z.leb_le; lia).
  apply Z.eqb_neq in Hp.
  assert (E : exists s', main w (mkSt env []) =
                (Raise EOFError, mkSt (st_env s') (st_log s' ++ [EvPrompt "Завершить процесс? (y/n): "]))).
  { unfold main, reap, confirm_and_kill, input, socket_new, connect_ex, int_.
    destruct Hport as [[Ha ->] | (a & rest & Ha & Hint)]; rewrite Ha; [|rewrite Hint];
      rewrite Hsock; cbv beta iota zeta delta [bind ret raise print emit];
      rewrite Hb, Hc, Z.eqb_refl; cbv beta iota;
      match goal with |- context [find_process_on_port w ?m ?s] =>
        pose proof (Hfind s) as F; destruct (find_process_on_port w m s) as [r s2];
        simpl in F; subst r end;
      rewrite Hp;
      match goal with |- context [get_process_info w p ?s] =>
        pose proof (Hinfo s) as F; destruct (get_process_info w p s) as [r s3];
        simpl in F; subst r end;
      rewrite Hin; eexists; reflexivity. }
  pose proof (emits_only_from_empty _ _ env (main_kill_guarded w)) as F.
  rewrite List.Forall_forall in F.
  destruct E as (s' & E). split; [|split; [|split]].
  - rewrite E. reflexivity.
  - rewrite E. reflexivity.
  - rewrite E. cbn [snd st_log]. apply in_or_app. right. left. reflexivity.
  - intros k Hk. destruct (F _ Hk k eq_refl) as (_ & _ & l & Hl & _). congruence.
Qed.

Lemma digit_char_facts d :
  0 <= d < 10 ->
  PyStr.is_digit (digit_char d) = true /\
  Z.of_nat (Ascii.nat_of_ascii (digit_char d)) - 48 = d.
Proof.
  intros Hd. unfold digit_char, PyStr.is_digit.
  rewrite Ascii.nat_ascii_embedding by lia.
  split; [apply andb_true_iff; split; apply Nat.leb_le; lia | lia].
Qed.

Lemma str_N_fuel_shape f n acc :
  exists D, list_ascii_of_string (str_N_fuel (S f) n acc) = D ++ list_ascii_of_string acc /\
            D <> [] /\ forallb PyStr.is_digit D = true.
Proof.
  revert n acc. induction f as [|f IH]; intros n acc.
  - exists [digit_char (n mod 10)]. cbn [str_N_fuel].
    destruct (digit_char_facts (n mod 10)) as [Hd _]; [apply Z.mod_pos_bound; lia|].
    destruct (n <? 10); (split; [reflexivity | split; [discriminate | cbn [forallb]; rewrite Hd; reflexivity]]).
  - destruct (digit_char_facts (n mod 10)) as [Hd _]; [apply Z.mod_pos_bound; lia|].
    change (str_N_fuel (S (S f)) n acc) with
      (if n <? 10 then String (digit_char (n mod 10)) acc
       else str_N_fuel (S f) (n / 10) (String (digit_char (n mod 10)) acc)).
    destruct (n <? 10).
    + exists [digit_char (n mod 10)]. split; [reflexivity | split; [discriminate | cbn [forallb]; rewrite Hd; reflexivity]].
    + destruct (IH (n / 10) (String (digit_char (n mod 10)) acc)) as (D & E & Hne & Hall).
      exists (D ++ [digit_char (n mod 10)]). rewrite E, <- app_assoc. split; [reflexivity|].
      split; [destruct D; [contradiction | discriminate]|].
      rewrite forallb_app, Hall. cbn [forallb]. rewrite Hd. reflexivity.
Qed.

Lemma str_N_fuel_value f n acc :
  0 <= n < 2 ^ Z.of_nat (S f) ->
  PyStr.digits_value (list_ascii_of_string (str_N_fuel (S f) n acc)) 0 false =
  PyStr.digits_value (list_ascii_of_string acc) n true.
Proof.
  revert n acc. induction f as [|f IH]; intros n acc Hn.
  - destruct (digit_char_facts (n mod 10)) as [Hd Hv]; [apply Z.mod_pos_bound; lia|].
    assert (Hlt : n < 10) by (simpl in Hn; lia).
    cbn [str_N_fuel]. rewrite (proj2 (Z.ltb_lt n 10) Hlt).
    change (list_ascii_of_string (String (digit_char (n mod 10)) acc))
      with (digit_char (n mod 10) :: list_ascii_of_string acc).
    cbn [PyStr.digits_value]. rewrite Hd, Hv. f_equal. rewrite Z.mod_small by lia. lia.
  - destruct (digit_char_facts (n mod 10)) as [Hd Hv]; [apply Z.mod_pos_bound; lia|].
    change (str_N_fuel (S (S f)) n acc) with
      (if n <? 10 then String (digit_char (n mod 10)) acc
       else str_N_fuel (S f) (n / 10) (String (digit_char (n mod 10)) acc)).
    destruct (n <? 10) eqn:Hlt.
    + apply Z.ltb_lt in Hlt.
      change (list_ascii_of_string (String (digit_char (n mod 10)) acc))
        with (digit_char (n mod 10) :: list_ascii_of_string acc).
      cbn [PyStr.digits_value]. rewrite Hd, Hv. f_equal. rewrite Z.mod_small by lia. lia.
    + rewrite IH.
      * change (list_ascii_of_string (String (digit_char (n mod 10)) acc))
          with (digit_char (n mod 10) :: list_ascii_of_string acc).
        cbn [PyStr.digits_value]. rewrite Hd, Hv. f_equal.
        pose proof (Z.div_mod n 10). lia.
      * rewrite Nat2Z.inj_succ, Z.pow_succ_r in Hn by lia.
        split; [apply Z.div_pos; lia|].
        apply Z.div_lt_upper_bound; [lia|]. lia.
Qed.

Lemma log2_bound n : 0 <= n -> n < 2 ^ Z.of_nat (S (Z.to_nat (Z.log2 n))).
Proof.
  intros Hn. rewrite Nat2Z.inj_succ, Z2Nat.id by apply Z.log2_nonneg.
  destruct (Z.eq_dec n 0) as [->|]; [reflexivity|].
  apply Z.log2_spec. lia.
Qed.

Lemma str_Z_shape n :
  exists c D, list_ascii_of_string (str_Z n) = c :: D /\
    (PyStr.is_digit c = true \/ c = "-"%char) /\
    (forall d, In d (c :: D) -> d <> "-"%char -> PyStr.is_digit d = true) /\
    PyStr.is_digit (List.last (c :: D) c) = true.
Proof.
  unfold str_Z. destruct (n <? 0).
  - destruct (str_N_fuel_shape (Z.to_nat (Z.log2 (- n))) (- n) EmptyString) as (D & E & Hne & Hall).
    exists (Ascii.ascii_of_nat 45), D.
    change (list_ascii_of_string (String (Ascii.ascii_of_nat 45) (str_N_fuel (S (Z.to_nat (Z.log2 (- n)))) (- n) "")))
      with (Ascii.ascii_of_nat 45 :: list_ascii_of_string (str_N_fuel (S (Z.to_nat (Z.log2 (- n)))) (- n) "")).
    rewrite E, app_nil_r. split; [reflexivity|]. split; [right; reflexivity|].
    rewrite forallb_forall in Hall. split.
    + intros d [<- | Hd] Hneq; [contradiction Hneq; reflexivity | apply Hall, Hd].
    + destruct D as [|d D]; [contradiction|].
      change (List.last (Ascii.ascii_of_nat 45 :: d :: D) (Ascii.ascii_of_nat 45))
        with (List.last (d :: D) (Ascii.ascii_of_nat 45)).
      apply Hall. apply last_in_list. discriminate.
  - destruct (str_N_fuel_shape (Z.to_nat (Z.log2 n)) n EmptyString) as (D & E & Hne & Hall).
    rewrite app_nil_r in E. destruct D as [|c D]; [contradiction|].
    exists c, D. rewrite E. rewrite forallb_forall in Hall.
    split; [reflexivity|]. split; [left; apply Hall; left; reflexivity|].
    split; [intros d Hd _; apply Hall, Hd|].
    apply Hall. apply last_in_list. discriminate.
Qed.

Lemma str_Z_head n :
  match str_Z n with EmptyString => False | String c _ => PyStr.is_space c = false end.
Proof.
  destruct (str_Z_shape n) as (c & D & E & Hc & _ & _).
  destruct (str_Z n) as [|c' s'] eqn:Es; [discriminate E|].
  change (list_ascii_of_string (String c' s')) with (c' :: list_ascii_of_string s') in E.
  injection E as <- _. destruct Hc as [Hc | ->]; [apply is_digit_not_space, Hc | reflexivity].
Qed.

Lemma str_Z_strip n : PyStr.strip (str_Z n) = str_Z n.
Proof.
  pose proof (str_Z_head n) as Hh.
  destruct (str_Z_shape n) as (c & D & E & _ & _ & Hl).
  unfold PyStr.strip. rewrite lstrip_by_keep.
  - apply rstrip_by_keep. rewrite E.
    destruct (rev (c :: D)) as [|x r] eqn:Er; [trivial|].
    assert (x = List.last (c :: D) c) as ->.
    { rewrite <- (rev_involutive (c :: D)), Er. simpl.
      rewrite List.last_last. reflexivity. }
    apply is_digit_not_space, Hl.
  - destruct (str_Z n); [contradiction | exact Hh].
Qed.

Lemma rstrip_by_snoc p s c :
  p c = true -> PyStr.rstrip_by p (s ++ String c EmptyString) = PyStr.rstrip_by p s.
Proof.
  intros Hc. unfold PyStr.rstrip_by.
  rewrite list_ascii_of_string_app, rev_app_distr. cbn [list_ascii_of_string rev app].
  change (string_of_list_ascii (c :: rev (list_ascii_of_string s)))
    with (String c (string_of_list_ascii (rev (list_ascii_of_string s)))).
  cbn [PyStr.lstrip_by]. rewrite Hc. reflexivity.
Qed.

Lemma str_Z_newline_strip n : PyStr.strip (str_Z n ++ newline) = str_Z n.
Proof.
  pose proof (str_Z_head n) as Hh.
  unfold PyStr.strip. rewrite lstrip_by_keep.
  - unfold newline. rewrite rstrip_by_snoc by reflexivity.
    pose proof (str_Z_strip n) as E. unfold PyStr.strip in E.
    rewrite lstrip_by_keep in E; [exact E|].
    destruct (str_Z n); [contradiction | exact Hh].
  - destruct (str_Z n); [contradiction | exact Hh].
Qed.

Lemma str_N_fuel_len f n acc k :
  0 <= n < 10 ^ Z.of_nat k -> (1 <= k)%nat ->
  (length (list_ascii_of_string (str_N_fuel (S f) n acc)) <=
   k + length (list_ascii_of_string acc))%nat.
Proof.
  revert n acc k. induction f as [|f IH]; intros n acc k Hn Hk.
  - cbn [str_N_fuel]. destruct (n <? 10); cbn [list_ascii_of_string length]; lia.
  - change (str_N_fuel (S (S f)) n acc) with
      (if n <? 10 then String (digit_char (n mod 10)) acc
       else str_N_fuel (S f) (n / 10) (String (digit_char (n mod 10)) acc)).
    destruct (n <? 10) eqn:Hlt; [cbn [list_ascii_of_string length]; lia|].
    apply Z.ltb_ge in Hlt.
    destruct k as [|k]; [lia|]. destruct k as [|k].
    { change (Z.of_nat 1) with 1 in Hn. lia. }
    rewrite Nat2Z.inj_succ, Z.pow_succ_r in Hn by lia.
    pose proof (IH (n / 10) (String (digit_char (n mod 10)) acc) (S k)) as H.
    cbn [list_ascii_of_string length] in H.
    assert (Hd : 0 <= n / 10 < 10 ^ Z.of_nat (S k)).
    { split; [apply Z.div_pos; lia|]. apply Z.div_lt_upper_bound; lia. }
    specialize (H Hd ltac:(lia)). lia.
Qed.

(** A decimal text [str(n)] has at most [sys.get_int_max_str_digits()]
    digits when [|n| < 10 ^ 4300]. *)
Lemma str_N_fuel_count f n :
  0 <= n < 10 ^ Z.of_nat PyStr.max_str_digits ->
  (PyStr.count_digits (list_ascii_of_string (str_N_fuel (S f) n EmptyString)) <=
   PyStr.max_str_digits)%nat.
Proof.
  intros Hn.
  destruct (str_N_fuel_shape f n EmptyString) as (D & E & _ & Hall).
  rewrite app_nil_r in E. rewrite E, (count_digits_all _ Hall), <- E.
  pose proof (str_N_fuel_len f n EmptyString PyStr.max_str_digits Hn
                ltac:(unfold PyStr.max_str_digits; lia)) as H.
  cbn [list_ascii_of_string length] in H. lia.
Qed.

Lemma str_Z_int n :
  Z.abs n < 10 ^ Z.of_nat PyStr.max_str_digits -> PyStr.int_of_string (str_Z n) = Some n.
Proof.
  intros Hb.
  pose proof (int_strip_strip (str_Z n)) as Hs. rewrite str_Z_strip in Hs.
  unfold PyStr.int_of_string. rewrite Hs. unfold str_Z.
  destruct (n <? 0) eqn:Hn.
  - apply Z.ltb_lt in Hn.
    change (list_ascii_of_string (String (Ascii.ascii_of_nat 45) (str_N_fuel (S (Z.to_nat (Z.log2 (- n)))) (- n) "")))
      with (Ascii.ascii_of_nat 45 :: list_ascii_of_string (str_N_fuel (S (Z.to_nat (Z.log2 (- n)))) (- n) "")).
    cbv beta iota. rewrite bool_decide_eq_true_2 by reflexivity.
    rewrite (proj2 (Nat.ltb_ge _ _) (str_N_fuel_count _ (- n) ltac:(lia))).
    rewrite str_N_fuel_value by (split; [lia | apply log2_bound; lia]).
    cbn [list_ascii_of_string PyStr.digits_value option_map]. f_equal. lia.
  - apply Z.ltb_ge in Hn.
    pose proof (str_N_fuel_count (Z.to_nat (Z.log2 n)) n ltac:(lia)) as Hc.
    destruct (str_N_fuel_shape (Z.to_nat (Z.log2 n)) n EmptyString) as (D & E & Hne & Hall).
    pose proof (str_N_fuel_value (Z.to_nat (Z.log2 n)) n EmptyString
                  (conj Hn (log2_bound n Hn))) as V.
    rewrite app_nil_r in E. rewrite E in V, Hc |- *.
    destruct D as [|c D]; [contradiction|].
    cbn [forallb] in Hall. apply andb_true_iff in Hall as [Hc' _]. cbv beta iota.
    rewrite bool_decide_eq_false_2.
    2: { intros ->. discriminate Hc'. }
    rewrite bool_decide_eq_false_2.
    2: { intros ->. discriminate Hc'. }
    rewrite (proj2 (Nat.ltb_ge _ _) Hc).
    rewrite V. reflexivity.
Qed.

(** X19: On Linux/Mac, when [lsof] exits 0 and prints one pid [k] followed by
    a newline, [find_process_on_port] returns [k]: the decimal text
    [str(k)] of an integer of at most 4300 digits reads back as [k]. *)
Theorem find_process_on_port_lsof_pid (w : World) (port k : Z) (s : St) :
  is_windows w = false -> Z.abs k < 10 ^ Z.of_nat PyStr.max_str_digits ->
  w_run w ["lsof"; "-ti"; (":" ++ str_Z port)%string] = Ran (mkCompleted 0 (str_Z k ++ newline)) ->
  fst (find_process_on_port w port s) = Ok (Some k).
Proof.
  intros Hwin Hk Hr. unfold find_process_on_port. rewrite Hwin.
  cbv beta iota zeta delta [try_except bind subprocess_run get_env emit ret raise print int_
    st_env st_log].
  rewrite Hr. cbv beta iota delta [returncode stdout]. rewrite str_Z_newline_strip, (str_Z_int k Hk).
  pose proof (str_Z_head k) as Hh.
  destruct (str_Z k) as [|c r]; [contradiction|]. reflexivity.
Qed.

Lemma lsof_world_runs out : runs_raise_exceptions (lsof_world out).
Proof. intros cmd e H. simpl in H. destruct cmd as [|c r]; [discriminate|]. destruct (String.eqb c "lsof"); discriminate. Qed.

Lemma netstat_world_runs out : runs_raise_exceptions (netstat_world out).
Proof. intros cmd e H. simpl in H. destruct cmd as [|c r]; [discriminate|]. destruct (String.eqb c "netstat"); discriminate. Qed.

Lemma find_process_on_port_lsof_witness :
  fst (find_process_on_port (lsof_world ("1234" ++ newline)%string) 8000 st0) = Ok (Some 1234).
Proof.
  assert (Ha : forall c, w_run (lsof_world ("1234" ++ newline)%string)
                             ["lsof"; "-ti"; (":" ++ str_Z 8000)%string] = Ran c ->
                PyStr.is_ascii (stdout c) = true)
    by (intros c Hc; vm_compute in Hc; injection Hc as <-; vm_compute; reflexivity).
  rewrite (proj1 (find_process_on_port_lsof (lsof_world ("1234" ++ newline)%string) 8000 st0
                    eq_refl (lsof_world_runs _) Ha)).
  vm_compute. reflexivity.
Defined.

Lemma find_process_on_port_netstat_witness :
  fst (find_process_on_port (netstat_world netstat_8000) 8000 st0) = Ok (Some 4321).
Proof.
  assert (Ha : forall c, w_run (netstat_world netstat_8000) ["netstat"; "-ano"] = Ran c ->
                PyStr.is_ascii (stdout c) = true)
    by (intros c Hc; vm_compute in Hc; injection Hc as <-; vm_compute; reflexivity).
  rewrite (proj1 (find_process_on_port_netstat (netstat_world netstat_8000) 8000 st0
                    eq_refl (netstat_world_runs _) Ha)).
  vm_compute. reflexivity.
Defined.

Lemma get_process_info_ps_record_witness :
  pi_pid (mkInfo "python3" 1234 "python3 -m http.server") = 1234 /\
  pi_name (mkInfo "python3" 1234 "python3 -m http.server") <> EmptyString.
Proof.
  destruct (get_process_info_ps_record (reap_world (Some "n") []) 1234 st0
              (mkInfo "python3" 1234 "python3 -m http.server") eq_refl)
    as (_ & Hp & Hn & _); [vm_compute; reflexivity|].
  split; assumption.
Defined.

Lemma main_port_free_witness :
  main (server_world node_v20 (Ran (mkCompleted 0 "")) busy_none) (mkSt ∅ []) =
  (Ok tt, mkSt ∅ ([] ++ [EvPrint ""; EvPrint rule;
                         EvPrint ("  Поиск процесса на порту " ++ str_Z 8000)%string;
                         EvPrint rule; EvPrint "";
                         EvPrint ("[OK] Порт " ++ str_Z 8000 ++ " свободен")%string;
                         EvPrint ""])).
Proof.
  apply (main_port_free (server_world node_v20 (Ran (mkCompleted 0 "")) busy_none) ∅ [] 8000 111).
  - left. split; reflexivity.
  - reflexivity.
  - lia.
  - reflexivity.
  - discriminate.
Defined.

Lemma main_socket_error_escapes_witness :
  fst (main (mkWorld "Linux" [] (Some SockTimeout) (fun _ _ => inl 0)
               (fun _ => RunRaised FileNotFoundError) None) st0) = Raise (SockErr SockTimeout) /\
  exit_status (fst (main (mkWorld "Linux" [] (Some SockTimeout) (fun _ _ => inl 0)
               (fun _ => RunRaised FileNotFoundError) None) st0)) = 1.
Proof.
  apply (main_socket_error_escapes _ st0 8000 SockTimeout).
  - left. split; reflexivity.
  - left. reflexivity.
Defined.

Lemma main_process_not_found_witness :
  fst (main (lsof_world "") (mkSt ∅ [])) = Ok tt /\
  In (EvPrint ("[!] Не удалось найти процесс на порту " ++ str_Z 8000)%string)
     (st_log (snd (main (lsof_world "") (mkSt ∅ [])))) /\
  Forall quiet (st_log (snd (main (lsof_world "") (mkSt ∅ [])))).
Proof.
  apply (main_process_not_found (lsof_world "") ∅ 8000).
  - left. split; reflexivity.
  - reflexivity.
  - lia.
  - reflexivity.
  - left. intros s. reflexivity.
Defined.

Lemma check_node_installed_outcomes_witness :
  check_node_installed (server_world node_v20 (Ran (mkCompleted 0 "")) busy_none) st0 =
  (Ok true, mkSt ∅ ([] ++ [EvRun ["node"; "--version"] ∅;
                           EvPrint ("Node.js: " ++ PyStr.strip ("v20.11.1" ++ newline))%string])).
Proof.
  apply (proj1 (check_node_installed_outcomes
                  (server_world node_v20 (Ran (mkCompleted 0 "")) busy_none) ∅ [])
           (mkCompleted 0 ("v20.11.1" ++ newline)%string)); reflexivity.
Defined.

Lemma start_server_node_missing_witness :
  start_server (server_world (RunRaised FileNotFoundError) (Ran (mkCompleted 0 "")) busy_none) st0 =
  (Raise (SystemExit 1),
   mkSt ∅ ([] ++ [EvRun ["node"; "--version"] ∅;
                  EvPrint "ОШИБКА: Node.js не найден в PATH!";
                  EvPrint "Убедитесь, что Node.js установлен и добавлен в системную переменную PATH."])).
Proof.
  apply (start_server_node_missing _ ∅ []). left. reflexivity.
Defined.

Lemma send_error_reply_witness :
  exists h', HttpHandler.send_error 404 "File not found" "<p>404</p>" "SimpleHTTP/0.6 Python/3.11"
               "Thu, 15 Oct 2026 12:00:00 GMT" (HttpHandler.mkHandler "HTTP/1.1" (Some "GET") None []) =
             Some h'.
Proof.
  eexists. apply send_error_reply; [discriminate | left; reflexivity].
Defined.

Lemma get_process_info_tasklist_no_row_witness :
  fst (get_process_info
         (tasklist_world "INFO: No tasks are running which match the specified criteria.") 4321 st0) =
  Ok None.
Proof.
  apply (get_process_info_tasklist_no_row _ 4321 st0
           (mkCompleted 0 ("INFO: No tasks are running which match the specified criteria." ++ newline)));
    [reflexivity | reflexivity | vm_compute; reflexivity].
Defined.

Lemma main_eof_at_prompt_witness :
  fst (main (reap_world None []) (mkSt ∅ [])) = Raise EOFError /\
  exit_status (fst (main (reap_world None []) (mkSt ∅ []))) = 1 /\
  In (EvPrompt "Завершить процесс? (y/n): ") (st_log (snd (main (reap_world None []) (mkSt ∅ [])))) /\
  (forall k, ~ In (EvKillCall k) (st_log (snd (main (reap_world None []) (mkSt ∅ []))))).
Proof.
  apply (main_eof_at_prompt (reap_world None []) ∅ 8000 1234
           (mkInfo "python3" 1234 "python3 -m http.server")).
  - left. split; reflexivity.
  - reflexivity.
  - lia.
  - reflexivity.
  - intros s. reflexivity.
  - lia.
  - intros s. reflexivity.
  - reflexivity.
Defined.

Lemma find_process_on_port_lsof_pid_witness :
  fst (find_process_on_port (lsof_world (str_Z 4321 ++ newline)) 8000 st0) = Ok (Some 4321).
Proof. apply find_process_on_port_lsof_pid; [reflexivity | vm_compute; reflexivity | reflexivity]. Defined.
